(** * nexus_back: the message bridge routing engine, embedded in Rocq

    The development follows the Python sources of the repository:

    - [companies/models.py]            credential blob of a bridge configuration
    - [companies/bridge_views.py]      setup life cycle of a bridge configuration
    - [messaging/models.py], [messaging/services/whatsapp_service.py]
                                       conversation store and WhatsApp webhook
    - [matrix_integration/services/platform_services/whatsapp_service.py]
                                       the per-bridge WhatsApp parser
    - [matrix_integration/services/matrix_bridge_service.py]
                                       messages that come back from the workspace
    - [matrix_integration/services/bridge_manager.py], [ai_service.py]
                                       routing engine and AI reply

    Part I holds the embedding, Part II the theorems. *)

From stdpp Require Import base option list strings pretty gmap.
From Stdlib Require Import Ascii ZArith QArith Lia.

Set Warnings "-register-all".
Local Open Scope string_scope.
Local Open Scope list_scope.
Local Open Scope nat_scope.

(** ** Python values *)

Module Py.

(** Exceptions are identified by their class name. *)
Record exn := Exn { exn_class : string }.

Definition ImportError := Exn "ImportError".
Definition AttributeError := Exn "AttributeError".
Definition TypeError := Exn "TypeError".
Definition ValueError := Exn "ValueError".
Definition KeyError := Exn "KeyError".
Definition IndexError := Exn "IndexError".
Definition InvalidToken := Exn "InvalidToken".
Definition IntegrityError := Exn "IntegrityError".
Definition DoesNotExist := Exn "DoesNotExist".
Definition MultipleObjectsReturned := Exn "MultipleObjectsReturned".
Definition CredentialUnavailable := Exn "CredentialUnavailable".

Definition exn_eqb (a b : exn) : bool := String.eqb (exn_class a) (exn_class b).

(** The outcome of evaluating an expression: a value, or a raised exception. *)
Inductive result (A : Type) : Type :=
| Ok (a : A)
| Raise (e : exn).
Arguments Ok {A} a.
Arguments Raise {A} e.

Definition is_ok {A} (r : result A) : bool :=
  match r with Ok _ => true | Raise _ => false end.

#[export] Instance result_ret : MRet result := fun A a => Ok a.
#[export] Instance result_bind : MBind result := fun A B f r =>
  match r with Ok a => f a | Raise e => Raise e end.

(** Data as [json.loads] produces it: the values a webhook payload or a
    credential map is made of.  A [dict] keeps its insertion order. *)
Inductive json : Type :=
| JNone
| JBool (b : bool)
| JInt (z : Z)
| JStr (s : string)
| JList (l : list json)
| JDict (d : list (string * json)).

(** Truth value of an object, as [if x:] and [not x] test it. *)
Definition truthy (v : json) : bool :=
  match v with
  | JNone => false
  | JBool b => b
  | JInt z => negb (Z.eqb z 0)
  | JStr s => negb (String.eqb s "")
  | JList l => match l with [] => false | _ => true end
  | JDict d => match d with [] => false | _ => true end
  end.

Fixpoint assoc (k : string) (d : list (string * json)) : option json :=
  match d with
  | [] => None
  | (k', v) :: d' => if String.eqb k k' then Some v else assoc k d'
  end.

(** [d.get(k, default)]; an object that is no dict has no [get]. *)
Definition get (d : json) (k : string) (default : json) : result json :=
  match d with
  | JDict kv => Ok (from_option id default (assoc k kv))
  | _ => Raise AttributeError
  end.

(** [d[k]]: [KeyError] when the key is missing, [TypeError] on an object
    that cannot be indexed by a string. *)
Definition getitem (d : json) (k : string) : result json :=
  match d with
  | JDict kv => from_option Ok (Raise KeyError) (assoc k kv)
  | _ => Raise TypeError
  end.

(** [k in d] for a dict [d].  Every caller in the sources has already
    called [d.get] when it reaches an [in] test, so [d] is a dict there. *)
Definition contains (d : json) (k : string) : result bool :=
  match d with
  | JDict kv => Ok (bool_decide (is_Some (assoc k kv)))
  | _ => Raise TypeError
  end.

(** [bytes]: a sequence of octets. *)
Definition bytes := list Byte.byte.

(** [s.ljust(n, c)] and [s[:n]] on [str]. *)
Fixpoint repeat_char (c : Ascii.ascii) (n : nat) : string :=
  match n with O => "" | S n' => String c (repeat_char c n') end.

Definition ljust (s : string) (n : nat) (c : Ascii.ascii) : string :=
  String.append s (repeat_char c (n - String.length s)).

Definition str_prefix (n : nat) (s : string) : string := String.substring 0 n s.

End Py.

(** ** The libraries the sources call

    [cryptography.fernet], [json], [base64] and the UTF-8 codec of [str]
    are not part of the repository.  The embedding takes them as an
    interface; [LibLaws] states what their documentation promises. *)

Module Lib.
Import Py.

Class Libs := {
  (** [s.encode()] and [b.decode()] *)
  encode : string → bytes;
  decode : bytes → result string;
  (** [json.dumps] and [json.loads] *)
  json_dumps : json → string;
  json_loads : string → result json;
  (** [base64.urlsafe_b64encode], [base64.b64encode], [base64.b64decode] *)
  urlsafe_b64encode : bytes → bytes;
  b64encode : bytes → bytes;
  b64decode : bytes → result bytes;
  (** [from cryptography.fernet import Fernet] succeeds *)
  cryptography_installed : bool;
  (** [Fernet(key)], [f.encrypt(data)] with the random bytes and the clock
      it draws, [f.decrypt(token)] *)
  fernet : Type;
  Fernet : bytes → result fernet;
  encrypt : fernet → N → bytes → bytes;
  decrypt : fernet → bytes → result bytes;
  (** [settings.BRIDGE_ENCRYPTION_KEY], when the settings module sets it *)
  BRIDGE_ENCRYPTION_KEY : option string;
  (** [str(x)], as an f-string prints a value, and [s.title()] *)
  str_of : json → string;
  title : string → string
}.

(** A dict as Python builds it holds each key once. *)
Fixpoint well_formed (v : json) : Prop :=
  match v with
  | JList l => (fix all l := match l with [] => True | x :: l' => well_formed x ∧ all l' end) l
  | JDict d =>
      NoDup (map fst d) ∧
      (fix all d := match d with [] => True | (_, x) :: d' => well_formed x ∧ all d' end) d
  | _ => True
  end.

Class LibLaws (L : Libs) := {
  (** UTF-8 spends at least one octet on every character and is read back *)
  encode_length : ∀ s, (String.length s ≤ length (encode s))%nat;
  decode_encode : ∀ s, decode (encode s) = Ok s;
  (** JSON text is read back as the value that was written *)
  loads_dumps : ∀ v, well_formed v → json_loads (json_dumps v) = Ok v;
  (** base64 text is ASCII, not empty for a non-empty input, and read back *)
  b64_text : ∀ b, ∃ s, decode (b64encode b) = Ok s ∧ encode s = b64encode b ∧
                        (b ≠ [] → s ≠ "");
  b64decode_b64encode : ∀ b, b64decode (b64encode b) = Ok b;
  (** [Fernet] accepts the url-safe base64 form of any 32 octets *)
  Fernet_key : ∀ k, length k = 32%nat → is_ok (Fernet (urlsafe_b64encode k)) = true;
  (** a token is ASCII, never empty, and decrypts under its own key *)
  token_text : ∀ f r p, ∃ s, decode (encrypt f r p) = Ok s ∧ encode s = encrypt f r p ∧ s ≠ "";
  decrypt_encrypt : ∀ f r p, decrypt f (encrypt f r p) = Ok p;
  (** JSON text is never empty *)
  dumps_nonempty : ∀ v, encode (json_dumps v) ≠ []
}.

End Lib.

(** ** companies/models.py: the credential blob *)

Module Vault.
Import Py Lib.

(** The columns of [CompanyBridgeConfiguration] that the setup flow reads
    and writes. *)
Record CompanyBridgeConfiguration := {
  company : nat;
  platform : string;
  status : string;
  encrypted_config : option string;
  error_message : option string;
  setup_completed_at : option Z;
  last_sync_at : option Z
}.

Definition with_encrypted_config (self : CompanyBridgeConfiguration) (blob : option string) :=
  {| company := company self; platform := platform self; status := status self;
     encrypted_config := blob; error_message := error_message self;
     setup_completed_at := setup_completed_at self; last_sync_at := last_sync_at self |}.

Section WithLibs.
Context `{L : Libs}.

(** Lines 315-325 and 347-355, the same in both methods: the key string is
    padded or cut to 32 characters and its first 32 octets, in url-safe
    base64, are handed to [Fernet]. *)
Definition bridge_fernet : result fernet :=
  if cryptography_installed then
    let key_string := from_option id "your-32-char-encryption-key-here-12345" BRIDGE_ENCRYPTION_KEY in
    let key_string :=
      if String.length key_string <? 32 then ljust key_string 32 "0"%char
      else if 32 <? String.length key_string then str_prefix 32 key_string
      else key_string in
    let key := urlsafe_b64encode (take 32 (encode key_string)) in
    Fernet key
  else Raise ImportError.

(** [set_encrypted_config(self, config_data)]; [r] stands for the random
    bytes and the clock that [Fernet.encrypt] draws. *)
Definition set_encrypted_config (self : CompanyBridgeConfiguration) (config_data : json) (r : N)
  : result CompanyBridgeConfiguration :=
  let body :=
    f ← bridge_fernet;
    let config_json := json_dumps config_data in
    let encrypted_config := encrypt f r (encode config_json) in
    blob ← decode encrypted_config;
    Ok (with_encrypted_config self (Some blob)) in
  match body with
  | Raise e =>
      if exn_eqb e ImportError then
        let config_json := json_dumps config_data in
        blob ← decode (b64encode (encode config_json));
        Ok (with_encrypted_config self (Some blob))
      else Raise e
  | ok => ok
  end.

(** The [try] block of [get_decrypted_config], lines 342-358. *)
Definition decrypt_blob (blob : string) : result json :=
  f ← bridge_fernet;
  decrypted_data ← decrypt f (encode blob);
  text ← decode decrypted_data;
  json_loads text.

(** The handler of [ImportError], lines 361-366. *)
Definition decode_blob (blob : string) : result json :=
  decoded_data ← b64decode (encode blob);
  text ← decode decoded_data;
  json_loads text.

(** [get_decrypted_config(self)] *)
Definition get_decrypted_config (self : CompanyBridgeConfiguration) : result json :=
  match encrypted_config self with
  | None | Some "" => Ok (JDict [])
  | Some blob =>
      match decrypt_blob blob with
      | Ok v => Ok v
      | Raise e =>
          if exn_eqb e ImportError then
            match decode_blob blob with
            | Ok v => Ok v
            | Raise _ => Ok (JDict [])
            end
          else Ok (JDict [])
      end
  end.

(** The credentials of a configuration cannot be had: nothing is stored,
    or what is stored does not decrypt (a corrupt blob, or one written
    under another secret: [Fernet.decrypt] raises [InvalidToken], and
    any other failure of the block counts as well). *)
Definition credential_unavailable (self : CompanyBridgeConfiguration) : Prop :=
  match encrypted_config self with
  | None | Some "" => True
  | Some blob => ∃ e, decrypt_blob blob = Raise e ∧ exn_eqb e ImportError = false
  end.

(** What the specification asks of the vault: an explicit error. *)
Definition fails_closed (self : CompanyBridgeConfiguration) : Prop :=
  credential_unavailable self → get_decrypted_config self = Raise CredentialUnavailable.

End WithLibs.

(** A configuration right after [setup]: nothing stored yet. *)
Definition fresh_config : CompanyBridgeConfiguration :=
  {| company := 1; platform := "whatsapp"; status := "pending";
     encrypted_config := None; error_message := None;
     setup_completed_at := None; last_sync_at := None |}.

(** A configuration whose blob is no token at all. *)
Definition corrupt_config : CompanyBridgeConfiguration :=
  with_encrypted_config fresh_config (Some "gAAAAA-not-a-token").

(** The credential map of [test_encrypt_decrypt_config]. *)
Definition sample_creds : json :=
  JDict [("access_token", JStr "secret_token_123");
         ("webhook_verify_token", JStr "verify_token_456")].

End Vault.

(** ** matrix_integration/models.py: [BridgeCredentials] *)

Module Credentials.
Import Py Lib.

Record BridgeCredentials := {
  bridge : nat;
  encrypted_data : string;
  encryption_version : string
}.

Section WithLibs.
Context `{L : Libs}.

(** [Fernet(settings.BRIDGE_ENCRYPTION_KEY.encode())], lines 83 and 89 *)
Definition settings_fernet : result fernet :=
  if cryptography_installed then
    key ← from_option Ok (Raise AttributeError) BRIDGE_ENCRYPTION_KEY;
    Fernet (encode key)
  else Raise ImportError.

Definition encrypt_credentials (self : BridgeCredentials) (data : json) (r : N)
  : result BridgeCredentials :=
  fernet ← settings_fernet;
  let encrypted := encrypt fernet r (encode (json_dumps data)) in
  text ← decode encrypted;
  Ok {| bridge := bridge self; encrypted_data := text;
        encryption_version := encryption_version self |}.

Definition decrypt_credentials (self : BridgeCredentials) : result json :=
  fernet ← settings_fernet;
  decrypted ← decrypt fernet (encode (encrypted_data self));
  text ← decode decrypted;
  json_loads text.

(** What the specification says of this vault: what was encrypted is
    read back. *)
Definition round_trips (self : BridgeCredentials) (data : json) (r : N) : Prop :=
  ∃ self', encrypt_credentials self data r = Ok self' ∧ decrypt_credentials self' = Ok data.

End WithLibs.

(** The key the settings ship: line 175 of settings.py, where the
    environment sets none. *)
Definition shipped_key : string := "your-32-char-encryption-key-here-12345".

Definition acme_credentials : BridgeCredentials :=
  {| bridge := 7; encrypted_data := EmptyString; encryption_version := "v1" |}.

End Credentials.

(** ** A small executable instance of the library interface

    Used to run the embedding on concrete inputs: text is one octet per
    character, base64 is the identity, a value is written as the binary
    code of its tree, and a token is a version octet, the key and the
    plaintext.  It has the laws of [LibLaws] and no secrecy. *)

Module RefLibs.
Import Py Lib.

#[export] Instance byte_eq_dec : EqDecision Byte.byte := Byte.byte_eq_dec.

Definition ref_encode (s : string) : bytes := String.list_byte_of_string s.
Definition ref_decode (b : bytes) : result string := Ok (String.string_of_list_byte b).

Fixpoint to_tree (v : json) : gen_tree (bool + Z + string) :=
  match v with
  | JNone => GenNode 0 []
  | JBool b => GenLeaf (inl (inl b))
  | JInt z => GenLeaf (inl (inr z))
  | JStr s => GenLeaf (inr s)
  | JList l => GenNode 1 (map to_tree l)
  | JDict d => GenNode 2 (map (λ '(k, x), GenNode 3 [GenLeaf (inr k); to_tree x]) d)
  end.

Fixpoint of_tree (t : gen_tree (bool + Z + string)) : option json :=
  match t with
  | GenLeaf (inl (inl b)) => Some (JBool b)
  | GenLeaf (inl (inr z)) => Some (JInt z)
  | GenLeaf (inr s) => Some (JStr s)
  | GenNode 0 [] => Some JNone
  | GenNode 1 ts => JList <$> mapM of_tree ts
  | GenNode 2 ts =>
      JDict <$> mapM (λ t, match t with
                           | GenNode 3 [GenLeaf (inr k); tx] => x ← of_tree tx; Some (k, x)
                           | _ => None
                           end) ts
  | _ => None
  end.

Fixpoint bits (p : positive) : string :=
  match p with
  | xH => "."
  | xO p' => String "0" (bits p')
  | xI p' => String "1" (bits p')
  end.

Fixpoint unbits (s : string) : option positive :=
  match s with
  | EmptyString => None
  | String c s' =>
      if Ascii.eqb c "." then (if String.eqb s' "" then Some xH else None)
      else if Ascii.eqb c "0" then xO <$> unbits s'
      else if Ascii.eqb c "1" then xI <$> unbits s'
      else None
  end.

Definition ref_json_dumps (v : json) : string := bits (countable.encode (to_tree v)).
Definition ref_json_loads (s : string) : result json :=
  match p ← unbits s; t ← (countable.decode p : option (gen_tree (bool + Z + string))); of_tree t with
  | Some v => Ok v
  | None => Raise ValueError
  end.

Definition ref_Fernet (key : bytes) : result bytes :=
  if length key =? 32 then Ok key else Raise ValueError.

Definition ref_encrypt (f : bytes) (r : N) (p : bytes) : bytes :=
  Byte.x80 :: f ++ p.

Definition ref_decrypt (f : bytes) (token : bytes) : result bytes :=
  match token with
  | Byte.x80 :: t =>
      if bool_decide (take (length f) t = f) then Ok (drop (length f) t)
      else Raise InvalidToken
  | _ => Raise InvalidToken
  end.

(** Text and numbers print as themselves; a list or a dict prints as its
    JSON code here. *)
Definition ref_str_of (v : json) : string :=
  match v with
  | JNone => "None"
  | JBool b => if b then "True" else "False"
  | JInt z => pretty z
  | JStr s => s
  | _ => ref_json_dumps v
  end.

Definition ref_libs (installed : bool) (key : option string) : Libs := {|
  Lib.encode := ref_encode;
  Lib.decode := ref_decode;
  json_dumps := ref_json_dumps;
  json_loads := ref_json_loads;
  urlsafe_b64encode := id;
  b64encode := id;
  b64decode := Ok;
  cryptography_installed := installed;
  fernet := bytes;
  Fernet := ref_Fernet;
  encrypt := ref_encrypt;
  decrypt := ref_decrypt;
  BRIDGE_ENCRYPTION_KEY := key;
  str_of := ref_str_of;
  title := id
|}.

End RefLibs.

(** ** companies/bridge_views.py: the setup life cycle *)

Module BridgeViews.
Import Py Lib Vault.

(** What [requests.get] hands back: the status, the body read as JSON
    ([response.json()], which raises on a body that is none) and the
    body as text. *)
Record Reply := { reply_status : nat; reply_json : result json; reply_text : string }.

(** What [subprocess.run] hands back. *)
Record Completed := { returncode : Z; stderr : string }.

(** The network, the [signal-cli] process and the libraries, as the
    views call them. *)
Class Collab := {
  (** [requests.get(f"https://graph.facebook.com/v18.0/{object_id}",
      headers={'Authorization': f'Bearer {token}'})] *)
  graph_api_get : json → json → result Reply;
  (** [requests.get(f"https://api.telegram.org/bot{bot_token}/getMe")] *)
  telegram_get_me : json → result Reply;
  (** [subprocess.run([cli, '--account', phone, 'listIdentities'],
      capture_output=True, text=True, timeout=10)] *)
  signal_list_identities : json → json → result Completed;
  (** [str(e)] *)
  str_exn : exn → string;
  (** [serializers.CharField(required=False).run_validation(value)]:
      the text the field keeps, when it takes the value *)
  char_field_value : json → option string
}.

(** The dict a connection test returns: ['success'] and, on failure, ['error']. *)
Record TestResult := { success : bool; error : option string }.

Definition passed : TestResult := {| success := true; error := None |}.
Definition failed (msg : string) : TestResult := {| success := false; error := Some msg |}.

(** A response: the HTTP status code and the ['status'] entry of its body. *)
Record Response := { status_code : nat; body_status : option string }.

(** The fields [BridgeSetupSerializer] declares, in their order, each
    with its default when it has one; none is required. *)
Definition SETUP_FIELDS : list (string * option string) :=
  [("access_token", None); ("phone_number_id", None); ("business_account_id", None);
   ("webhook_verify_token", None); ("bot_token", None); ("bot_username", None);
   ("page_id", None); ("app_secret", None); ("page_access_token", None);
   ("phone_number", None); ("signal_cli_path", Some "signal-cli"); ("account_data", None)].

Section WithCollab.
Context `{L : Libs} `{C : Collab}.

Definition _test_whatsapp_connection (config_data : json) : result TestResult :=
  access_token ← get config_data "access_token" JNone;
  phone_number_id ← get config_data "phone_number_id" JNone;
  if negb (truthy access_token) || negb (truthy phone_number_id) then
    Ok (failed "Missing access token or phone number ID")
  else
    response ← graph_api_get phone_number_id access_token;
    if reply_status response =? 200 then Ok passed
    else Ok (failed (String.append "API test failed: " (reply_text response))).

Definition _test_telegram_connection (config_data : json) : result TestResult :=
  bot_token ← get config_data "bot_token" JNone;
  if negb (truthy bot_token) then Ok (failed "Missing bot token")
  else
    response ← telegram_get_me bot_token;
    if reply_status response =? 200 then
      bot_info ← reply_json response;
      _ ← get bot_info "result" (JDict []);
      Ok passed
    else Ok (failed (String.append "Bot API test failed: " (reply_text response))).

Definition _test_instagram_connection (config_data : json) : result TestResult :=
  access_token ← get config_data "access_token" JNone;
  page_id ← get config_data "page_id" JNone;
  if negb (truthy access_token) || negb (truthy page_id) then
    Ok (failed "Missing access token or page ID")
  else
    response ← graph_api_get page_id access_token;
    if reply_status response =? 200 then Ok passed
    else Ok (failed (String.append "API test failed: " (reply_text response))).

Definition _test_facebook_connection (config_data : json) : result TestResult :=
  page_access_token ← get config_data "page_access_token" JNone;
  page_id ← get config_data "page_id" JNone;
  if negb (truthy page_access_token) || negb (truthy page_id) then
    Ok (failed "Missing page access token or page ID")
  else
    response ← graph_api_get page_id page_access_token;
    if reply_status response =? 200 then Ok passed
    else Ok (failed (String.append "API test failed: " (reply_text response))).

Definition _test_signal_connection (config_data : json) : result TestResult :=
  signal_cli_path ← get config_data "signal_cli_path" (JStr "signal-cli");
  phone_number ← get config_data "phone_number" JNone;
  if negb (truthy phone_number) then Ok (failed "Missing phone number")
  else
    match signal_list_identities signal_cli_path phone_number with
    | Ok result =>
        if Z.eqb (returncode result) 0 then Ok passed
        else Ok (failed (String.append "Signal CLI test failed: " (stderr result)))
    | Raise e =>
        if exn_eqb e (Exn "TimeoutExpired") then Ok (failed "Signal CLI test timed out")
        else Ok (failed (String.append "Signal CLI test error: " (str_exn e)))
    end.

(** [_test_bridge_connection(config, test_data)]: whatever a platform test
    raises becomes a failed result. *)
Definition _test_bridge_connection (config : CompanyBridgeConfiguration) : result TestResult :=
  let platform := platform config in
  config_data ← get_decrypted_config config;
  let dispatched :=
    if String.eqb platform "whatsapp" then _test_whatsapp_connection config_data
    else if String.eqb platform "telegram" then _test_telegram_connection config_data
    else if String.eqb platform "instagram" then _test_instagram_connection config_data
    else if String.eqb platform "facebook" then _test_facebook_connection config_data
    else if String.eqb platform "signal" then _test_signal_connection config_data
    else Ok (failed "Unsupported platform") in
  match dispatched with
  | Ok r => Ok r
  | Raise e => Ok (failed (str_exn e))
  end.

Definition set_error (config : CompanyBridgeConfiguration) (msg : string) :=
  {| company := company config; platform := platform config; status := "error";
     encrypted_config := encrypted_config config; error_message := Some msg;
     setup_completed_at := setup_completed_at config; last_sync_at := last_sync_at config |}.

Definition set_active (config : CompanyBridgeConfiguration) (now : Z) (msg : option string) :=
  {| company := company config; platform := platform config; status := "active";
     encrypted_config := encrypted_config config; error_message := msg;
     setup_completed_at := Some now; last_sync_at := Some now |}.

Definition set_status (config : CompanyBridgeConfiguration) (st : string) (msg : option string) :=
  {| company := company config; platform := platform config; status := st;
     encrypted_config := encrypted_config config; error_message := msg;
     setup_completed_at := setup_completed_at config; last_sync_at := last_sync_at config |}.

(** The call of lines 198-202 and 244-248.  [initialize_company_bridge]
    is an [async def] and the call is not awaited: its arguments are
    evaluated, a coroutine is built and dropped, and nothing of the
    method runs. *)
Definition link_workspace (config : CompanyBridgeConfiguration) : result unit :=
  config_data ← get_decrypted_config config;
  Ok ().

(** [serializer.validated_data] of [BridgeSetupSerializer]: of the keys
    of the request the declared ones, each as the text its field
    keeps, and the default of a field that the request leaves out;
    [None] when a field refuses its value. *)
Fixpoint validated_fields (fields : list (string * option string)) (data : list (string * json))
  : option (list (string * json)) :=
  match fields with
  | [] => Some []
  | (name, default_) :: fields' =>
      match assoc name data with
      | Some value =>
          text ← char_field_value value;
          rest ← validated_fields fields' data;
          Some ((name, JStr text) :: rest)
      | None =>
          rest ← validated_fields fields' data;
          Some match default_ with
               | Some text => (name, JStr text) :: rest
               | None => rest
               end
      end
  end.

(** [BridgeSetupSerializer(data=request.data)]: [None] stands for
    [is_valid()] returning [False], as it does for data that is no dict. *)
Definition validated_data (request_data : json) : option json :=
  match request_data with
  | JDict data => JDict <$> validated_fields SETUP_FIELDS data
  | _ => None
  end.

(** [configure(self, request, pk)]: [request_data] is [request.data].
    The views return the response and leave the saved row behind; the
    columns of lines 142-150, copies of validated fields, are left
    out of the row. *)
Definition configure (config : CompanyBridgeConfiguration) (request_data : json) (r : N)
  : Response * CompanyBridgeConfiguration :=
  match validated_data request_data with
  | None => ({| status_code := 400; body_status := None |}, config)
  | Some config_data =>
      match set_encrypted_config config config_data r with
      | Ok config' =>
          ({| status_code := 200; body_status := Some "configured" |},
           set_status config' "configured" None)
      | Raise e =>
          ({| status_code := 500; body_status := None |}, set_error config (str_exn e))
      end
  end.

(** [test(self, request, pk)]; [valid] is [serializer.is_valid()] of
    [BridgeTestSerializer]. *)
Definition test (config : CompanyBridgeConfiguration) (valid : bool) (now : Z)
  : Response * CompanyBridgeConfiguration :=
  if negb valid then ({| status_code := 400; body_status := None |}, config)
  else
    match _test_bridge_connection config with
    | Ok test_result =>
        if success test_result then
          let config := set_active config now None in
          match link_workspace config with
          | Ok _ => ({| status_code := 200; body_status := Some "active" |}, config)
          | Raise e => ({| status_code := 500; body_status := None |}, set_error config (str_exn e))
          end
        else
          ({| status_code := 400; body_status := Some "error" |},
           set_error config (default "Test failed" (error test_result)))
    | Raise e => ({| status_code := 500; body_status := None |}, set_error config (str_exn e))
    end.

(** [activate(self, request, pk)] *)
Definition activate (config : CompanyBridgeConfiguration) (now : Z)
  : Response * CompanyBridgeConfiguration :=
  if negb (String.eqb (status config) "configured") then
    ({| status_code := 400; body_status := None |}, config)
  else
    match link_workspace config with
    | Ok _ =>
        ({| status_code := 200; body_status := Some "active" |},
         set_active config now (error_message config))
    | Raise e => ({| status_code := 500; body_status := None |}, config)
    end.

(** [deactivate(self, request, pk)] *)
Definition deactivate (config : CompanyBridgeConfiguration)
  : Response * CompanyBridgeConfiguration :=
  ({| status_code := 200; body_status := Some "inactive" |},
   set_status config "inactive" (error_message config)).

(** What the specification says of a passing test: the row ends in
    [configured]. *)
Definition test_leads_to_configured (config : CompanyBridgeConfiguration) (now : Z) : Prop :=
  status config = "pending" →
  (∃ r, _test_bridge_connection config = Ok r ∧ success r = true) →
  status (test config true now).2 = "configured".

End WithCollab.

(** [str.isspace] on a character of ASCII. *)
Definition is_space (a : ascii) : bool :=
  let n := nat_of_ascii a in
  ((9 <=? n) && (n <=? 13)) || ((28 <=? n) && (n <=? 32)).

Fixpoint lstrip (s : string) : string :=
  match s with
  | String a s' => if is_space a then lstrip s' else s
  | EmptyString => EmptyString
  end.

Fixpoint rstrip (s : string) : string :=
  match s with
  | String a s' =>
      match rstrip s' with
      | EmptyString => if is_space a then EmptyString else String a EmptyString
      | t => String a t
      end
  | EmptyString => EmptyString
  end.

(** [str.strip()] on a text of ASCII. *)
Definition strip (s : string) : string := rstrip (lstrip s).

Fixpoint has_null (s : string) : bool :=
  match s with
  | String a s' => Ascii.eqb a Ascii.zero || has_null s'
  | EmptyString => false
  end.

(** [CharField.run_validation] on a text of ASCII and on a number: a
    text is stripped, and refused when nothing is left of it or when
    it holds a null character; a number is written out; [None], a
    boolean, a list and a dict are refused. *)
Definition char_field_ascii (value : json) : option string :=
  match value with
  | JStr text =>
      let text := strip text in
      if String.eqb text "" || has_null text then None else Some text
  | JInt z => Some (pretty z)
  | _ => None
  end.

(** A network where every platform answers 200. *)
Definition all_up : Collab := {|
  graph_api_get := λ _ _, Ok {| reply_status := 200; reply_json := Ok (JDict []); reply_text := "" |};
  telegram_get_me := λ _,
    Ok {| reply_status := 200;
          reply_json := Ok (JDict [("ok", JBool true); ("result", JDict [])]);
          reply_text := "" |};
  signal_list_identities := λ _ _, Ok {| returncode := 0; stderr := "" |};
  str_exn := exn_class;
  char_field_value := char_field_ascii
|}.

(** A request to [configure]: a number where a text is declared, a
    text to strip and a key the serializer does not declare. *)
Definition whatsapp_request : json :=
  JDict [("access_token", JStr " test_token_123 "); ("phone_number_id", JInt 123456789);
         ("display_name", JStr "Acme")].

(** What the serializer makes of it. *)
Definition whatsapp_validated : json :=
  JDict [("access_token", JStr "test_token_123"); ("phone_number_id", JStr "123456789");
         ("signal_cli_path", JStr "signal-cli")].

(** A configuration in [pending] that holds WhatsApp credentials. *)
Definition pending_whatsapp : CompanyBridgeConfiguration :=
  match set_encrypted_config (L := RefLibs.ref_libs true None) fresh_config
          (JDict [("access_token", JStr "test_token_123");
                  ("phone_number_id", JStr "123456789")]) 7 with
  | Ok c => c
  | Raise _ => fresh_config
  end.

End BridgeViews.

(** ** messaging/models.py: the conversation store *)

Module Store.
Import Py.

(** [Conversation]; [pk] is the [id] column. *)
Record Conversation := {
  pk : nat;
  company : nat;
  external_id : string;
  platform : string;
  participants : json;
  status : string;
  assigned_agent : option nat;
  metadata : json
}.

(** [unique_together = ['company', 'external_id', 'platform']] *)
Definition triple (c : Conversation) : nat * string * string :=
  (company c, external_id c, platform c).

Definition unique_together (rows : list Conversation) : Prop :=
  NoDup (triple <$> rows).

(** [Message]; [conversation] holds the key of the row it belongs to. *)
Record Message := {
  message_pk : nat;
  conversation : nat;
  direction : string;
  message_type : string;
  content : json;
  sender_info : json;
  attachments : json;
  message_metadata : json;
  is_processed : bool;
  timestamp : Q;
  created_at : Z
}.

(** The tables a webhook touches, and the companies there are. *)
Record Tables := {
  companies : list nat;
  conversations : list Conversation;
  messages : list Message
}.

(** Code that reads and writes the tables and may raise.  What was
    written before an exception stays written: the views open no
    transaction. *)
Definition Db (A : Type) : Type := Tables → result A * Tables.

#[export] Instance db_ret : MRet Db := λ A a t, (Ok a, t).
#[export] Instance db_bind : MBind Db := λ A B f m t,
  match m t with
  | (Ok a, t') => f a t'
  | (Raise e, t') => (Raise e, t')
  end.

Definition raise {A} (e : exn) : Db A := λ t, (Raise e, t).
Definition lift {A} (r : result A) : Db A := λ t, (r, t).

(** [for x in xs: body(x)] *)
Fixpoint for_each {A} (xs : list A) (body : A → Db ()) : Db () :=
  match xs with
  | [] => mret ()
  | x :: xs' => _ ← body x; for_each xs' body
  end.

(** *** The queries of the ORM

    [QuerySet.get], [QuerySet.create] and [QuerySet.get_or_create] belong
    to Django; they are modelled after its documentation.  The database
    enforces [unique_together]: an insert that would repeat a triple
    fails with [IntegrityError] and writes nothing. *)

Definition matching (k : nat * string * string) (rows : list Conversation) : list Conversation :=
  filter (λ c, triple c = k) rows.

Definition Conversation_get (k : nat * string * string) (rows : list Conversation)
  : result Conversation :=
  match matching k rows with
  | [] => Raise DoesNotExist
  | [c] => Ok c
  | _ => Raise MultipleObjectsReturned
  end.

(** The values [get_or_create] passes in [defaults]. *)
Record Defaults := { d_participants : json; d_status : string }.

Definition new_conversation (n : nat) (k : nat * string * string) (d : Defaults) : Conversation :=
  {| pk := n; company := k.1.1; external_id := k.1.2; platform := k.2;
     participants := d_participants d; status := d_status d;
     assigned_agent := None; metadata := JDict [] |}.

(** A key no row has yet, as [uuid.uuid4] provides one. *)
Definition fresh_pk (rows : list Conversation) : nat := S (foldr max 0 (pk <$> rows)).

Definition Conversation_create (k : nat * string * string) (d : Defaults)
    (rows : list Conversation) : result Conversation * list Conversation :=
  if bool_decide (k ∈ (triple <$> rows)) then (Raise IntegrityError, rows)
  else let c := new_conversation (fresh_pk rows) k d in (Ok c, rows ++ [c]).

(** [Conversation.objects.get_or_create(company=, external_id=, platform=,
    defaults=)]: look the row up; if there is none insert it; if the
    insert hits the constraint, look it up again. *)
Definition get_or_create (k : nat * string * string) (d : Defaults)
    (rows : list Conversation) : result (Conversation * bool) * list Conversation :=
  match Conversation_get k rows with
  | Ok c => (Ok (c, false), rows)
  | Raise e =>
      if exn_eqb e DoesNotExist then
        match Conversation_create k d rows with
        | (Ok c, rows') => (Ok (c, true), rows')
        | (Raise e', rows') =>
            if exn_eqb e' IntegrityError then
              match Conversation_get k rows' with
              | Ok c => (Ok (c, false), rows')
              | Raise e'' =>
                  if exn_eqb e'' DoesNotExist then (Raise e', rows') else (Raise e'', rows')
              end
            else (Raise e', rows')
        end
      else (Raise e, rows)
  end.

(** *** Concurrent callers

    Each query of [get_or_create] is one statement, atomic in the
    database; between two statements of one caller any other caller may
    run.  A caller is at its first lookup, at the insert, at the second
    lookup, or done. *)

Inductive pc :=
| AtGet
| AtCreate
| AtRetry
| Returned (c : Conversation) (created : bool)
| Raised (e : exn).

Record caller := { c_key : nat * string * string; c_defaults : Defaults; c_pc : pc }.

Definition at_pc (w : caller) (p : pc) : caller :=
  {| c_key := c_key w; c_defaults := c_defaults w; c_pc := p |}.

(** One statement of one caller. *)
Definition caller_step (w : caller) (rows : list Conversation) : caller * list Conversation :=
  match c_pc w with
  | AtGet =>
      match Conversation_get (c_key w) rows with
      | Ok c => (at_pc w (Returned c false), rows)
      | Raise e =>
          if exn_eqb e DoesNotExist then (at_pc w AtCreate, rows)
          else (at_pc w (Raised e), rows)
      end
  | AtCreate =>
      match Conversation_create (c_key w) (c_defaults w) rows with
      | (Ok c, rows') => (at_pc w (Returned c true), rows')
      | (Raise e, rows') =>
          if exn_eqb e IntegrityError then (at_pc w AtRetry, rows')
          else (at_pc w (Raised e), rows')
      end
  | AtRetry =>
      match Conversation_get (c_key w) rows with
      | Ok c => (at_pc w (Returned c false), rows)
      | Raise e =>
          if exn_eqb e DoesNotExist then (at_pc w (Raised IntegrityError), rows)
          else (at_pc w (Raised e), rows)
      end
  | Returned _ _ | Raised _ => (w, rows)
  end.

(** The callers and the table; a schedule names the caller that runs the
    next statement. *)
Definition system : Type := list caller * list Conversation.

Definition step (i : nat) (s : system) : system :=
  match s.1 !! i with
  | Some w => let '(w', rows') := caller_step w s.2 in (<[i := w']> s.1, rows')
  | None => s
  end.

Definition run (schedule : list nat) (s : system) : system :=
  foldl (λ s i, step i s) s schedule.

(** Every caller gets its three statements. *)
Definition fair (n : nat) (schedule : list nat) : Prop :=
  ∀ i, i < n → 3 ≤ length (filter (λ j, j = i) schedule).

Definition returned_row (w : caller) : option Conversation :=
  match c_pc w with Returned c _ => Some c | _ => None end.

(** Three deliveries for one sender of one tenant, about to start, and a
    schedule that lets them overtake one another. *)
Definition acme_triple : nat * string * string := (1, "+15550001111", "whatsapp").

Definition first_contact : caller :=
  {| c_key := acme_triple;
     c_defaults := {| d_participants := JList [JDict [("phone", JStr "+15550001111")]];
                      d_status := "active" |};
     c_pc := AtGet |}.

Definition overtaking : list nat := [0; 1; 2; 1; 0; 2; 2; 0; 1].

(** What holds of a caller at each point: a caller at its second lookup
    has seen the constraint fire, a caller that returned holds a row of
    the table, and no caller has raised. *)
Definition caller_ok (rows : list Conversation) (w : caller) : Prop :=
  match c_pc w with
  | AtGet | AtCreate => True
  | AtRetry => c_key w ∈ (triple <$> rows)
  | Returned c _ => c ∈ rows ∧ triple c = c_key w
  | Raised _ => False
  end.

Definition system_ok (s : system) : Prop :=
  unique_together s.2 ∧ Forall (caller_ok s.2) s.1.

(** The statements a caller still has to run, at most. *)
Definition rank (p : pc) : nat :=
  match p with AtGet => 3 | AtCreate => 2 | AtRetry => 1 | _ => 0 end.

Definition rank_at (s : system) (i : nat) : nat :=
  from_option (λ w, rank (c_pc w)) 0 (s.1 !! i).

End Store.

(** ** messaging/services/whatsapp_service.py: the WhatsApp webhook *)

Module Messaging.
Import Py Store.

Local Open Scope Z_scope.

(** *** [int] and [datetime.fromtimestamp] *)

Definition digit_of (c : ascii) : option Z :=
  let n := Z.of_nat (nat_of_ascii c) in
  if (48 <=? n) && (n <=? 57) then Some (n - 48) else None.

(** Decimal digits, with single underscores between them. *)
Fixpoint digits (acc : Z) (after_digit : bool) (s : list ascii) : option Z :=
  match s with
  | [] => if after_digit then Some acc else None
  | c :: s' =>
      if Ascii.eqb c "_" then (if after_digit then digits acc false s' else None)
      else match digit_of c with
           | Some d => digits (acc * 10 + d) true s'
           | None => None
           end
  end.

Definition is_space (c : ascii) : bool :=
  let n := Z.of_nat (nat_of_ascii c) in
  (n =? 32) || ((9 <=? n) && (n <=? 13)).

Fixpoint lstrip (s : list ascii) : list ascii :=
  match s with
  | c :: s' => if is_space c then lstrip s' else s
  | [] => []
  end.

Definition strip (s : list ascii) : list ascii := rev (lstrip (rev (lstrip s))).

(** [int(s)] for a [str]: blanks around, a sign, digits. *)
Definition int_of_str (s : string) : result Z :=
  let parsed :=
    match strip (String.list_ascii_of_string s) with
    | c :: s' =>
        if Ascii.eqb c "-" then Z.opp <$> digits 0 false s'
        else if Ascii.eqb c "+" then digits 0 false s'
        else digits 0 false (c :: s')
    | [] => None
    end in
  from_option Ok (Raise ValueError) parsed.

(** [int(x)] *)
Definition py_int (v : json) : result Z :=
  match v with
  | JInt z => Ok z
  | JBool b => Ok (if b then 1 else 0)
  | JStr s => int_of_str s
  | _ => Raise TypeError
  end.

(** The seconds since the epoch of years 1 and 9999, the range of
    [datetime]. *)
Definition datetime_min : Z := -62135596800.
Definition datetime_max : Z := 253402300799.

(** [datetime.fromtimestamp(t)]: a moment is kept as its seconds since
    the epoch, a fraction when the caller passes one. *)
Definition fromtimestamp (t : Q) : result Q :=
  if Qle_bool (inject_Z datetime_min) t && Qle_bool t (inject_Z datetime_max)
  then Ok t else Raise ValueError.

(** *** Iteration and columns *)

(** [for x in v] *)
Definition iter (v : json) : result (list json) :=
  match v with
  | JList l => Ok l
  | JDict d => Ok ((λ kv, JStr kv.1) <$> d)
  | JStr s => Ok ((λ c, JStr (String c "")) <$> String.list_ascii_of_string s)
  | _ => Raise TypeError
  end.

(** The text a [CharField] keeps for a value.  [NULL] is refused by the
    database; a list or a dict, which Django would print, is left out. *)
Definition char_field (v : json) : result string :=
  match v with
  | JStr s => Ok s
  | JInt z => Ok (pretty z)
  | JBool b => Ok (if b then "True" else "False")
  | JNone => Raise IntegrityError
  | _ => Raise TypeError
  end.

Definition with_conversations (t : Tables) (rows : list Conversation) : Tables :=
  {| companies := companies t; conversations := rows; messages := messages t |}.

Definition with_messages (t : Tables) (rows : list Message) : Tables :=
  {| companies := companies t; conversations := conversations t; messages := rows |}.

(** The key of a new message, as [uuid.uuid4] provides one. *)
Definition fresh_message_pk (rows : list Message) : nat :=
  S (foldr Nat.max 0%nat (message_pk <$> rows)).

Definition with_pk (m : Message) (n : nat) : Message :=
  {| message_pk := n; conversation := conversation m; direction := direction m;
     message_type := message_type m; content := content m; sender_info := sender_info m;
     attachments := attachments m; message_metadata := message_metadata m;
     is_processed := is_processed m; timestamp := timestamp m; created_at := created_at m |}.

(** [Company.objects.get(id=company_id)] *)
Definition Company_objects_get (company_id : nat) : Db nat := λ t,
  if bool_decide (company_id ∈ companies t) then (Ok company_id, t)
  else (Raise DoesNotExist, t).

(** [Conversation.objects.get_or_create(...)] on the tables *)
Definition Conversation_objects_get_or_create (company : nat) (external_id : json)
    (platform : string) (d : Defaults) : Db (Conversation * bool) := λ t,
  match char_field external_id with
  | Ok ext =>
      let '(r, rows') := get_or_create (company, ext, platform) d (conversations t) in
      (r, with_conversations t rows')
  | Raise e => (Raise e, t)
  end.

(** [Message.objects.create(...)]: [content] is a [TextField] that is
    not nullable. *)
Definition Message_objects_create (m : Message) : Db () := λ t,
  match content m with
  | JNone => (Raise IntegrityError, t)
  | _ => (Ok (), with_messages t (messages t ++ [with_pk m (fresh_message_pk (messages t))]))
  end.

(** *** [WhatsAppService] *)

(** Lines 131-151: the content, the type and the attachments of a message. *)
Definition extract_content (message_data : json) : result (string * json * list json) :=
  has_text ← contains message_data "text";
  if has_text : bool then
    text ← getitem message_data "text";
    body ← getitem text "body";
    Ok ("text", body, [])
  else
    has_image ← contains message_data "image";
    if has_image : bool then
      image ← getitem message_data "image";
      caption ← get image "caption" (JStr "Image received");
      image_id ← getitem image "id";
      Ok ("image", caption, [JDict [("type", JStr "image"); ("id", image_id)]])
    else
      has_document ← contains message_data "document";
      if has_document : bool then
        document ← getitem message_data "document";
        caption ← get document "caption" (JStr "Document received");
        document_id ← getitem document "id";
        Ok ("document", caption, [JDict [("type", JStr "document"); ("id", document_id)]])
      else Ok ("text", JStr "", []).

(** [_process_incoming_message(self, message_data, company)]; [now] is
    the time of arrival, which [created_at] records. *)
Definition _process_incoming_message (message_data : json) (company : nat) (now : Z) : Db () :=
  phone_number ← lift (get message_data "from" JNone);
  message_id ← lift (get message_data "id" JNone);
  seconds ← lift (get message_data "timestamp" (JInt 0) ≫= py_int);
  timestamp ← lift (fromtimestamp (inject_Z seconds));
  '(conversation, created) ←
    Conversation_objects_get_or_create company phone_number "whatsapp"
      {| d_participants := JList [JDict [("phone", phone_number)]]; d_status := "active" |};
  '(message_type, content, attachments) ← lift (extract_content message_data);
  Message_objects_create
    {| message_pk := 0%nat;
       Store.conversation := pk conversation;
       direction := "incoming";
       Store.message_type := message_type;
       Store.content := content;
       sender_info := JDict [("phone", phone_number)];
       Store.attachments := JList attachments;
       message_metadata := JDict [("whatsapp_message_id", message_id)];
       is_processed := true;
       Store.timestamp := timestamp;
       created_at := now |}.

(** What [process_webhook] answers: [{"status": "processed"}] or
    [{"status": "failed", "error": ...}]. *)
Inductive outcome := Processed | Failed (e : exn).

(** The [try] block of [process_webhook]. *)
Definition process_entries (webhook_data : json) (company_id : nat) (now : Z) : Db () :=
  entry ← lift (get webhook_data "entry" JNone);
  if negb (truthy entry) then raise ValueError
  else
    company ← Company_objects_get company_id;
    entries ← lift (get webhook_data "entry" (JList []) ≫= iter);
    for_each entries (λ entry,
      changes ← lift (get entry "changes" (JList []) ≫= iter);
      for_each changes (λ change,
        value ← lift (get change "value" (JDict []));
        messages ← lift (get value "messages" (JList []) ≫= iter);
        for_each messages (λ message_data,
          _process_incoming_message message_data company now))).

(** [process_webhook(self, webhook_data, company_id)] *)
Definition process_webhook (webhook_data : json) (company_id : nat) (now : Z)
    (t : Tables) : outcome * Tables :=
  match process_entries webhook_data company_id now t with
  | (Ok _, t') => (Processed, t')
  | (Raise e, t') => (Failed e, t')
  end.

End Messaging.

(** ** matrix_integration/services/matrix_bridge_service.py *)

Module MatrixBridge.
Import Py Store Messaging.

(** [django.utils.timezone.utc], which line 117 reads: Django 5.0
    removed the alias, and the repository runs on Django 5.2 (its
    migrations are generated by 5.2.3), so reading it raises. *)
Definition timezone_utc : result unit := Raise AttributeError.

(** The [try] block of [process_bridge_message], lines 95-119;
    [timestamp] counts milliseconds.  The arguments of [fromtimestamp]
    are evaluated before it is called, [timezone.utc] among them.
    Lines 123-130 queue a task and write no table. *)
Definition process_bridge_message_body (platform : string) (external_id : json)
    (company_id : nat) (content sender : json) (timestamp : Z) (now : Z) : Db () :=
  company ← Company_objects_get company_id;
  '(conversation, created) ←
    Conversation_objects_get_or_create company external_id platform
      {| d_participants := JList [JDict [("id", external_id); ("platform", JStr platform)]];
         d_status := "active" |};
  _ ← lift timezone_utc;
  stamp ← lift (fromtimestamp (timestamp # 1000));
  Message_objects_create
    {| message_pk := 0%nat;
       Store.conversation := pk conversation;
       direction := "incoming";
       message_type := "text";
       Store.content := content;
       sender_info := JDict [("matrix_sender", sender); ("platform", JStr platform)];
       attachments := JList [];
       message_metadata := JDict [];
       is_processed := true;
       Store.timestamp := stamp;
       created_at := now |}.

(** [process_bridge_message(self, platform, external_id, company_id,
    content, sender, timestamp)]: what it raises is logged and dropped. *)
Definition process_bridge_message (platform : string) (external_id : json)
    (company_id : nat) (content sender : json) (timestamp : Z) (now : Z) (t : Tables) : Tables :=
  (process_bridge_message_body platform external_id company_id content sender timestamp now t).2.

End MatrixBridge.

(** ** The shape of a WhatsApp payload

    “K messages nested inside the entry/changes/value arrays”: the
    messages of a payload, in the order they are written. *)

Module Payload.
Import Py Store Messaging.

Definition value_messages (change : json) : list json :=
  match change with
  | JDict c =>
      match assoc "value" c with
      | Some (JDict v) =>
          match assoc "messages" v with Some (JList ms) => ms | _ => [] end
      | _ => []
      end
  | _ => []
  end.

Definition entry_messages (entry : json) : list json :=
  match entry with
  | JDict e =>
      match assoc "changes" e with
      | Some (JList changes) => changes ≫= value_messages
      | _ => []
      end
  | _ => []
  end.

Definition payload_entries (webhook_data : json) : list json :=
  match webhook_data with
  | JDict d => match assoc "entry" d with Some (JList entries) => entries | _ => [] end
  | _ => []
  end.

Definition payload_messages (webhook_data : json) : list json :=
  payload_entries webhook_data ≫= entry_messages.

(** A payload in the shape WhatsApp sends: a dict whose [entry] is a
    non-empty list of dicts, whose [changes], where present, are lists of
    dicts, whose [value], where present, is a dict, whose [messages],
    where present, is a list. *)
Definition change_shaped (change : json) : Prop :=
  match change with
  | JDict c =>
      match assoc "value" c with
      | None => True
      | Some (JDict v) =>
          match assoc "messages" v with None | Some (JList _) => True | _ => False end
      | _ => False
      end
  | _ => False
  end.

Definition entry_shaped (entry : json) : Prop :=
  match entry with
  | JDict e =>
      match assoc "changes" e with
      | None => True
      | Some (JList changes) => Forall change_shaped changes
      | _ => False
      end
  | _ => False
  end.

Definition whatsapp_shaped (webhook_data : json) : Prop :=
  match webhook_data with
  | JDict d =>
      match assoc "entry" d with
      | Some (JList (e :: entries)) => Forall entry_shaped (e :: entries)
      | _ => False
      end
  | _ => False
  end.

(** A message the store can take: a dict with a sender, a timestamp that
    [int] and [datetime] accept or none, and a content that is there. *)
Definition valid_message (message_data : json) : Prop :=
  match message_data with
  | JDict d =>
      is_ok (char_field (from_option id JNone (assoc "from" d))) = true ∧
      is_ok (seconds ← py_int (from_option id (JInt 0) (assoc "timestamp" d));
             fromtimestamp (inject_Z seconds)) = true ∧
      ∃ ty c atts, extract_content message_data = Ok (ty, c, atts) ∧ c ≠ JNone
  | _ => False
  end.

Definition valid_payload (webhook_data : json) : Prop :=
  whatsapp_shaped webhook_data ∧ Forall valid_message (payload_messages webhook_data).

(** The timestamp WhatsApp gave a message, if it gave one. *)
Definition platform_timestamp (message_data : json) : option json :=
  match message_data with
  | JDict d => assoc "timestamp" d
  | _ => None
  end.

(** What the specification says of a message without a timestamp: the
    row takes the time of arrival. *)
Definition falls_back_to_arrival (message_data : json) (company : nat) (now : Z) (t : Tables)
  : Prop :=
  platform_timestamp message_data = None →
  ∀ row, last (messages (_process_incoming_message message_data company now t).2) = Some row →
         Store.timestamp row = inject_Z now.

(** What the specification says of a replay: the messages are those of
    the first processing. *)
Definition replay_is_idempotent (webhook_data : json) (company : nat) (now : Z) (t : Tables)
  : Prop :=
  let once := (process_webhook webhook_data company now t).2 in
  let twice := (process_webhook webhook_data company now once).2 in
  messages twice = messages once.

(** The identifier WhatsApp gave a message, which the store keeps in the
    metadata of the row. *)
Definition whatsapp_message_id (message_data : json) : json :=
  match message_data with
  | JDict d => from_option id JNone (assoc "id" d)
  | _ => JNone
  end.

Definition metadata_of (message_data : json) : json :=
  JDict [("whatsapp_message_id", whatsapp_message_id message_data)].

(** A piece of code records the messages [ms]: on a store that keeps the
    constraint it returns, keeps the constraint, and appends one row for
    each message of [ms], in their order. *)
Definition records (code : Db ()) (ms : list json) : Prop :=
  ∀ t, unique_together (conversations t) →
    ∃ t' rows, code t = (Ok (), t') ∧
      unique_together (conversations t') ∧ companies t' = companies t ∧
      messages t' = messages t ++ rows ∧
      message_metadata <$> rows = metadata_of <$> ms.

Definition text_message (mid sender ts body : string) : json :=
  JDict [("id", JStr mid); ("from", JStr sender); ("timestamp", JStr ts);
         ("type", JStr "text"); ("text", JDict [("body", JStr body)])].

Definition payload_of (messages : list json) : json :=
  let value := JDict [("messages", JList messages)] in
  let change := JDict [("value", value)] in
  let entry := JDict [("changes", JList [change])] in
  JDict [("entry", JList [entry])].

(** One delivery with two messages, and one with a single message. *)
Definition two_messages : json :=
  payload_of [text_message "wamid.1" "+1234567890" "1678901234" "Hello there!";
              text_message "wamid.2" "+1234567890" "1678901235" "Anyone?"].

Definition one_message : json :=
  payload_of [text_message "msg_456" "+1234567890" "1678901234" "Hello there!"].

(** A message that carries no timestamp. *)
Definition no_timestamp : json :=
  JDict [("id", JStr "msg_789"); ("from", JStr "+1234567890");
         ("text", JDict [("body", JStr "Hi")])].

(** A store with one company and nothing else. *)
Definition empty_tables : Tables :=
  {| companies := [1%nat]; conversations := []; messages := [] |}.

End Payload.

(** ** matrix_integration/services/platform_services/whatsapp_service.py *)

Module BridgeWhatsApp.
Import Py Lib.

(** The dict [process_incoming_message] returns. *)
Record Event := {
  external_id : json;
  content : json;
  type : json;
  sender_id : json;
  sender_name : json;
  timestamp : json;
  raw_message : json
}.

(** [v[0]] *)
Definition first (v : json) : result json :=
  match v with
  | JList (x :: _) => Ok x
  | JList [] => Raise IndexError
  | JStr (String c _) => Ok (JStr (String c ""))
  | JStr "" => Raise IndexError
  | JDict _ => Raise KeyError
  | _ => Raise TypeError
  end.

Definition is_str (v : json) (s : string) : bool :=
  match v with JStr x => String.eqb x s | _ => false end.

(** [for x in xs: ...] where the body may [return]. *)
Fixpoint for_return {A B} (xs : list A) (body : A → result (option B)) : result (option B) :=
  match xs with
  | [] => Ok None
  | x :: xs' =>
      r ← body x;
      match r with
      | Some b => Ok (Some b)
      | None => for_return xs' body
      end
  end.

Section WithLibs.
Context `{L : Libs}.

(** Lines 72-86 *)
Definition message_content (message message_type : json) : result json :=
  if is_str message_type "text" then
    text ← get message "text" (JDict []); get text "body" (JStr "")
  else if is_str message_type "image" then
    image ← get message "image" (JDict []);
    caption ← get image "caption" (JStr "Image received");
    Ok (JStr (String.append "[Image] " (str_of caption)))
  else if is_str message_type "document" then
    document ← get message "document" (JDict []);
    filename ← get document "filename" (JStr "Document received");
    Ok (JStr (String.append "[Document] " (str_of filename)))
  else if is_str message_type "audio" then Ok (JStr "[Audio message received]")
  else if is_str message_type "video" then
    video ← get message "video" (JDict []);
    caption ← get video "caption" (JStr "Video received");
    Ok (JStr (String.append "[Video] " (str_of caption)))
  else
    match message_type with
    | JStr s => Ok (JStr (String.append "[" (String.append (title s) "] Unsupported message type")))
    | _ => Raise AttributeError
    end.

(** The body of the inner loop, lines 71-103: it ends in [return]. *)
Definition message_event (value message : json) : result (option Event) :=
  message_type ← get message "type" (JStr "unknown");
  content ← message_content message message_type;
  contacts ← get value "contacts" (JList []);
  sender_name ←
    (if truthy contacts then
       contact ← first contacts;
       profile ← get contact "profile" (JDict []);
       get profile "name" (JStr "")
     else Ok (JStr ""));
  external_id ← getitem message "id";
  sender_id ← getitem message "from";
  timestamp ← getitem message "timestamp";
  Ok (Some {| external_id := external_id; content := content; type := message_type;
              sender_id := sender_id; sender_name := sender_name;
              timestamp := timestamp; raw_message := message |}).

(** [process_incoming_message(self, webhook_data)]: [None] when there is
    no message, and when anything raises. *)
Definition process_incoming_message (webhook_data : json) : option Event :=
  let body :=
    entry ← get webhook_data "entry" (JList [JDict []]) ≫= first;
    changes ← get entry "changes" (JList [JDict []]) ≫= Messaging.iter;
    for_return changes (λ change,
      value ← get change "value" (JDict []);
      messages ← get value "messages" (JList []) ≫= Messaging.iter;
      for_return messages (message_event value)) in
  match body with
  | Ok r => r
  | Raise _ => None
  end.

(** The events a call hands to its caller. *)
Definition events (webhook_data : json) : list Event :=
  option_list (process_incoming_message webhook_data).

(** What the specification says of the parser: one event for each
    message of the payload. *)
Definition parses_every_message (webhook_data : json) : Prop :=
  length (events webhook_data) = length (Payload.payload_messages webhook_data).

End WithLibs.
End BridgeWhatsApp.

(** ** matrix_integration/services/bridge_manager.py: the routing engine *)

Module Manager.
Import Py Lib.

(** The rows of matrix_integration/models.py that the manager touches. *)
Record BridgeConnection := {
  bridge_id : nat;
  company : nat;
  platform : string;
  status : string
}.

Record BridgeCredentials := { credentials_bridge : nat; encrypted_data : string }.

(** A [BridgeMessage] as the manager creates it: the keyword arguments
    of the two calls of [BridgeMessage.objects.create]. *)
Record BridgeMessage := {
  bridge : nat;
  external_id : json;
  customer_name : option json;
  content : json;
  direction : string;
  message_status : string;
  raw_data : option string
}.

Record BridgeWebhook := { webhook_bridge : nat; webhook_raw_data : json; processed : bool;
                          processing_attempts : nat }.

Record AIAssistantConfig := {
  config_company : nat;
  model_name : string;
  system_prompt : string;
  auto_respond : bool;
  escalate_to_human : bool;
  confidence_threshold : Q
}.

(** What [AIService.generate_response] returns when it returns a dict. *)
Record AIResponse := { response_content : json; confidence : Q; model : string }.

(** A platform service object held in [self.platform_services]. *)
Record Service := { service_platform : string; service_key : string; service_credentials : json }.

Record World := {
  bridge_connections : list BridgeConnection;
  bridge_credentials : list BridgeCredentials;
  bridge_messages : list BridgeMessage;
  bridge_webhooks : list BridgeWebhook;
  ai_configs : list AIAssistantConfig;
  conversations : list Store.Conversation;
  (** [self.platform_services] *)
  platform_services : gmap string Service;
  (** what was handed to a platform for delivery: service, recipient, text *)
  outbox : list (Service * json * json)
}.

(** The objects the manager calls without defining them, and the
    attributes it reads without the models declaring them.  Each may
    answer or raise, and may look at the world. *)
Class Collab := {
  (** Whether Django lets the caller reach the database: the methods of
      the manager are coroutines, and from a coroutine every query,
      [save] and [create] is refused with [SynchronousOnlyOperation]
      unless the process allows it. *)
  orm : result unit;
  (** [credentials.credentials_json] *)
  credentials_json : BridgeCredentials → result string;
  (** [WhatsAppService(bridge_key, bridge_connection, credentials_dict)] and
      its siblings *)
  new_service : string → string → json → result Service;
  (** [platform_service.initialize_connection(company_id, credentials_dict)],
      as a truth value *)
  initialize_connection : World → Service → nat → json → result bool;
  (** [platform_service.send_message(company_id, external_id, message)],
      as a truth value *)
  service_send_message : World → Service → nat → json → json → result bool;
  (** [platform_service.parse_webhook_data(webhook_data)] *)
  parse_webhook_data : Service → json → result json;
  (** [matrix_service.initialize_company_bridge(company)] *)
  initialize_company_bridge : World → nat → result unit;
  (** [matrix_service.get_company_bridge_room(company_id)], as a truth value *)
  get_company_bridge_room : World → nat → result bool;
  (** [matrix_service.send_message_via_bridge(platform, external_id, company_id, text)] *)
  send_message_via_bridge : World → string → json → nat → result unit;
  (** whether [BridgeMessage.objects.create] takes the row it is given:
      it raises for a keyword that is no column, and where the
      database is refused *)
  create_bridge_message : BridgeMessage → result unit;
  (** [config.enabled] *)
  config_enabled : AIAssistantConfig → result bool;
  (** the query of lines 229-232, oldest message first *)
  recent_messages : World → BridgeConnection → json → result (list BridgeMessage);
  (** [AIService().generate_response_sync(content, context, config)] *)
  generate_response_sync : json → list BridgeMessage → AIAssistantConfig → result (option AIResponse)
}.

(** Code of the manager: it reads and writes the world and may raise;
    what was written before an exception stays written. *)
Definition Mgr (A : Type) : Type := World → result A * World.

#[export] Instance mgr_ret : MRet Mgr := λ A a w, (Ok a, w).
#[export] Instance mgr_bind : MBind Mgr := λ A B f m w,
  match m w with
  | (Ok a, w') => f a w'
  | (Raise e, w') => (Raise e, w')
  end.

(** A call that answers or raises and leaves the world alone. *)
Definition call {A} (f : World → result A) : Mgr A := λ w, (f w, w).

(** [try: code / except Exception: handler] *)
Definition try_except {A} (code : Mgr A) (handler : exn → World → A * World) (w : World)
  : A * World :=
  match code w with
  | (Ok a, w') => (a, w')
  | (Raise e, w') => handler e w'
  end.

(** [try: code / except Exception: handler], where the handler may
    raise in its turn. *)
Definition try_catch {A} (code : Mgr A) (handler : exn → Mgr A) : Mgr A := λ w,
  match code w with
  | (Ok a, w') => (Ok a, w')
  | (Raise e, w') => handler e w'
  end.

(** A piece of code keeps a relation between the world it starts in
    and the world it leaves, whether it returns or raises. *)
Definition keeps (R : World → World → Prop) {A} (m : Mgr A) : Prop :=
  ∀ w, R w (m w).2.

(** A method that cannot raise, called from code that can. *)
Definition total {A} (f : World → A * World) : Mgr A := λ w,
  let '(a, w') := f w in (Ok a, w').

Definition with_status (b : BridgeConnection) (s : string) : BridgeConnection :=
  {| bridge_id := bridge_id b; company := company b; platform := platform b; status := s |}.

(** What [bridge_connection.status = s; bridge_connection.save()]
    writes when the database takes it. *)
Definition save_status (b : BridgeConnection) (s : string) : Mgr () := λ w,
  (Ok (),
   {| bridge_connections :=
        (λ r, if bridge_id r =? bridge_id b then with_status r s else r) <$> bridge_connections w;
      bridge_credentials := bridge_credentials w; bridge_messages := bridge_messages w;
      bridge_webhooks := bridge_webhooks w; ai_configs := ai_configs w;
      conversations := conversations w; platform_services := platform_services w;
      outbox := outbox w |}).

(** [self.platform_services[bridge_key] = platform_service] *)
Definition register (bridge_key : string) (s : Service) : Mgr () := λ w,
  (Ok (),
   {| bridge_connections := bridge_connections w;
      bridge_credentials := bridge_credentials w; bridge_messages := bridge_messages w;
      bridge_webhooks := bridge_webhooks w; ai_configs := ai_configs w;
      conversations := conversations w;
      platform_services := <[bridge_key := s]> (platform_services w);
      outbox := outbox w |}).

(** The platform is handed a message. *)
Definition hand_over (s : Service) (recipient text : json) : Mgr () := λ w,
  (Ok (),
   {| bridge_connections := bridge_connections w;
      bridge_credentials := bridge_credentials w; bridge_messages := bridge_messages w;
      bridge_webhooks := bridge_webhooks w; ai_configs := ai_configs w;
      conversations := conversations w; platform_services := platform_services w;
      outbox := outbox w ++ [(s, recipient, text)] |}).

Definition insert_message (m : BridgeMessage) : Mgr () := λ w,
  (Ok (),
   {| bridge_connections := bridge_connections w;
      bridge_credentials := bridge_credentials w;
      bridge_messages := bridge_messages w ++ [m];
      bridge_webhooks := bridge_webhooks w; ai_configs := ai_configs w;
      conversations := conversations w; platform_services := platform_services w;
      outbox := outbox w |}).

Section WithCollab.
Context `{L : Libs} `{C : Collab}.

(** A query: it reads the world when Django lets it. *)
Definition query {A} (f : World → A) : Mgr A := λ w,
  match orm with
  | Ok _ => (Ok (f w), w)
  | Raise e => (Raise e, w)
  end.

(** [bridge_connection.status = s; bridge_connection.save()] *)
Definition save (b : BridgeConnection) (s : string) : Mgr () := λ w,
  match orm with
  | Ok _ => save_status b s w
  | Raise e => (Raise e, w)
  end.

(** [BridgeMessage.objects.create(...)]: the row is written or the call
    raises, never both. *)
Definition BridgeMessage_objects_create (m : BridgeMessage) : Mgr BridgeMessage :=
  _ ← call (λ _, create_bridge_message m);
  _ ← insert_message m;
  mret m.

(** [f"{platform}_{bridge_connection.id}"] *)
Definition bridge_key_of (b : BridgeConnection) : string :=
  String.append (platform b) (String.append "_" (pretty (bridge_id b))).

Definition supported (platform : string) : bool :=
  bool_decide (platform ∈ ["whatsapp"; "telegram"; "instagram"]).

(** [BridgeConnection.objects.filter(company__id=, platform=,
    status='connected').first()] *)
Definition connected_bridge (company_id : nat) (platform_ : string) (w : World)
  : option BridgeConnection :=
  head (filter (λ b, company b = company_id ∧ platform b = platform_ ∧ status b = "connected")
               (bridge_connections w)).

(** The [try] block of [initialize_bridge], lines 23-70. *)
Definition initialize_bridge_body (bridge_connection : BridgeConnection) : Mgr bool :=
  let platform := platform bridge_connection in
  if negb (supported platform) then mret false
  else
    credentials ← query (λ w, head (filter (λ c, credentials_bridge c = bridge_id bridge_connection)
                                           (bridge_credentials w)));
    match credentials with
    | None => mret false
    | Some credentials =>
        text ← call (λ _, credentials_json credentials);
        credentials_dict ← call (λ _, json_loads text);
        let bridge_key := bridge_key_of bridge_connection in
        platform_service ← call (λ _, new_service platform bridge_key credentials_dict);
        _ ← register bridge_key platform_service;
        success ← call (λ w, initialize_connection w platform_service
                               (company bridge_connection) credentials_dict);
        if success : bool then
          _ ← save bridge_connection "connected";
          _ ← call (λ w, initialize_company_bridge w (company bridge_connection));
          mret true
        else
          _ ← save bridge_connection "error";
          mret false
    end.

(** [initialize_bridge(self, bridge_connection)]: the handler of lines
    72-76 saves the bridge outside any [try], so what that [save] raises
    leaves the method. *)
Definition initialize_bridge (bridge_connection : BridgeConnection) : Mgr bool :=
  try_catch (initialize_bridge_body bridge_connection)
    (λ _, _ ← save bridge_connection "error"; mret false).

(** The start of [send_message] and of [process_webhook_data]: the
    service of the bridge, initialised on first use; [None] stands for
    the [return False] of lines 89-91 and 144-146. *)
Definition service_of (bridge_connection : BridgeConnection) : Mgr (option Service) :=
  let bridge_key := bridge_key_of bridge_connection in
  present ← call (λ w, Ok (bool_decide (is_Some (platform_services w !! bridge_key))));
  proceed ← (if present : bool then mret true else initialize_bridge bridge_connection);
  if proceed : bool then
    platform_service ← call (λ w, from_option Ok (Raise KeyError) (platform_services w !! bridge_key));
    mret (Some platform_service)
  else mret None.

(** The [try] block of [send_message], lines 82-114. *)
Definition send_message_body (bridge_connection : BridgeConnection) (external_id message : json)
  : Mgr bool :=
  service ← service_of bridge_connection;
  match service with
  | None => mret false
  | Some platform_service =>
      _ ← hand_over platform_service external_id message;
      success ← call (λ w, service_send_message w platform_service (company bridge_connection)
                             external_id message);
      if success : bool then
        _ ← BridgeMessage_objects_create
              {| bridge := bridge_id bridge_connection; external_id := external_id;
                 customer_name := None; content := message; direction := "outbound";
                 message_status := "sent"; raw_data := None |};
        mret true
      else mret false
  end.

(** [send_message(self, bridge_connection, external_id, message)] *)
Definition send_message (bridge_connection : BridgeConnection) (external_id message : json)
    (w : World) : bool * World :=
  try_except (send_message_body bridge_connection external_id message) (λ _ w', (false, w')) w.

(** The [try] block of [_process_with_ai], lines 222-261. *)
Definition _process_with_ai_body (bridge_connection : BridgeConnection) (message : BridgeMessage)
  : Mgr () :=
  config ← query (λ w, head (filter (λ c, config_company c = company bridge_connection)
                                   (ai_configs w)));
  match config with
  | None => mret ()
  | Some config =>
      enabled ← call (λ _, config_enabled config);
      if negb enabled then mret ()
      else
        context ← call (λ w, recent_messages w bridge_connection (external_id message));
        response ← call (λ _, generate_response_sync (content message) context config);
        match response with
        | Some response =>
            if truthy (response_content response) then
              _ ← total (send_message bridge_connection (external_id message)
                           (response_content response));
              mret ()
            else mret ()
        | None => mret ()
        end
  end.

(** [_process_with_ai(self, bridge_connection, message)] *)
Definition _process_with_ai (bridge_connection : BridgeConnection) (message : BridgeMessage)
    (w : World) : World :=
  (try_except (_process_with_ai_body bridge_connection message) (λ _ w', ((), w')) w).2.

(** [_forward_to_matrix(self, bridge_connection, message)] *)
Definition _forward_to_matrix (bridge_connection : BridgeConnection) (message : BridgeMessage)
    (w : World) : bool * World :=
  try_except
    (room ← call (λ w, get_company_bridge_room w (company bridge_connection));
     if negb room then mret false
     else
       _ ← call (λ w, send_message_via_bridge w (platform bridge_connection)
                        (external_id message) (company bridge_connection));
       _ ← total (λ w, ((), _process_with_ai bridge_connection message w));
       mret true)
    (λ _ w', (false, w')) w.

(** The [try] block of [process_webhook_data], lines 123-181. *)
Definition process_webhook_data_body (platform : string) (company_id : nat) (webhook_data : json)
  : Mgr bool :=
  if negb (supported platform) then mret false
  else
    bridge_connection ← query (connected_bridge company_id platform);
    match bridge_connection with
    | None => mret false
    | Some bridge_connection =>
        service ← service_of bridge_connection;
        match service with
        | None => mret false
        | Some platform_service =>
            parsed_data ← call (λ _, parse_webhook_data platform_service webhook_data);
            if negb (truthy parsed_data) then mret false
            else
              bridge_connection ← query (connected_bridge company_id platform);
              match bridge_connection with
              | None => mret false
              | Some bridge_connection =>
                  sender_id ← call (λ _, getitem parsed_data "sender_id");
                  sender_name ← call (λ _, get parsed_data "sender_name" (JStr ""));
                  text ← call (λ _, getitem parsed_data "message");
                  message ← BridgeMessage_objects_create
                    {| bridge := bridge_id bridge_connection; external_id := sender_id;
                       customer_name := Some sender_name; content := text;
                       direction := "inbound"; message_status := "received";
                       raw_data := Some (json_dumps webhook_data) |};
                  total (_forward_to_matrix bridge_connection message)
              end
        end
    end.

(** [process_webhook_data(self, platform, company_id, webhook_data)] *)
Definition process_webhook_data (platform : string) (company_id : nat) (webhook_data : json)
    (w : World) : bool * World :=
  try_except (process_webhook_data_body platform company_id webhook_data) (λ _ w', (false, w')) w.

End WithCollab.

(** Two worlds that differ at most in the status of bridges and in the
    services held: no row of messages, no webhook event, no conversation
    and no AI configuration was written, and nothing was handed to a
    platform. *)
Definition quiet (w w' : World) : Prop :=
  bridge_messages w' = bridge_messages w ∧ bridge_webhooks w' = bridge_webhooks w ∧
  conversations w' = conversations w ∧ ai_configs w' = ai_configs w ∧
  bridge_credentials w' = bridge_credentials w ∧ outbox w' = outbox w.

(** What stays as it is whatever the manager does. *)
Definition frame (w w' : World) : Prop :=
  bridge_webhooks w' = bridge_webhooks w ∧ conversations w' = conversations w ∧
  ai_configs w' = ai_configs w ∧ bridge_credentials w' = bridge_credentials w.

Definition SynchronousOnlyOperation := Exn "SynchronousOnlyOperation".

(** The collaborators as the sources under [matrix_integration] declare
    them: [BridgeCredentials] has no [credentials_json], the services no
    [initialize_connection] and no [parse_webhook_data], [MatrixService]
    none of the three methods, [AIAssistantConfig] no [enabled],
    [BridgeMessage] no column [external_id] or [status]; the constructor
    of the WhatsApp service reads [settings.WHATSAPP_API_VERSION], which
    the settings do not have, those of the Telegram and Instagram
    services take no argument, and the WhatsApp service calls [replace]
    on the company key it is given as recipient.  What the database and
    the scorer answer is not in the sources: [database] and [scorer]
    stand for them. *)
Definition as_declared_with (database : result unit)
    (scorer : json → list BridgeMessage → AIAssistantConfig → result (option AIResponse))
  : Collab := {|
  orm := database;
  credentials_json := λ _, Raise AttributeError;
  new_service := λ platform key credentials,
    if String.eqb platform "whatsapp" then
      _ ← getitem credentials "phone_number_id";
      _ ← getitem credentials "access_token";
      Raise AttributeError
    else Raise TypeError;
  initialize_connection := λ _ _ _ _, Raise AttributeError;
  service_send_message := λ _ _ _ _ _, Raise AttributeError;
  parse_webhook_data := λ _ _, Raise AttributeError;
  initialize_company_bridge := λ _ _, Raise AttributeError;
  get_company_bridge_room := λ _ _, Raise AttributeError;
  send_message_via_bridge := λ _ _ _ _, Raise AttributeError;
  create_bridge_message := λ _, Raise TypeError;
  config_enabled := λ _, Raise AttributeError;
  recent_messages := λ _ _ _, Raise (Exn "FieldError");
  generate_response_sync := scorer
|}.

(** The repository as it runs: the manager is called from a coroutine,
    and the scorer has no API key. *)
Definition as_declared : Collab :=
  as_declared_with (Raise SynchronousOnlyOperation) (λ _ _ _, Ok None).

(** A scorer that answers every message with the confidence [q]. *)
Definition scoring (q : Q) (content : json) (context : list BridgeMessage)
    (config : AIAssistantConfig) : result (option AIResponse) :=
  Ok (Some {| response_content := JStr "Thank you for your message!"; confidence := q;
              model := "gemini-2.0-flash-001" |}).

Definition acme_bridge (status_ : string) : BridgeConnection :=
  {| bridge_id := 7; company := 1; platform := "whatsapp"; status := status_ |}.

Definition acme_conversation : Store.Conversation :=
  {| Store.pk := 1; Store.company := 1; Store.external_id := "+1234567890";
     Store.platform := "whatsapp"; Store.participants := JList [];
     Store.status := "active"; Store.assigned_agent := None; Store.metadata := JDict [] |}.

(** A tenant with one WhatsApp bridge in the given status, one
    conversation, and an AI configuration with auto-respond on and the
    threshold 0.8. *)
Definition acme (status_ : string) : World :=
  {| bridge_connections := [acme_bridge status_];
     bridge_credentials :=
       [{| credentials_bridge := 7;
           encrypted_data := json_dumps (Libs := RefLibs.ref_libs true None)
             (JDict [("phone_number_id", JStr "123456789"); ("access_token", JStr "token")]) |}];
     bridge_messages := [];
     bridge_webhooks := [];
     ai_configs := [{| config_company := 1; model_name := "gemini-pro";
                       system_prompt := "You are a helpful customer service assistant.";
                       auto_respond := true; escalate_to_human := true;
                       confidence_threshold := 8 # 10 |}];
     conversations := [acme_conversation];
     platform_services := ∅;
     outbox := [] |}.

Definition inbound_hello : BridgeMessage :=
  {| bridge := 7; external_id := JStr "+1234567890"; customer_name := Some (JStr "");
     content := JStr "Hello there!"; direction := "inbound"; message_status := "received";
     raw_data := None |}.

(** A conversation is flagged for human attention: its status is
    [escalated], or its metadata say so. *)
Definition flagged (c : Store.Conversation) : Prop :=
  Store.status c = "escalated" ∨
  assoc "escalated" (match Store.metadata c with JDict d => d | _ => [] end) = Some (JBool true).

(** What the specification says of an answer below the threshold:
    nothing is sent and the conversation is flagged. *)
Definition suppressed_and_flagged `{L : Libs} `{C : Collab}
    (bridge_connection : BridgeConnection) (message : BridgeMessage) (w : World) : Prop :=
  let w' := _process_with_ai bridge_connection message w in
  outbox w' = outbox w ∧ ∃ c, c ∈ conversations w' ∧ flagged c.

(** What the specification says of a delivery for a bridge in [error]:
    the message is recorded all the same. *)
Definition recorded_despite_error `{L : Libs} `{C : Collab}
    (platform : string) (company_id : nat) (webhook_data : json) (w : World) : Prop :=
  let w' := (process_webhook_data platform company_id webhook_data w).2 in
  ∃ row, row ∈ bridge_messages w' ∧ direction row = "inbound".

End Manager.

(** ** companies/models.py: [Company.save] *)

Module Companies.
Import Py.

Record Company := { name : string; slug : string; plan : string }.

(** [f"{original_slug}-{counter}"] *)
Definition numbered (original_slug : string) (counter : nat) : string :=
  String.append original_slug (String.append "-" (pretty counter)).

(** The loop of lines 95-97; [taken] holds the slugs of the table and
    [fuel] bounds the number of lookups.
    [while Company.objects.filter(slug=self.slug).exists():
         self.slug = f"{original_slug}-{counter}"; counter += 1] *)
Fixpoint free_slug (fuel : nat) (taken : list string) (original_slug slug : string)
    (counter : nat) : option string :=
  match fuel with
  | O => None
  | S fuel' =>
      if bool_decide (slug ∈ taken)
      then free_slug fuel' taken original_slug (numbered original_slug counter) (S counter)
      else Some slug
  end.

Section WithSlugify.
(** [django.utils.text.slugify] *)
Variable slugify : string → string.

(** [save(self)]: the slug the row is written with. *)
Definition save (fuel : nat) (taken : list string) (self : Company) : option Company :=
  if String.eqb (slug self) "" then
    slug' ← free_slug fuel taken (slugify (name self)) (slugify (name self)) 1;
    Some {| name := name self; slug := slug'; plan := plan self |}
  else Some self.

End WithSlugify.

(** The slugs the loop tries, in turn. *)
Definition candidate (original_slug : string) (i : nat) : string :=
  match i with O => original_slug | S _ => numbered original_slug i end.

End Companies.

(** ** companies/bridge_views.py: [setup] *)

Module Setup.
Import Py Vault BridgeViews.

(** A row of [company_bridge_configurations], with the two columns that
    [setup] fills besides those of the life cycle. *)
Record Row := {
  config : CompanyBridgeConfiguration;
  matrix_namespace : option string;
  matrix_room_alias_prefix : option string
}.

Definition key (r : Row) : nat * string := (company (config r), platform (config r)).

(** [unique_together = [['company', 'platform']]] *)
Definition unique_together (table : list Row) : Prop := NoDup (key <$> table).

(** The codes of [PLATFORM_CHOICES]. *)
Definition PLATFORM_CHOICES : list string :=
  ["whatsapp"; "telegram"; "instagram"; "facebook"; "signal"].

(** [f"{company.slug}_{platform}"] *)
Definition namespace (slug platform : string) : string :=
  String.append slug (String.append "_" platform).

Definition new_row (company_ : nat) (slug platform_ : string) : Row :=
  {| config := {| company := company_; platform := platform_; status := "pending";
                  encrypted_config := None; error_message := None;
                  setup_completed_at := None; last_sync_at := None |};
     matrix_namespace := Some (namespace slug platform_);
     matrix_room_alias_prefix := Some (namespace slug platform_) |}.

(** [CompanyBridgeConfiguration.objects.get_or_create(company=, platform=,
    defaults=)], with one caller. *)
Definition get_or_create (company_ : nat) (slug platform_ : string) (table : list Row)
  : result (Row * bool) * list Row :=
  match filter (λ r, key r = (company_, platform_)) table with
  | [] => let r := new_row company_ slug platform_ in (Ok (r, true), table ++ [r])
  | [r] => (Ok (r, false), table)
  | _ => (Raise MultipleObjectsReturned, table)
  end.

(** [platform not in dict(CompanyBridgeConfiguration.PLATFORM_CHOICES)],
    negated: a list or a dict cannot be hashed. *)
Definition platform_choice (platform_ : json) : result (option string) :=
  match platform_ with
  | JStr p => Ok (if bool_decide (p ∈ PLATFORM_CHOICES) then Some p else None)
  | JList _ | JDict _ => Raise TypeError
  | _ => Ok None
  end.

(** The [try]-less body of [setup]. *)
Definition setup_body (request_data : json) (company_ : option (nat * string))
    (table : list Row) : result Response * list Row :=
  match get request_data "platform" JNone with
  | Raise e => (Raise e, table)
  | Ok platform_ =>
      if negb (truthy platform_) then (Ok {| status_code := 400; body_status := None |}, table)
      else
        match platform_choice platform_ with
        | Raise e => (Raise e, table)
        | Ok None => (Ok {| status_code := 400; body_status := None |}, table)
        | Ok (Some platform_) =>
            match company_ with
            | None => (Raise AttributeError, table)
            | Some (company_, slug) =>
                match get_or_create company_ slug platform_ table with
                | (Ok (r, created), table') =>
                    if negb created && String.eqb (status (config r)) "active" then
                      (Ok {| status_code := 400; body_status := None |}, table')
                    else
                      (Ok {| status_code := 200; body_status := Some "setup_initialized" |},
                       table')
                | (Raise e, table') => (Raise e, table')
                end
            end
        end
  end.

(** [setup(self, request)]: [request_data] is [request.data] and
    [company_] is [request.user.company] with its slug, [None] for a
    user without a company, whose [company.slug] raises when the
    defaults are built.  An exception leaves the view and the framework
    answers 500. *)
Definition setup (request_data : json) (company_ : option (nat * string))
    (table : list Row) : Response * list Row :=
  match setup_body request_data company_ table with
  | (Ok response, table') => (response, table')
  | (Raise _, table') => ({| status_code := 500; body_status := None |}, table')
  end.

(** The requests [setup] cannot answer: data that is no dict, a
    platform that cannot be hashed, and a known platform asked for by
    a user without a company. *)
Definition unanswerable (request_data : json) (company_ : option (nat * string)) : Prop :=
  match request_data with
  | JDict data =>
      match assoc "platform" data with
      | Some (JList (_ :: _)) | Some (JDict (_ :: _)) => True
      | Some (JStr p) => p ∈ PLATFORM_CHOICES ∧ company_ = None
      | _ => False
      end
  | _ => True
  end.

End Setup.

(** ** More samples for the conversation store *)

Module Samples.
Import Py Store Messaging Payload.

(** A caller for each of two senders, about to start. *)
Definition second_contact : caller :=
  {| c_key := (1, "+15550002222", "whatsapp");
     c_defaults := {| d_participants := JList []; d_status := "active" |};
     c_pc := AtGet |}.

(** The text of the sender of a message. *)
Definition sender (message_data : json) : string :=
  match message_data with
  | JDict d =>
      match char_field (from_option id JNone (assoc "from" d)) with
      | Ok s => s
      | Raise _ => ""
      end
  | _ => ""
  end.

(** A delivery whose second message is a bare string. *)
Definition broken_batch : list json :=
  [text_message "wamid.1" "+1234567890" "1678901234" "first"] ++
  JStr "not a message" ::
  [text_message "wamid.3" "+1234567890" "1678901236" "third"].

End Samples.

(** ** matrix_integration/services/bridge_manager.py: what a call leaves *)

Module ManagerSamples.
Import Py Lib Manager.

(** What [save_status] does to one row. *)
Definition restatus (b : BridgeConnection) (s : string) (r : BridgeConnection) : BridgeConnection :=
  if bridge_id r =? bridge_id b then with_status r s else r.

End ManagerSamples.

(** ** messaging/webhook_views.py: [WhatsAppWebhookView] *)

Module WebhookViews.
Import Py Lib Store Messaging.

(** What a view answers.  [Challenge] is [HttpResponse(challenge)];
    [Error e] is the JSON body whose [error] is the text of [e]. *)
Inductive answer :=
  | Challenge (challenge : option string)
  | InvalidVerifyToken
  | Success
  | CompanyRequired
  | Error (e : exn).

Record HttpResponse := { status : nat; body : answer }.

(** [get(self, request)]: [verify_token] and [challenge] are the
    parameters [hub.verify_token] and [hub.challenge] of the query,
    [None] when the request has none; [WHATSAPP_VERIFY_TOKEN] is the
    setting, [None] when the environment does not set it. *)
Definition get (WHATSAPP_VERIFY_TOKEN verify_token challenge : option string) : HttpResponse :=
  if bool_decide (verify_token = WHATSAPP_VERIFY_TOKEN)
  then {| status := 200; body := Challenge challenge |}
  else {| status := 403; body := InvalidVerifyToken |}.

Section WithLibs.
Context `{L : Libs}.

(** [post(self, request)]: [request_body] is the body of the request and
    [company_id] the parameter of the query, [None] when it is missing
    or empty; a key that no company has stands for every other text. *)
Definition post (request_body : string) (company_id : option nat) (now : Z) (t : Tables)
  : HttpResponse * Tables :=
  match json_loads request_body with
  | Raise e => ({| status := 500; body := Error e |}, t)
  | Ok data =>
      match company_id with
      | None => ({| status := 400; body := CompanyRequired |}, t)
      | Some company_id =>
          match process_webhook data company_id now t with
          | (Processed, t') => ({| status := 200; body := Success |}, t')
          | (Failed e, t') => ({| status := 400; body := Error e |}, t')
          end
      end
  end.

End WithLibs.
End WebhookViews.

(** ** Sending to the Graph API *)

Module Graph.
Import Py.

(** What the HTTP client hands back: the status, the body read as JSON
    ([response.json()], which raises on a body that is none) and the
    body as text. *)
Record Response := { status_code : nat; json_body : result json; text : string }.

(** [requests.post(url, headers=..., json=payload)] and
    [session.post(url, json=payload, headers=headers)]: the call
    answers or raises.  The headers carry the access token and are the
    same in every call. *)
Class Http := { post : string → json → result Response }.

(** [result.get("messages", [{}])[0].get("id")] *)
Definition message_id (result : json) : Py.result json :=
  messages ← get result "messages" (JList [JDict []]);
  first_message ← BridgeWhatsApp.first messages;
  get first_message "id" JNone.

(** [f"{base}/{phone_number_id}/messages"] *)
Definition messages_url (base phone_number_id : string) : string :=
  String.append base (String.append "/" (String.append phone_number_id "/messages")).

End Graph.

(** *** messaging/services/whatsapp_service.py: [send_message] *)

Module MessagingSend.
Import Py Graph.

Section WithHttp.
Context `{H : Http}.
(** [str(e)], and the settings [WHATSAPP_API_URL] and
    [WHATSAPP_PHONE_NUMBER_ID] with their defaults applied *)
Variable str_exn : exn → string.
Variables api_url WHATSAPP_PHONE_NUMBER_ID : string.

(** [_get_phone_number_id(self, company_id)] *)
Definition _get_phone_number_id (company_id : json) : string := WHATSAPP_PHONE_NUMBER_ID.

(** Lines 28-39: the payload of the request. *)
Definition message_payload (phone_number message : json) (message_type : string)
    (media_url : json) : json :=
  let payload := [("messaging_product", JStr "whatsapp"); ("to", phone_number);
                  ("type", JStr message_type)] in
  JDict
    (if String.eqb message_type "text" then payload ++ [("text", JDict [("body", message)])]
     else if String.eqb message_type "image" && truthy media_url then
       payload ++ [("image", JDict [("link", media_url); ("caption", message)])]
     else if String.eqb message_type "document" && truthy media_url then
       payload ++ [("document", JDict [("link", media_url); ("caption", message)])]
     else payload).

(** [send_message(self, phone_number, message, company_id, message_type,
    media_url)] *)
Definition send_message (phone_number message company_id : json) (message_type : string)
    (media_url : json) : json :=
  let body :=
    let phone_number_id := _get_phone_number_id company_id in
    let payload := message_payload phone_number message message_type media_url in
    response ← post (messages_url api_url phone_number_id) payload;
    if status_code response =? 200 then
      result ← json_body response;
      message_id ← message_id result;
      Ok (JDict [("message_id", message_id); ("status", JStr "sent"); ("response", result)])
    else Ok (JDict [("status", JStr "failed"); ("error", JStr (text response))]) in
  match body with
  | Ok d => d
  | Raise e => JDict [("status", JStr "failed"); ("error", JStr (str_exn e))]
  end.

End WithHttp.
End MessagingSend.

(** *** matrix_integration/services/platform_services/whatsapp_service.py:
    [send_message] *)

Module PlatformSend.
Import Py Graph.

(** [to.replace('+', '')] *)
Fixpoint remove_plus (s : string) : string :=
  match s with
  | EmptyString => EmptyString
  | String c s' => if Ascii.eqb c "+" then remove_plus s' else String c (remove_plus s')
  end.

(** A key written in a dict display: a key that is there keeps its
    place and takes the new value. *)
Fixpoint setitem (k : string) (v : json) (d : list (string * json)) : list (string * json) :=
  match d with
  | [] => [(k, v)]
  | (k', v') :: d' => if String.eqb k k' then (k, v) :: d' else (k', v') :: setitem k v d'
  end.

Section WithHttp.
Context `{H : Http}.
Variable str_exn : exn → string.
(** [self.base_url] and [self.phone_number_id] *)
Variables base_url phone_number_id : string.

(** Lines 26-31 *)
Definition message_payload (to : string) (content : json) (message_type : string) : json :=
  JDict (setitem message_type (JDict [("body", content)])
           [("messaging_product", JStr "whatsapp"); ("to", JStr to);
            ("type", JStr message_type)]).

(** [send_message(self, to, content, message_type)]: [replace] is
    called before the [try], on whatever [to] is. *)
Definition send_message (to content : json) (message_type : string) : result json :=
  match to with
  | JStr to =>
      let to := remove_plus to in
      let payload := message_payload to content message_type in
      let body :=
        response ← post (messages_url base_url phone_number_id) payload;
        result ← json_body response;
        if status_code response =? 200 then
          message_id ← message_id result;
          Ok (JDict [("success", JBool true); ("message_id", message_id);
                     ("status", JStr "sent")])
        else
          error ← get result "error" (JDict []);
          message ← get error "message" (JStr "Unknown error");
          Ok (JDict [("success", JBool false); ("error", message)]) in
      Ok match body with
         | Ok d => d
         | Raise e => JDict [("success", JBool false); ("error", JStr (str_exn e))]
         end
  | _ => Raise AttributeError
  end.

End WithHttp.

(** The API took the message and answered without a list of messages. *)
Definition accepted_without_id : Http :=
  {| post := λ _ _, Ok {| status_code := 200;
                          json_body := Ok (JDict [("messaging_product", JStr "whatsapp");
                                                  ("messages", JList [])]);
                          text := "" |} |}.

(** The API refuses every message. *)
Definition refusing : Http :=
  {| post := λ _ _, Ok {| status_code := 401;
                          json_body := Ok (JDict [("error", JDict [("message", JStr "Invalid OAuth access token")])]);
                          text := "" |} |}.

End PlatformSend.

(** ** matrix_integration/services/ai_service.py *)

Module AI.
Import Py.

(** The methods of [str] that the scorer calls: [s.split()],
    [s.lower()] and [phrase in s]. *)
Class Text := {
  split : string → list string;
  lower : string → string;
  contains_text : string → string → bool
}.

(** [self.client.models.generate_content(model=..., contents=...,
    config=...)], as the text of its response: the call answers or
    raises.  It is given the message, the prompt of the configuration
    and the conversation so far. *)
Class Client := { generate_content : string → string → list Manager.BridgeMessage → result string }.

Definition generic_phrases : list string := ["i can help"; "let me assist"; "please contact"].

Section WithText.
Context `{T : Text}.

(** [calculate_confidence(self, message, response)] *)
Definition calculate_confidence (message response : string) : Q :=
  if length (split response) <? 3 then 3 # 10
  else if existsb (λ phrase, contains_text phrase (lower response)) generic_phrases then 6 # 10
  else if 10 <? length (split response) then 9 # 10
  else 7 # 10.

(** [generate_response(self, message, context, config)]; [client] is
    [self.client], [None] when [GEMINI_API_KEY] is not set. *)
Definition generate_response (client : option Client) (message : string)
    (context : list Manager.BridgeMessage) (config : Manager.AIAssistantConfig)
  : option Manager.AIResponse :=
  match client with
  | None => None
  | Some client =>
      match generate_content message (Manager.system_prompt config) context with
      | Ok text =>
          if negb (String.eqb text "") then
            Some {| Manager.response_content := JStr text;
                    Manager.confidence := calculate_confidence message text;
                    Manager.model := "gemini-2.0-flash-001" |}
          else None
      | Raise _ => None
      end
  end.

(** [generate_response_sync(self, message, context, config)] *)
Definition generate_response_sync (client : option Client) (message : string)
    (context : list Manager.BridgeMessage) (config : Manager.AIAssistantConfig)
  : option Manager.AIResponse :=
  generate_response client message context config.

End WithText.

(** [str] on text of the ASCII range, to run the scorer on. *)
Definition ascii_lower (c : ascii) : ascii :=
  let n := nat_of_ascii c in
  if (65 <=? n) && (n <=? 90) then ascii_of_nat (n + 32) else c.

Fixpoint string_map (f : ascii → ascii) (s : string) : string :=
  match s with
  | EmptyString => EmptyString
  | String c s' => String (f c) (string_map f s')
  end.

Fixpoint ascii_split (word : string) (s : string) : list string :=
  let close := if String.eqb word "" then [] else [word] in
  match s with
  | EmptyString => close
  | String c s' =>
      if Messaging.is_space c then close ++ ascii_split "" s'
      else ascii_split (String.append word (String c "")) s'
  end.

Definition ascii_text : Text := {|
  split := ascii_split "";
  lower := string_map ascii_lower;
  contains_text := λ phrase s, bool_decide (is_Some (String.index 0 phrase s))
|}.

(** A model that answers every message with the same text. *)
Definition parrot (answer : string) : Client := {| generate_content := λ _ _ _, Ok answer |}.

Definition acme_config : Manager.AIAssistantConfig :=
  {| Manager.config_company := 1; Manager.model_name := "gemini-pro";
     Manager.system_prompt := "You are a helpful customer service assistant.";
     Manager.auto_respond := true; Manager.escalate_to_human := true;
     Manager.confidence_threshold := 8 # 10 |}.

Definition short_answer : Manager.AIResponse :=
  {| Manager.response_content := JStr "Thank you!"; Manager.confidence := 3 # 10;
     Manager.model := "gemini-2.0-flash-001" |}.

End AI.

(** * Part II: theorems *)

(** ** Python values *)

Module PyFacts.
Import Py.

Lemma json_nested_ind (P : json → Prop) :
  P JNone → (∀ b, P (JBool b)) → (∀ z, P (JInt z)) → (∀ s, P (JStr s)) →
  (∀ l, Forall P l → P (JList l)) →
  (∀ d, Forall (λ kv, P kv.2) d → P (JDict d)) →
  ∀ v, P v.
Proof.
  intros HN HB HI HS HL HD.
  fix IH 1. intros [ | b | z | s | l | d].
  - exact HN.
  - apply HB.
  - apply HI.
  - apply HS.
  - apply HL. induction l as [|x l IHl]; constructor; [apply IH | exact IHl].
  - apply HD. induction d as [|[k x] d IHd]; constructor; [apply IH | exact IHd].
Qed.

Lemma length_repeat_char c n : String.length (repeat_char c n) = n.
Proof. induction n as [|n IH]; simpl; [reflexivity | now rewrite IH]. Qed.

Lemma length_string_app (s t : string) :
  String.length (String.append s t) = String.length s + String.length t.
Proof. induction s as [|c s IH]; simpl; [reflexivity | now rewrite IH]. Qed.

Lemma length_ljust s n c : String.length s ≤ n → String.length (ljust s n c) = n.
Proof.
  intros H. unfold ljust. rewrite length_string_app, length_repeat_char. lia.
Qed.

Lemma length_str_prefix n s : n ≤ String.length s → String.length (str_prefix n s) = n.
Proof.
  unfold str_prefix. revert s. induction n as [|n IH]; intros [|c s] H; simpl in *; try lia.
  rewrite IH; [reflexivity | lia].
Qed.

End PyFacts.

(** ** The executable library instance has the laws of the interface *)

Module RefLibsFacts.
Import Py Lib RefLibs.

Lemma of_tree_to_tree v : of_tree (to_tree v) = Some v.
Proof.
  induction v as [ | b | z | s | l IH | d IH] using PyFacts.json_nested_ind; try reflexivity.
  - simpl. replace (mapM of_tree (map to_tree l)) with (Some l); [reflexivity|].
    induction IH as [|x l Hx _ IHl]; simpl; [reflexivity|].
    rewrite Hx. simpl. rewrite <- IHl. reflexivity.
  - simpl. match goal with |- JDict <$> ?m = _ => replace m with (Some d) end; [reflexivity|].
    induction IH as [|[k x] d Hx _ IHd]; simpl; [reflexivity|].
    simpl in Hx. rewrite Hx. simpl. rewrite <- IHd. reflexivity.
Qed.

Lemma unbits_bits p : unbits (bits p) = Some p.
Proof.
  induction p as [p IH | p IH | ]; simpl; [rewrite IH .. | ]; reflexivity.
Qed.

Lemma ref_loads_dumps v : ref_json_loads (ref_json_dumps v) = Ok v.
Proof.
  unfold ref_json_loads, ref_json_dumps. rewrite unbits_bits. simpl.
  rewrite countable.decode_encode. simpl. rewrite of_tree_to_tree. reflexivity.
Qed.

Lemma bits_nonempty p : bits p ≠ "".
Proof. destruct p; discriminate. Qed.

Lemma ref_text (b : bytes) :
  ∃ s, ref_decode b = Ok s ∧ ref_encode s = b ∧ (b ≠ [] → s ≠ "").
Proof.
  exists (String.string_of_list_byte b). split; [reflexivity|]. split.
  - apply String.list_byte_of_string_of_list_byte.
  - intros Hb Hs. apply Hb.
    rewrite <- (String.list_byte_of_string_of_list_byte b), Hs. reflexivity.
Qed.

Lemma ref_libs_laws installed key : LibLaws (ref_libs installed key).
Proof.
  split; simpl.
  - intros s. unfold ref_encode, String.list_byte_of_string.
    rewrite length_map. induction s; simpl; lia.
  - intros s. unfold ref_decode, ref_encode.
    rewrite String.string_of_list_byte_of_string. reflexivity.
  - intros v _. apply ref_loads_dumps.
  - intros b. apply ref_text.
  - reflexivity.
  - intros k Hk. unfold ref_Fernet. rewrite Hk. reflexivity.
  - intros f r p. destruct (ref_text (ref_encrypt f r p)) as (s & ? & ? & Hs).
    exists s. split; [assumption|]. split; [assumption|]. apply Hs. discriminate.
  - intros f r p. unfold ref_decrypt, ref_encrypt.
    rewrite take_app_length, drop_app_length, bool_decide_eq_true_2; reflexivity.
  - intros v. unfold ref_encode, ref_json_dumps.
    pose proof (bits_nonempty (countable.encode (to_tree v))) as H.
    destruct (bits _); [congruence | discriminate].
Qed.

End RefLibsFacts.

(** ** The credential vault *)

Module VaultFacts.
Import Py Lib Vault.

Section WithLibs.
Context `{L : Libs}.

(** [get_decrypted_config] never raises: every path ends in a [return]. *)
Lemma get_decrypted_config_returns self : ∃ v, get_decrypted_config self = Ok v.
Proof.
  unfold get_decrypted_config.
  destruct (encrypted_config self) as [[|c blob]|]; eauto.
  destruct (decrypt_blob _) as [v|e]; eauto.
  destruct (exn_eqb e ImportError); eauto.
  destruct (decode_blob _); eauto.
Qed.

(** C1, as the code has it: where the credentials cannot be had, the
    result of [get_decrypted_config] is the empty dict [{}], not an
    error. *)
Theorem get_decrypted_config_fails_open self :
  credential_unavailable self → get_decrypted_config self = Ok (JDict []).
Proof.
  unfold credential_unavailable, get_decrypted_config.
  destruct (encrypted_config self) as [[|c blob]|]; try reflexivity.
  intros (e & -> & ->). reflexivity.
Qed.

Context {Laws : LibLaws L}.

(** The key handed to [Fernet] is always the base64 form of 32 octets,
    whatever the configured key string is. *)
Lemma bridge_fernet_ok :
  cryptography_installed = true → ∃ f, bridge_fernet = Ok f.
Proof.
  intros Hi. unfold bridge_fernet. rewrite Hi.
  set (ks := default _ BRIDGE_ENCRYPTION_KEY).
  match goal with |- ∃ f, Fernet (urlsafe_b64encode (take 32 (encode ?k))) = _ =>
    assert (Hlen : String.length k = 32) end.
  { destruct (String.length ks <? 32) eqn:Hlt.
    - apply Nat.ltb_lt in Hlt. apply PyFacts.length_ljust. lia.
    - apply Nat.ltb_ge in Hlt. destruct (32 <? String.length ks) eqn:Hgt.
      + apply Nat.ltb_lt in Hgt. apply PyFacts.length_str_prefix. lia.
      + apply Nat.ltb_ge in Hgt. lia. }
  match goal with |- ∃ f, Fernet ?k = _ =>
    assert (Hok : is_ok (Fernet k) = true) end.
  { apply Fernet_key. rewrite length_take.
    match goal with |- context [encode ?k] => pose proof (encode_length k) end. lia. }
  destruct (Fernet _); [eauto | discriminate].
Qed.

(** What [set_encrypted_config] stores, [get_decrypted_config] reads
    back unchanged, for every credential map, company and platform, with
    or without the [cryptography] package. *)
Theorem get_decrypted_config_set_encrypted_config self creds r :
  well_formed creds →
  ∃ self', set_encrypted_config self creds r = Ok self' ∧
           company self' = company self ∧ platform self' = platform self ∧
           get_decrypted_config self' = Ok creds.
Proof.
  intros Hwf. unfold set_encrypted_config.
  destruct cryptography_installed eqn:Hi.
  - destruct (bridge_fernet_ok Hi) as [f Hf]. rewrite Hf. simpl.
    destruct (token_text f r (encode (json_dumps creds))) as (s & Hd & He & Hs).
    rewrite Hd. simpl. eexists. split; [reflexivity|]. split; [reflexivity|].
    split; [reflexivity|].
    unfold get_decrypted_config. simpl. destruct s as [|c s]; [congruence|].
    unfold decrypt_blob. rewrite Hf. simpl. rewrite He, decrypt_encrypt. simpl.
    rewrite decode_encode. simpl. rewrite loads_dumps by assumption. reflexivity.
  - assert (Hf : bridge_fernet = Raise ImportError).
    { unfold bridge_fernet. rewrite Hi. reflexivity. }
    rewrite Hf. simpl.
    destruct (b64_text (encode (json_dumps creds))) as (s & Hd & He & Hs).
    rewrite Hd. simpl. eexists. split; [reflexivity|]. split; [reflexivity|].
    split; [reflexivity|].
    unfold get_decrypted_config. simpl.
    destruct s as [|c s]; [exfalso; apply Hs; [apply dumps_nonempty | reflexivity]|].
    unfold decrypt_blob. rewrite Hf. simpl.
    unfold decode_blob. rewrite He, b64decode_b64encode. simpl.
    rewrite decode_encode. simpl. rewrite loads_dumps by assumption. reflexivity.
Qed.

End WithLibs.

(** At a configuration with nothing stored the vault answers [{}]: the
    explicit error that C1 asks for is not what the code returns. *)
Lemma fresh_config_not_fails_closed :
  ¬ fails_closed (L := RefLibs.ref_libs true None) fresh_config.
Proof.
  unfold fails_closed. intros H. specialize (H I). discriminate H.
Qed.

Lemma fresh_config_empty_dict :
  get_decrypted_config (L := RefLibs.ref_libs true None) fresh_config = Ok (JDict []).
Proof. reflexivity. Qed.

Lemma corrupt_config_fails_open :
  credential_unavailable (L := RefLibs.ref_libs true None) corrupt_config ∧
  get_decrypted_config (L := RefLibs.ref_libs true None) corrupt_config = Ok (JDict []).
Proof.
  assert (H : credential_unavailable (L := RefLibs.ref_libs true None) corrupt_config).
  { exists InvalidToken. split; reflexivity. }
  split; [exact H | exact (get_decrypted_config_fails_open corrupt_config H)].
Defined.

Lemma sample_creds_well_formed : well_formed sample_creds.
Proof.
  simpl. split; [|tauto].
  apply NoDup_cons_2; [|apply NoDup_singleton].
  rewrite list_elem_of_singleton. discriminate.
Qed.

Lemma sample_creds_roundtrip :
  well_formed sample_creds ∧
  ∃ self', set_encrypted_config (L := RefLibs.ref_libs true None) fresh_config sample_creds 7
             = Ok self' ∧
           company self' = company fresh_config ∧ platform self' = platform fresh_config ∧
           get_decrypted_config (L := RefLibs.ref_libs true None) self' = Ok sample_creds.
Proof.
  split; [exact sample_creds_well_formed|].
  exact (get_decrypted_config_set_encrypted_config
           (L := RefLibs.ref_libs true None) (Laws := RefLibsFacts.ref_libs_laws true None)
           fresh_config sample_creds 7 sample_creds_well_formed).
Defined.

End VaultFacts.

(** ** The setup life cycle *)

Module BridgeViewsFacts.
Import Py Lib Vault BridgeViews.

Section WithCollab.
Context `{L : Libs} `{C : Collab}.

Lemma test_passed config now r :
  _test_bridge_connection config = Ok r → success r = true →
  (test config true now).2 =
    match link_workspace (set_active config now None) with
    | Ok _ => set_active config now None
    | Raise e => set_error (set_active config now None) (str_exn e)
    end.
Proof.
  intros Hr Hs. unfold test. simpl. rewrite Hr, Hs.
  destruct (link_workspace _); reflexivity.
Qed.

Lemma test_failed config now r :
  _test_bridge_connection config = Ok r → success r = false →
  status (test config true now).2 = "error".
Proof. intros Hr Hs. unfold test. simpl. rewrite Hr, Hs. reflexivity. Qed.

(** [_test_bridge_connection] always returns a result dict. *)
Lemma _test_bridge_connection_returns config : ∃ r, _test_bridge_connection config = Ok r.
Proof.
  unfold _test_bridge_connection.
  destruct (VaultFacts.get_decrypted_config_returns config) as [v ->]. simpl.
  match goal with |- ∃ r, match ?d with _ => _ end = _ => destruct d end; eauto.
Qed.

(** C6, as the code has it: a passing connection test saves the row as
    [active] at once, from [pending] as from any other status, and the
    call that links the workspace room comes after it; [error] replaces
    [active] when that call raises.  The row is never left in
    [configured]. *)
Theorem passing_test_activates config now r :
  _test_bridge_connection config = Ok r → success r = true →
  status (test config true now).2 =
    (if is_ok (link_workspace (set_active config now None)) then "active" else "error").
Proof.
  intros Hr Hs. rewrite (test_passed _ _ _ Hr Hs).
  destruct (link_workspace _); reflexivity.
Qed.

(** [activate] is the step that leads from [configured] to [active], once
    the call that links the workspace room has returned. *)
Lemma activate_configured config now :
  status config = "configured" → is_ok (link_workspace config) = true →
  status (activate config now).2 = "active".
Proof.
  intros Hc Hl. unfold activate. rewrite Hc. simpl.
  destruct (link_workspace config); [reflexivity | discriminate].
Qed.

(** [configured] is what [configure] leaves behind. *)
Lemma configure_sets_configured config request_data config_data r config' :
  validated_data request_data = Some config_data →
  set_encrypted_config config config_data r = Ok config' →
  status (configure config request_data r).2 = "configured".
Proof. intros Hv H. unfold configure. rewrite Hv, H. reflexivity. Qed.

(** The call that should link the workspace room builds a coroutine
    and drops it: it returns, whatever the workspace is. *)
Lemma link_workspace_returns config : link_workspace config = Ok ().
Proof.
  unfold link_workspace.
  destruct (VaultFacts.get_decrypted_config_returns config) as [v ->]. reflexivity.
Qed.

(** [activate] refuses every status but [configured]. *)
Lemma activate_needs_configured config now :
  status config ≠ "configured" → activate config now = ({| status_code := 400; body_status := None |}, config).
Proof.
  intros H. unfold activate. destruct (String.eqb_spec (status config) "configured"); [contradiction | reflexivity].
Qed.

End WithCollab.

Lemma pending_whatsapp_test_passes :
  ∃ r, _test_bridge_connection (L := RefLibs.ref_libs true None) (C := all_up) pending_whatsapp = Ok r ∧
       success r = true.
Proof. eexists. split; reflexivity. Qed.

(** A [pending] row with working credentials is [active] after the test. *)
Lemma pending_whatsapp_not_configured :
  ¬ test_leads_to_configured (L := RefLibs.ref_libs true None) (C := all_up) pending_whatsapp 1700000000.
Proof.
  intros H. specialize (H eq_refl pending_whatsapp_test_passes).
  vm_compute in H. discriminate H.
Qed.

Lemma pending_whatsapp_active :
  status (test (L := RefLibs.ref_libs true None) (C := all_up) pending_whatsapp true 1700000000).2
    = "active".
Proof.
  exact (passing_test_activates (L := RefLibs.ref_libs true None) (C := all_up)
           pending_whatsapp 1700000000 passed eq_refl eq_refl).
Defined.

End BridgeViewsFacts.

(** ** The conversation store *)

Module StoreFacts.
Import Py Store.

Lemma matching_absent k rows : k ∉ (triple <$> rows) → matching k rows = [].
Proof.
  unfold matching. induction rows as [|c rows IH]; intros Hk; [reflexivity|].
  rewrite fmap_cons, not_elem_of_cons in Hk. destruct Hk as [Hc Hk].
  rewrite filter_cons_False by congruence. auto.
Qed.

Lemma matching_present k rows :
  unique_together rows → k ∈ (triple <$> rows) →
  ∃ c, matching k rows = [c] ∧ c ∈ rows ∧ triple c = k.
Proof.
  unfold unique_together, matching. induction rows as [|c rows IH]; intros Hu Hk.
  - rewrite fmap_nil in Hk. inversion Hk.
  - rewrite fmap_cons in Hu, Hk. apply NoDup_cons in Hu as [Hc Hu].
    destruct (decide (triple c = k)) as [Heq|Hne].
    + exists c. rewrite filter_cons_True by assumption.
      fold (matching k rows). rewrite matching_absent by congruence.
      split; [reflexivity|]. split; [left | assumption].
    + rewrite filter_cons_False by assumption.
      apply elem_of_cons in Hk as [Hk|Hk]; [congruence|].
      destruct (IH Hu Hk) as (c' & ? & ? & ?). exists c'. split; [assumption|].
      split; [right|]; assumption.
Qed.

Lemma Conversation_get_absent k rows :
  k ∉ (triple <$> rows) → Conversation_get k rows = Raise DoesNotExist.
Proof. intros H. unfold Conversation_get. rewrite matching_absent by assumption. reflexivity. Qed.

Lemma Conversation_get_present k rows :
  unique_together rows → k ∈ (triple <$> rows) →
  ∃ c, Conversation_get k rows = Ok c ∧ c ∈ rows ∧ triple c = k.
Proof.
  intros Hu Hk. destruct (matching_present k rows Hu Hk) as (c & Hm & ? & ?).
  exists c. unfold Conversation_get. rewrite Hm. auto.
Qed.

Lemma triple_new_conversation n k d : triple (new_conversation n k d) = k.
Proof. destruct k as [[a b] c]. reflexivity. Qed.

(** The constraint survives an insert, and nothing is ever removed. *)
Lemma Conversation_create_spec k d rows :
  unique_together rows →
  let '(r, rows') := Conversation_create k d rows in
  unique_together rows' ∧
  match r with
  | Ok c => (k ∉ (triple <$> rows)) ∧ rows' = rows ++ [c] ∧ triple c = k
  | Raise e => e = IntegrityError ∧ rows' = rows ∧ k ∈ (triple <$> rows)
  end.
Proof.
  intros Hu. unfold Conversation_create. case_bool_decide as Hk; simpl.
  - auto.
  - split; [|auto using triple_new_conversation].
    unfold unique_together. rewrite fmap_app. simpl. rewrite triple_new_conversation.
    apply NoDup_app. split; [assumption|]. split; [|apply NoDup_singleton].
    intros x Hx Hx'. apply list_elem_of_singleton in Hx'. congruence.
Qed.

Lemma triple_inj rows c1 c2 :
  unique_together rows → c1 ∈ rows → c2 ∈ rows → triple c1 = triple c2 → c1 = c2.
Proof.
  unfold unique_together. induction rows as [|c rows IH]; intros Hu H1 H2 Heq.
  - inversion H1.
  - rewrite fmap_cons in Hu. apply NoDup_cons in Hu as [Hc Hu].
    apply elem_of_cons in H1 as [->|H1]; apply elem_of_cons in H2 as [->|H2]; auto.
    + exfalso. apply Hc. rewrite Heq. apply list_elem_of_fmap_2. assumption.
    + exfalso. apply Hc. rewrite <- Heq. apply list_elem_of_fmap_2. assumption.
Qed.

Lemma caller_ok_app rows more w : caller_ok rows w → caller_ok (rows ++ more) w.
Proof.
  unfold caller_ok. destruct (c_pc w); auto.
  - rewrite fmap_app, elem_of_app. auto.
  - rewrite elem_of_app. tauto.
Qed.

(** One statement of a caller: the constraint and the caller's invariant
    are kept, the table only grows, and the caller is one statement
    closer to its return. *)
Lemma caller_step_spec w rows :
  unique_together rows → caller_ok rows w →
  let '(w', rows') := caller_step w rows in
  unique_together rows' ∧ caller_ok rows' w' ∧ (∃ more, rows' = rows ++ more) ∧
  c_key w' = c_key w ∧ rank (c_pc w') ≤ pred (rank (c_pc w)).
Proof.
  intros Hu Hw. unfold caller_step. unfold caller_ok in Hw.
  destruct (c_pc w) as [ | | | c b | e] eqn:Hpc.
  - destruct (decide (c_key w ∈ (triple <$> rows))) as [Hin|Hout].
    + destruct (Conversation_get_present _ _ Hu Hin) as (c & -> & Hc & Hk).
      repeat split; try assumption; simpl; try lia. exists []. by rewrite app_nil_r.
    + rewrite (Conversation_get_absent _ _ Hout). simpl.
      repeat split; try assumption; simpl; try lia. exists []. by rewrite app_nil_r.
  - pose proof (Conversation_create_spec (c_key w) (c_defaults w) rows Hu) as Hc.
    destruct (Conversation_create _ _ rows) as [[c|e] rows']; destruct Hc as [Hu' Hc].
    + destruct Hc as (Hout & -> & Hk).
      repeat split; try assumption; simpl; try lia; [|by eexists].
      rewrite elem_of_app, list_elem_of_singleton. auto.
    + destruct Hc as (-> & -> & Hin). simpl.
      repeat split; try assumption; simpl; try lia. exists []. by rewrite app_nil_r.
  - destruct (Conversation_get_present _ _ Hu Hw) as (c & -> & Hc & Hk).
    repeat split; try assumption; simpl; try lia. exists []. by rewrite app_nil_r.
  - destruct Hw. unfold caller_ok. rewrite Hpc.
    repeat split; try assumption; simpl; try lia. exists []. by rewrite app_nil_r.
  - contradiction.
Qed.

Lemma step_spec i s :
  system_ok s →
  system_ok (step i s) ∧ c_key <$> (step i s).1 = c_key <$> s.1 ∧
  ∀ j, rank_at (step i s) j ≤ rank_at s j - (if decide (j = i) then 1 else 0).
Proof.
  destruct s as [ws rows]. intros [Hu Hws]. unfold step. simpl in *.
  destruct (ws !! i) as [w|] eqn:Hi.
  - pose proof (caller_step_spec w rows Hu (proj1 (Forall_lookup _ _) Hws i w Hi)) as Hs.
    destruct (caller_step w rows) as [w' rows'].
    destruct Hs as (Hu' & Hw' & [more ->] & Hk & Hr). simpl. split; [|split].
    + split; [assumption|]. simpl. apply Forall_insert; [|assumption].
      eapply Forall_impl; [exact Hws|]. intros x. apply caller_ok_app.
    + rewrite list_fmap_insert, Hk. apply list_insert_id.
      rewrite list_lookup_fmap, Hi. reflexivity.
    + intros j. unfold rank_at. simpl. case_decide as Hj.
      * subst j. rewrite list_lookup_insert_eq by (eapply lookup_lt_Some; eauto).
        rewrite Hi. simpl. lia.
      * rewrite list_lookup_insert_ne by congruence. lia.
  - split; [split; assumption|]. split; [reflexivity|].
    intros j. unfold rank_at. simpl. case_decide; [subst; rewrite Hi; simpl|]; lia.
Qed.

Lemma run_spec schedule s :
  system_ok s →
  system_ok (run schedule s) ∧ c_key <$> (run schedule s).1 = c_key <$> s.1 ∧
  ∀ j, rank_at (run schedule s) j ≤ rank_at s j - length (filter (λ i, i = j) schedule).
Proof.
  revert s. induction schedule as [|i schedule IH]; intros s Hs.
  - simpl. split; [assumption|]. split; [reflexivity|]. intros j. simpl. lia.
  - destruct (step_spec i s Hs) as (Hs' & Hk' & Hr').
    destruct (IH (step i s) Hs') as (Hs'' & Hk'' & Hr'').
    change (run (i :: schedule) s) with (run schedule (step i s)).
    split; [assumption|]. split; [congruence|].
    intros j. specialize (Hr' j). specialize (Hr'' j).
    rewrite filter_cons. case_decide as Hj; destruct (decide (i = j)); try congruence; simpl; lia.
Qed.

(** The constraint holds of every table that callers of [get_or_create],
    with whatever keys, leave behind, in every interleaving. *)
Lemma run_unique_together schedule callers rows :
  unique_together rows → Forall (caller_ok rows) callers →
  unique_together (run schedule (callers, rows)).2.
Proof. intros Hu Hc. apply (run_spec schedule (callers, rows)). split; assumption. Qed.

(** C3: callers of [get_or_create] for one triple, interleaved in any
    way, leave exactly one row for that triple in the table, and every
    caller returns that row. *)
Theorem get_or_create_concurrent k callers rows schedule :
  unique_together rows →
  callers ≠ [] →
  Forall (λ w, c_key w = k ∧ c_pc w = AtGet) callers →
  fair (length callers) schedule →
  unique_together (run schedule (callers, rows)).2 ∧
  ∃ c, matching k (run schedule (callers, rows)).2 = [c] ∧
       Forall (λ w, returned_row w = Some c) (run schedule (callers, rows)).1.
Proof.
  intros Hu Hne Hws Hfair.
  assert (Hok : system_ok (callers, rows)).
  { split; [assumption|]. simpl. eapply Forall_impl; [exact Hws|].
    intros w [_ Hpc]. unfold caller_ok. rewrite Hpc. exact I. }
  destruct (run_spec schedule _ Hok) as ([Hu' Hws'] & Hkeys & Hrank).
  destruct (run schedule (callers, rows)) as [ws' rows'] eqn:Hrun. simpl in *.
  split; [assumption|].
  assert (Hlen : length ws' = length callers).
  { rewrite <- (length_fmap c_key ws'), Hkeys, length_fmap. reflexivity. }
  assert (Hall : Forall (λ w, ∃ c b, c_pc w = Returned c b ∧ c ∈ rows' ∧ triple c = k) ws').
  { apply Forall_lookup. intros i w Hi.
    assert (Hlt : i < length callers) by (rewrite <- Hlen; eapply lookup_lt_Some; eauto).
    specialize (Hrank i). specialize (Hfair i Hlt).
    unfold rank_at in Hrank. simpl in Hrank. rewrite Hi in Hrank. simpl in Hrank.
    destruct (lookup_lt_is_Some_2 callers i Hlt) as [w0 Hw0].
    rewrite Hw0 in Hrank. simpl in Hrank.
    assert (Hk : c_key w = k).
    { assert (Hkw : (c_key <$> ws') !! i = (c_key <$> callers) !! i) by (rewrite Hkeys; reflexivity).
      rewrite !list_lookup_fmap, Hi, Hw0 in Hkw. simpl in Hkw.
      injection Hkw as ->. exact (proj1 (proj1 (Forall_lookup _ _) Hws i w0 Hw0)). }
    pose proof (proj1 (Forall_lookup _ _) Hws' i w Hi) as Hcw. unfold caller_ok in Hcw.
    pose proof (proj2 (proj1 (Forall_lookup _ _) Hws i w0 Hw0)) as Hpc0.
    rewrite Hpc0 in Hrank. simpl in Hrank.
    destruct (c_pc w) as [ | | | c b | e]; simpl in Hrank; try lia; try contradiction.
    exists c, b. destruct Hcw. split; [reflexivity|]. split; [assumption | congruence]. }
  destruct ws' as [|w1 ws1]; [destruct callers; [contradiction | discriminate]|].
  pose proof (Forall_inv Hall) as (c1 & b1 & Hpc1 & Hin1 & Hk1).
  assert (Hkin : k ∈ (triple <$> rows')).
  { rewrite <- Hk1. apply list_elem_of_fmap_2. assumption. }
  destruct (matching_present k rows' Hu' Hkin) as (c & Hm & Hc & Hk).
  exists c. split; [assumption|].
  eapply Forall_impl; [exact Hall|]. intros w (c' & b' & Hpc' & Hin' & Hk').
  unfold returned_row. rewrite Hpc'. f_equal.
  apply (triple_inj rows'); try assumption. congruence.
Qed.

Lemma overtaking_fair : fair 3 overtaking.
Proof.
  intros i Hi. destruct i as [|[|[|i]]]; [vm_compute; lia .. | lia].
Qed.

(** Three callers that all find the table empty at their first lookup:
    one insert succeeds, two hit the constraint and read the row. *)
Lemma first_contact_one_row :
  unique_together (run overtaking ([first_contact; first_contact; first_contact], [])).2 ∧
  ∃ c, matching acme_triple (run overtaking ([first_contact; first_contact; first_contact], [])).2
         = [c] ∧
       Forall (λ w, returned_row w = Some c)
         (run overtaking ([first_contact; first_contact; first_contact], [])).1.
Proof.
  refine (get_or_create_concurrent acme_triple [first_contact; first_contact; first_contact]
            [] overtaking _ _ _ overtaking_fair).
  - apply NoDup_nil_2.
  - discriminate.
  - repeat constructor.
Defined.

Example first_contact_created_once :
  (λ w, match c_pc w with Returned _ b => Some b | _ => None end)
    <$> (run overtaking ([first_contact; first_contact; first_contact], [])).1
  = [Some false; Some true; Some false].
Proof. reflexivity. Qed.

End StoreFacts.

(** ** The WhatsApp webhook of the messaging app *)

Module MessagingFacts.
Import Py Store Messaging Payload.

(** [get_or_create] alone: it returns a row of the table with the triple
    asked for, keeps the constraint, and inserts only when the triple is
    new. *)
Lemma get_or_create_spec k d rows :
  unique_together rows →
  ∃ c b rows', get_or_create k d rows = (Ok (c, b), rows') ∧
    unique_together rows' ∧ c ∈ rows' ∧ triple c = k ∧
    (rows' = rows ∨ ((k ∉ (triple <$> rows)) ∧ rows' = rows ++ [c])).
Proof.
  intros Hu. unfold get_or_create.
  destruct (decide (k ∈ (triple <$> rows))) as [Hin|Hout].
  - destruct (StoreFacts.Conversation_get_present k rows Hu Hin) as (c & -> & Hc & Hk).
    exists c, false, rows. repeat split; auto.
  - rewrite (StoreFacts.Conversation_get_absent k rows Hout). simpl.
    pose proof (StoreFacts.Conversation_create_spec k d rows Hu) as Hc.
    destruct (Conversation_create k d rows) as [[c|e] rows']; destruct Hc as [Hu' Hc].
    + destruct Hc as (_ & -> & Hk). exists c, true, (rows ++ [c]).
      split; [reflexivity|]. split; [assumption|]. split; [|auto].
      rewrite elem_of_app, list_elem_of_singleton. auto.
    + destruct Hc as (_ & _ & Hin). contradiction.
Qed.

(** A second [get_or_create] for the same triple inserts nothing. *)
Lemma get_or_create_again k d rows :
  unique_together rows → k ∈ (triple <$> rows) →
  ∃ c, get_or_create k d rows = (Ok (c, false), rows) ∧ c ∈ rows ∧ triple c = k.
Proof.
  intros Hu Hin. unfold get_or_create.
  destruct (StoreFacts.Conversation_get_present k rows Hu Hin) as (c & -> & Hc & Hk). eauto.
Qed.

(** One caller that runs its statements with no other in between does
    what [get_or_create] does. *)
Lemma run_alone k d rows :
  unique_together rows →
  ∃ c b rows', get_or_create k d rows = (Ok (c, b), rows') ∧
    run [0; 0; 0] ([{| c_key := k; c_defaults := d; c_pc := AtGet |}], rows)
      = ([{| c_key := k; c_defaults := d; c_pc := Returned c b |}], rows').
Proof.
  intros Hu. unfold get_or_create, run, step, caller_step. simpl.
  destruct (decide (k ∈ (triple <$> rows))) as [Hin|Hout].
  - destruct (StoreFacts.Conversation_get_present k rows Hu Hin) as (c & -> & Hc & Hk).
    exists c, false, rows. simpl. auto.
  - rewrite (StoreFacts.Conversation_get_absent k rows Hout). simpl.
    pose proof (StoreFacts.Conversation_create_spec k d rows Hu) as Hc.
    destruct (Conversation_create k d rows) as [[c|e] rows']; destruct Hc as [Hu' Hc].
    + exists c, true, rows'. simpl. auto.
    + destruct Hc as (_ & _ & Hin). contradiction.
Qed.

(** The stored timestamp of a message that was recorded: what [int]
    makes of the timestamp of the platform, and the epoch when there is
    none; the time of arrival goes to [created_at]. *)
Lemma _process_incoming_message_row message_data company now t t' :
  _process_incoming_message message_data company now t = (Ok (), t') →
  ∃ row, messages t' = messages t ++ [row] ∧
         message_metadata row = metadata_of message_data ∧
         created_at row = now ∧
         ∃ seconds, py_int (default (JInt 0) (platform_timestamp message_data)) = Ok seconds ∧
                    Store.timestamp row = inject_Z seconds.
Proof.
  unfold _process_incoming_message.
  destruct message_data as [ | | | | |d]; try discriminate.
  unfold mbind at 1, db_bind at 1, lift at 1. cbn [get].
  unfold mbind at 1, db_bind at 1, lift at 1.
  unfold mbind at 1, db_bind at 1, lift at 1. cbn [get mbind result_bind].
  destruct (py_int _) as [seconds|e] eqn:Hint; [|discriminate].
  unfold mbind at 1, db_bind at 1, lift at 1.
  destruct (fromtimestamp (inject_Z seconds)) as [stamp|e] eqn:Hts; [|discriminate].
  unfold mbind at 1, db_bind at 1.
  destruct (Conversation_objects_get_or_create _ _ _ _ t) as [[[c b]|e] t1] eqn:Hgoc; [|discriminate].
  unfold mbind at 1, db_bind at 1, lift at 1.
  destruct (extract_content _) as [[[ty body] atts]|e]; [|discriminate].
  unfold Message_objects_create. cbn [Store.content].
  assert (Hm : messages t1 = messages t).
  { unfold Conversation_objects_get_or_create in Hgoc.
    destruct (char_field _); [|congruence].
    destruct (get_or_create _ _ _) as [r rows']. injection Hgoc as _ <-. reflexivity. }
  assert (Hstamp : stamp = inject_Z seconds).
  { unfold fromtimestamp in Hts. destruct (_ && _); congruence. }
  destruct body; try discriminate; intros [= <-]; eexists; rewrite Hm;
    (split; [reflexivity|]); (split; [reflexivity|]); (split; [reflexivity|]);
    exists seconds; (split; [first [exact Hint | reflexivity] | exact Hstamp]).
Qed.

(** *** Code that records messages *)

Lemma records_ret : records (mret ()) [].
Proof.
  intros t Hu. exists t, []. split; [reflexivity|]. split; [assumption|].
  split; [reflexivity|]. split; [by rewrite app_nil_r | reflexivity].
Qed.

Lemma records_then code1 code2 ms1 ms2 :
  records code1 ms1 → records code2 ms2 →
  records (_ ← code1; code2) (ms1 ++ ms2).
Proof.
  intros H1 H2 t Hu.
  destruct (H1 t Hu) as (t1 & rows1 & E1 & Hu1 & Hc1 & Hm1 & Hd1).
  destruct (H2 t1 Hu1) as (t2 & rows2 & E2 & Hu2 & Hc2 & Hm2 & Hd2).
  exists t2, (rows1 ++ rows2). unfold mbind, db_bind. rewrite E1, E2.
  split; [reflexivity|]. split; [assumption|]. split; [congruence|].
  split; [rewrite Hm2, Hm1, app_assoc; reflexivity|].
  rewrite !fmap_app. congruence.
Qed.

Lemma records_for_each {A} (xs : list A) (body : A → Db ()) (f : A → list json) :
  Forall (λ x, records (body x) (f x)) xs → records (for_each xs body) (xs ≫= f).
Proof.
  induction 1 as [|x xs Hx _ IH]; simpl.
  - apply records_ret.
  - apply records_then; assumption.
Qed.

(** A valid message is recorded, whatever the store holds. *)
Lemma records_message message_data company now :
  valid_message message_data →
  records (_process_incoming_message message_data company now) [message_data].
Proof.
  intros Hv t Hu. destruct message_data as [ | | | | |d]; try contradiction.
  destruct Hv as (Hfrom & Hstamp & ty & body & atts & Hcontent & Hbody).
  unfold _process_incoming_message.
  unfold mbind at 1, db_bind at 1, lift at 1. cbn [get].
  unfold mbind at 1, db_bind at 1, lift at 1.
  unfold mbind at 1, db_bind at 1, lift at 1. cbn [get mbind result_bind].
  destruct (py_int _) as [seconds|e]; [|discriminate].
  unfold mbind at 1, db_bind at 1, lift at 1. cbn [mbind result_bind] in Hstamp.
  destruct (fromtimestamp (inject_Z seconds)) as [stamp|e]; [|discriminate].
  unfold mbind at 1, db_bind at 1. unfold Conversation_objects_get_or_create at 1.
  destruct (char_field _) as [ext|e]; [|discriminate].
  destruct (get_or_create_spec (company, ext, "whatsapp")
              {| d_participants := JList [JDict [("phone", default JNone (assoc "from" d))]];
                 d_status := "active" |} (conversations t) Hu)
    as (c & b & rows' & -> & Hu' & _).
  unfold mbind at 1, db_bind at 1, lift at 1. rewrite Hcontent.
  unfold Message_objects_create. cbn [Store.content].
  destruct body; try contradiction; eexists; eexists;
    (split; [reflexivity|]); (split; [exact Hu'|]); (split; [reflexivity|]);
    (split; reflexivity).
Qed.

Lemma bind_singleton {A} (xs : list A) : xs ≫= (λ x, [x]) = xs.
Proof. induction xs as [|x xs IH]; [reflexivity | simpl; f_equal; exact IH]. Qed.

Lemma records_messages ms company now :
  Forall valid_message ms →
  records (for_each ms (λ message_data, _process_incoming_message message_data company now)) ms.
Proof.
  intros Hv. rewrite <- (bind_singleton ms) at 2. apply records_for_each.
  eapply Forall_impl; [exact Hv|]. intros md. apply records_message.
Qed.

(** The three loops of [process_webhook], from the inside. *)
Lemma records_change change company now :
  change_shaped change → Forall valid_message (value_messages change) →
  records (value ← lift (get change "value" (JDict []));
           messages ← lift (get value "messages" (JList []) ≫= iter);
           for_each messages (λ message_data, _process_incoming_message message_data company now))
          (value_messages change).
Proof.
  intros Hs Hv. destruct change as [ | | | | |c]; try contradiction.
  unfold change_shaped in Hs. unfold value_messages in *.
  destruct (assoc "value" c) as [value|] eqn:Hvalue.
  - destruct value as [ | | | | |v]; try contradiction.
    destruct (assoc "messages" v) as [ms|] eqn:Hms.
    + destruct ms as [ | | | |ms| ]; try contradiction.
      intros t Hu. unfold mbind at 1, db_bind at 1, lift at 1. cbn [get]. rewrite Hvalue.
      unfold mbind at 1, db_bind at 1, lift at 1. cbn [get from_option id]. rewrite Hms.
      apply (records_messages ms company now Hv t Hu).
    + intros t Hu. unfold mbind at 1, db_bind at 1, lift at 1. cbn [get]. rewrite Hvalue.
      unfold mbind at 1, db_bind at 1, lift at 1. cbn [get from_option id]. rewrite Hms.
      apply (records_ret t Hu).
  - intros t Hu. unfold mbind at 1, db_bind at 1, lift at 1. cbn [get]. rewrite Hvalue.
    apply (records_ret t Hu).
Qed.

Lemma records_entry entry company now :
  entry_shaped entry → Forall valid_message (entry_messages entry) →
  records (changes ← lift (get entry "changes" (JList []) ≫= iter);
           for_each changes (λ change,
             value ← lift (get change "value" (JDict []));
             messages ← lift (get value "messages" (JList []) ≫= iter);
             for_each messages (λ message_data,
               _process_incoming_message message_data company now)))
          (entry_messages entry).
Proof.
  intros Hs Hv. destruct entry as [ | | | | |e]; try contradiction.
  unfold entry_shaped in Hs. unfold entry_messages in *.
  destruct (assoc "changes" e) as [changes|] eqn:Hchanges.
  - destruct changes as [ | | | |changes| ]; try contradiction.
    intros t Hu. unfold mbind at 1, db_bind at 1, lift at 1. cbn [get]. rewrite Hchanges.
    revert t Hu. apply records_for_each.
    apply Forall_bind in Hv. apply Forall_forall. intros change Hin.
    apply records_change.
    + exact (proj1 (Forall_forall _ _) Hs change Hin).
    + exact (proj1 (Forall_forall _ _) Hv change Hin).
  - intros t Hu. unfold mbind at 1, db_bind at 1, lift at 1. cbn [get]. rewrite Hchanges.
    apply (records_ret t Hu).
Qed.

(** A valid payload is recorded message by message. *)
Lemma records_payload webhook_data company now t :
  valid_payload webhook_data → company ∈ companies t →
  unique_together (conversations t) →
  ∃ t' rows, process_webhook webhook_data company now t = (Processed, t') ∧
    unique_together (conversations t') ∧ companies t' = companies t ∧
    messages t' = messages t ++ rows ∧
    message_metadata <$> rows = metadata_of <$> payload_messages webhook_data.
Proof.
  intros [Hs Hv] Hc Hu. destruct webhook_data as [ | | | | |d]; try contradiction.
  unfold whatsapp_shaped in Hs. unfold payload_messages, payload_entries in *.
  destruct (assoc "entry" d) as [entries|] eqn:Hentry; [|contradiction].
  destruct entries as [ | | | |entries| ]; try contradiction.
  destruct entries as [|e entries]; [contradiction|].
  assert (Hrec : records (for_each (e :: entries) (λ entry,
             changes ← lift (get entry "changes" (JList []) ≫= iter);
             for_each changes (λ change,
               value ← lift (get change "value" (JDict []));
               messages ← lift (get value "messages" (JList []) ≫= iter);
               for_each messages (λ message_data,
                 _process_incoming_message message_data company now))))
           ((e :: entries) ≫= entry_messages)).
  { apply records_for_each. apply Forall_bind in Hv. apply Forall_forall. intros entry Hin.
    apply records_entry.
    - exact (proj1 (Forall_forall _ _) Hs entry Hin).
    - exact (proj1 (Forall_forall _ _) Hv entry Hin). }
  destruct (Hrec t Hu) as (t' & rows & E & Hu' & Hc' & Hm & Hd).
  exists t', rows. unfold process_webhook, process_entries.
  unfold mbind at 1, db_bind at 1, lift at 1. cbn [get]. rewrite Hentry.
  cbn [from_option id truthy negb].
  unfold mbind at 1, db_bind at 1, Company_objects_get at 1.
  rewrite bool_decide_eq_true_2 by assumption.
  unfold mbind at 1, db_bind at 1, lift at 1. cbn [get]. rewrite ?Hentry.
  cbn [from_option id mbind result_bind iter]. rewrite E. auto.
Qed.

End MessagingFacts.

(** ** The WhatsApp parser of a bridge *)

Module BridgeWhatsAppFacts.
Import Py Lib Payload BridgeWhatsApp.

Section WithLibs.
Context `{L : Libs}.

(** An event, when there is one, is the event of the message at hand. *)
Lemma message_event_raw value message r :
  message_event value message = Ok r → ∃ ev, r = Some ev ∧ raw_message ev = message.
Proof.
  unfold message_event. intros H.
  repeat match type of H with
         | (mbind _ ?m) = Ok _ => destruct m eqn:?; cbn [mbind result_bind] in H; [|discriminate H]
         end.
  injection H as <-. eexists. split; reflexivity.
Qed.

Lemma for_return_changes changes ev :
  Forall change_shaped changes →
  for_return changes (λ change,
      value ← get change "value" (JDict []);
      messages ← get value "messages" (JList []) ≫= Messaging.iter;
      for_return messages (message_event value)) = Ok (Some ev) →
  ∃ m ms, changes ≫= value_messages = m :: ms ∧ raw_message ev = m.
Proof.
  induction 1 as [|change changes Hs _ IH]; [discriminate|].
  cbn [for_return]. rewrite bind_cons.
  destruct change as [ | | | | |c]; try contradiction.
  unfold change_shaped in Hs. cbn [get mbind result_bind].
  unfold value_messages at 1.
  destruct (assoc "value" c) as [value|]; cbn [from_option id].
  - destruct value as [ | | | | |v]; try contradiction. cbn [get mbind result_bind].
    destruct (assoc "messages" v) as [ms|]; cbn [from_option id Messaging.iter mbind result_bind].
    + destruct ms as [ | | | |ms| ]; try contradiction.
      cbn [Messaging.iter mbind result_bind]. destruct ms as [|m ms].
      * cbn [for_return mbind result_bind app]. exact IH.
      * cbn [for_return mbind result_bind].
        destruct (message_event (JDict v) m) as [r|e] eqn:Hev; [|discriminate].
        destruct (message_event_raw _ _ _ Hev) as (ev' & -> & Hraw).
        cbn [mbind result_bind]. intros [= <-]. exists m, (ms ++ (changes ≫= value_messages)).
        split; [reflexivity | assumption].
    + cbn [for_return mbind result_bind app]. exact IH.
  - cbn [get from_option id Messaging.iter mbind result_bind for_return app]. exact IH.
Qed.

(** On a payload of the shape WhatsApp sends, the parser returns at most
    one event, and it is the event of the first message of the first
    entry. *)
Lemma process_incoming_message_first webhook_data ev :
  whatsapp_shaped webhook_data →
  process_incoming_message webhook_data = Some ev →
  ∃ e entries m ms, payload_entries webhook_data = e :: entries ∧
                    entry_messages e = m :: ms ∧ raw_message ev = m.
Proof.
  intros Hs. destruct webhook_data as [ | | | | |d]; try contradiction.
  unfold whatsapp_shaped in Hs. unfold process_incoming_message, payload_entries.
  cbn [get mbind result_bind].
  destruct (assoc "entry" d) as [entries|]; [|contradiction].
  destruct entries as [ | | | |entries| ]; try contradiction.
  destruct entries as [|e entries]; [contradiction|].
  cbn [from_option id first mbind result_bind].
  apply Forall_inv in Hs. destruct e as [ | | | | |ed]; try contradiction.
  unfold entry_shaped in Hs. unfold entry_messages. cbn [get mbind result_bind].
  destruct (assoc "changes" ed) as [changes|] eqn:Hch.
  - destruct changes as [ | | | |changes| ]; try contradiction.
    cbn [from_option id Messaging.iter mbind result_bind].
    match goal with |- match ?x with _ => _ end = _ → _ => destruct x as [r|] eqn:Hfor end;
      [|discriminate].
    intros ->. destruct (for_return_changes changes ev Hs Hfor) as (m & ms & Hm & Hraw).
    exists (JDict ed), entries, m, ms.
    split; [reflexivity|]. split; [|exact Hraw].
    unfold entry_messages. rewrite Hch. exact Hm.
  - cbn. discriminate.
Qed.

Lemma events_at_most_one webhook_data : length (events webhook_data) ≤ 1.
Proof. unfold events. destruct (process_incoming_message _); simpl; lia. Qed.

End WithLibs.

End BridgeWhatsAppFacts.

(** ** What a webhook leaves in the store *)

Module WebhookFacts.
Import Py Lib Store Messaging Payload BridgeWhatsApp.

(** C4, as the code has it: the webhook of the messaging app records
    every message of a valid payload, one row for each and in the order
    of the payload; the parser of a bridge returns at most one event, the
    event of the first message of the first entry. *)
Theorem whatsapp_messages_in_order `{L : Libs} webhook_data company now t :
  valid_payload webhook_data → company ∈ companies t →
  unique_together (conversations t) →
  (∃ t' rows, process_webhook webhook_data company now t = (Processed, t') ∧
     messages t' = messages t ++ rows ∧
     length rows = length (payload_messages webhook_data) ∧
     message_metadata <$> rows = metadata_of <$> payload_messages webhook_data) ∧
  (length (events webhook_data) ≤ 1)%nat ∧
  (∀ ev, process_incoming_message webhook_data = Some ev →
     ∃ e entries m ms, payload_entries webhook_data = e :: entries ∧
                       entry_messages e = m :: ms ∧ raw_message ev = m).
Proof.
  intros Hv Hc Hu. split; [|split].
  - destruct (MessagingFacts.records_payload webhook_data company now t Hv Hc Hu)
      as (t' & rows & E & _ & _ & Hm & Hd).
    exists t', rows. split; [assumption|]. split; [assumption|]. split; [|assumption].
    rewrite <- (length_fmap message_metadata rows), Hd, length_fmap. reflexivity.
  - apply BridgeWhatsAppFacts.events_at_most_one.
  - intros ev. apply BridgeWhatsAppFacts.process_incoming_message_first. apply Hv.
Qed.

(** C5, as the code has it: nothing marks a payload as processed, and a
    replay appends the messages of a valid payload once more. *)
Theorem replay_appends_again webhook_data company now later t :
  valid_payload webhook_data → company ∈ companies t →
  unique_together (conversations t) →
  let once := (process_webhook webhook_data company now t).2 in
  let twice := (process_webhook webhook_data company later once).2 in
  length (messages once) = (length (messages t) + length (payload_messages webhook_data))%nat ∧
  length (messages twice) = (length (messages once) + length (payload_messages webhook_data))%nat ∧
  unique_together (conversations twice).
Proof.
  intros Hv Hc Hu.
  destruct (MessagingFacts.records_payload webhook_data company now t Hv Hc Hu)
    as (t1 & rows1 & E1 & Hu1 & Hc1 & Hm1 & Hd1).
  assert (Hc' : company ∈ companies t1) by (rewrite Hc1; assumption).
  destruct (MessagingFacts.records_payload webhook_data company later t1 Hv Hc' Hu1)
    as (t2 & rows2 & E2 & Hu2 & Hc2 & Hm2 & Hd2).
  cbv zeta. rewrite E1. simpl. rewrite E2. simpl.
  assert (Hl1 : length rows1 = length (payload_messages webhook_data)).
  { rewrite <- (length_fmap message_metadata rows1), Hd1, length_fmap. reflexivity. }
  assert (Hl2 : length rows2 = length (payload_messages webhook_data)).
  { rewrite <- (length_fmap message_metadata rows2), Hd2, length_fmap. reflexivity. }
  rewrite Hm2, Hm1, !length_app, Hl1, Hl2. auto.
Qed.

(** C9, as the code has it: the row of a recorded message keeps the
    timestamp of the platform as [int] reads it, with no test of its
    plausibility, and the epoch when the platform gave none; the time of
    arrival goes to [created_at]. *)
Theorem stored_timestamp message_data company now t t' :
  _process_incoming_message message_data company now t = (Ok (), t') →
  ∃ row, messages t' = messages t ++ [row] ∧ created_at row = now ∧
         match platform_timestamp message_data with
         | Some ts => ∃ seconds, py_int ts = Ok seconds ∧ Store.timestamp row = inject_Z seconds
         | None => Store.timestamp row = inject_Z 0
         end.
Proof.
  intros H.
  destruct (MessagingFacts._process_incoming_message_row _ _ _ _ _ H)
    as (row & Hm & _ & Hc & seconds & Hi & Ht).
  exists row. split; [assumption|]. split; [assumption|].
  destruct (platform_timestamp message_data); simpl in Hi.
  - exists seconds. split; assumption.
  - injection Hi as <-. exact Ht.
Qed.

(** *** Concrete deliveries *)

Lemma valid_text_message mid sender ts body seconds :
  py_int (JStr ts) = Ok seconds →
  (datetime_min <= seconds <= datetime_max)%Z →
  valid_message (text_message mid sender ts body).
Proof.
  intros Hi Hr. split; [reflexivity|]. split.
  - cbn [assoc String.eqb Ascii.eqb Bool.eqb from_option id]. rewrite Hi. cbn [mbind result_bind].
    unfold fromtimestamp, Qle_bool. cbn [Qnum Qden inject_Z]. rewrite !Z.mul_1_r.
    destruct (Z.leb_spec datetime_min seconds), (Z.leb_spec seconds datetime_max); try lia.
    reflexivity.
  - exists "text", (JStr body), []. split; [reflexivity | discriminate].
Qed.

Lemma valid_two_messages : valid_payload two_messages.
Proof.
  split.
  - simpl. repeat constructor.
  - repeat constructor.
    + apply (valid_text_message _ _ _ _ 1678901234%Z); [reflexivity | unfold datetime_min, datetime_max; lia].
    + apply (valid_text_message _ _ _ _ 1678901235%Z); [reflexivity | unfold datetime_min, datetime_max; lia].
Qed.

Lemma valid_one_message : valid_payload one_message.
Proof.
  split.
  - simpl. repeat constructor.
  - repeat constructor.
    apply (valid_text_message _ _ _ _ 1678901234%Z); [reflexivity | unfold datetime_min, datetime_max; lia].
Qed.

Lemma company_1_exists : 1%nat ∈ companies empty_tables.
Proof. left. Qed.

Lemma empty_tables_unique : unique_together (conversations empty_tables).
Proof. apply NoDup_nil_2. Qed.

(** Two messages in one delivery: the parser of a bridge returns one event. *)
Lemma two_messages_one_event :
  ¬ parses_every_message (L := RefLibs.ref_libs true None) two_messages.
Proof. unfold parses_every_message. vm_compute. discriminate. Qed.

Lemma two_messages_in_order :
  (∃ t' rows, process_webhook two_messages 1 1700000000 empty_tables = (Processed, t') ∧
     messages t' = messages empty_tables ++ rows ∧
     length rows = length (payload_messages two_messages) ∧
     message_metadata <$> rows = metadata_of <$> payload_messages two_messages) ∧
  (length (events (L := RefLibs.ref_libs true None) two_messages) ≤ 1)%nat ∧
  (∀ ev, process_incoming_message (L := RefLibs.ref_libs true None) two_messages = Some ev →
     ∃ e entries m ms, payload_entries two_messages = e :: entries ∧
                       entry_messages e = m :: ms ∧ raw_message ev = m).
Proof.
  exact (whatsapp_messages_in_order (L := RefLibs.ref_libs true None)
           two_messages 1 1700000000 empty_tables
           valid_two_messages company_1_exists empty_tables_unique).
Defined.

(** One message, delivered twice: two rows where one delivery leaves one. *)
Lemma one_message_replayed :
  ¬ replay_is_idempotent one_message 1 1700000000 empty_tables.
Proof. unfold replay_is_idempotent. vm_compute. discriminate. Qed.

Lemma one_message_appended_again :
  let once := (process_webhook one_message 1 1700000000 empty_tables).2 in
  let twice := (process_webhook one_message 1 1700000060 once).2 in
  length (messages once) = (length (messages empty_tables) + length (payload_messages one_message))%nat ∧
  length (messages twice) = (length (messages once) + length (payload_messages one_message))%nat ∧
  unique_together (conversations twice).
Proof.
  exact (replay_appends_again one_message 1 1700000000 1700000060 empty_tables
           valid_one_message company_1_exists empty_tables_unique).
Defined.

(** A message without a timestamp, arriving in November 2023, is stored
    under 1 January 1970. *)
Lemma no_timestamp_stored_at_epoch :
  ¬ falls_back_to_arrival no_timestamp 1 1700000000 empty_tables.
Proof.
  intros H. specialize (H eq_refl _ eq_refl). vm_compute in H. discriminate H.
Qed.

Lemma no_timestamp_row :
  ∃ row, messages (_process_incoming_message no_timestamp 1 1700000000 empty_tables).2
           = messages empty_tables ++ [row] ∧
         created_at row = 1700000000%Z ∧ Store.timestamp row = inject_Z 0.
Proof.
  exact (stored_timestamp no_timestamp 1 1700000000 empty_tables
           (_process_incoming_message no_timestamp 1 1700000000 empty_tables).2 eq_refl).
Defined.

(** A timestamp before the epoch and one in the year 3000 are stored as
    they come. *)
Lemma implausible_timestamps_stored :
  Store.timestamp <$> messages (process_webhook
      (payload_of [text_message "a" "+1" "-86400" "old"; text_message "b" "+1" "32503680000" "new"])
      1 1700000000 empty_tables).2 = [inject_Z (-86400); inject_Z 32503680000].
Proof. reflexivity. Qed.

End WebhookFacts.

(** ** The routing engine *)

Module ManagerFacts.
Import Py Lib Manager.

Lemma quiet_refl w : quiet w w.
Proof. repeat split. Qed.

Lemma quiet_trans w1 w2 w3 : quiet w1 w2 → quiet w2 w3 → quiet w1 w3.
Proof.
  intros (?&?&?&?&?&?) (?&?&?&?&?&?). repeat split; congruence.
Qed.

Lemma quiet_frame w w' : quiet w w' → frame w w'.
Proof. intros (?&?&?&?&?&?). repeat split; assumption. Qed.

Lemma frame_refl w : frame w w.
Proof. repeat split. Qed.

Lemma frame_trans w1 w2 w3 : frame w1 w2 → frame w2 w3 → frame w1 w3.
Proof. intros (?&?&?&?) (?&?&?&?). repeat split; congruence. Qed.

(** *** Code that keeps a preorder on worlds *)

Section Keeps.
Variable R : World → World → Prop.
Hypothesis R_refl : ∀ w, R w w.
Hypothesis R_trans : ∀ w1 w2 w3, R w1 w2 → R w2 w3 → R w1 w3.

Lemma keeps_ret {A} (a : A) : keeps R (mret a).
Proof. intros w. apply R_refl. Qed.

Lemma keeps_call {A} (f : World → result A) : keeps R (call f).
Proof. intros w. apply R_refl. Qed.

Lemma keeps_bind {A B} (m : Mgr A) (k : A → Mgr B) :
  keeps R m → (∀ a, keeps R (k a)) → keeps R (m ≫= k).
Proof.
  intros Hm Hk w. unfold mbind, mgr_bind. specialize (Hm w).
  destruct (m w) as [[a|e] w1]; [|exact Hm].
  eapply R_trans; [exact Hm | apply Hk].
Qed.

Lemma keeps_try_catch {A} (code : Mgr A) (handler : exn → Mgr A) :
  keeps R code → (∀ e, keeps R (handler e)) → keeps R (try_catch code handler).
Proof.
  intros Hc Hh w. unfold try_catch. specialize (Hc w).
  destruct (code w) as [[a|e] w1]; [exact Hc|].
  eapply R_trans; [exact Hc | apply Hh].
Qed.

Lemma keeps_try_except {A} (code : Mgr A) (handler : exn → World → A * World) :
  keeps R code → (∀ e w, R w (handler e w).2) → ∀ w, R w (try_except code handler w).2.
Proof.
  intros Hc Hh w. unfold try_except. specialize (Hc w).
  destruct (code w) as [[a|e] w1]; [exact Hc|].
  eapply R_trans; [exact Hc | apply Hh].
Qed.

Lemma keeps_total {A} (f : World → A * World) : (∀ w, R w (f w).2) → keeps R (total f).
Proof. intros Hf w. unfold total. specialize (Hf w). destruct (f w). exact Hf. Qed.

Context `{C : Collab}.

Lemma keeps_query {A} (f : World → A) : keeps R (query f).
Proof. intros w. unfold query. destruct orm; apply R_refl. Qed.

Lemma keeps_save b s : (∀ w, R w (save_status b s w).2) → keeps R (save b s).
Proof. intros Hs w. unfold save. destruct orm; [apply Hs | apply R_refl]. Qed.

End Keeps.

Section WithCollab.
Context `{L : Libs} `{C : Collab}.

Lemma query_ok {A} (f : World → A) w : orm = Ok () → query f w = (Ok (f w), w).
Proof. intros H. unfold query. rewrite H. reflexivity. Qed.

Lemma query_raise {A} (f : World → A) w e : orm = Raise e → query f w = (Raise e, w).
Proof. intros H. unfold query. rewrite H. reflexivity. Qed.

Lemma orm_cases : orm = Ok () ∨ ∃ e, orm = Raise e.
Proof. destruct orm as [[]|e]; eauto. Qed.

(** Initialising a bridge writes the status of the bridge and the
    registry of services, and nothing else. *)
Lemma initialize_bridge_quiet bridge_connection : keeps quiet (initialize_bridge bridge_connection).
Proof.
  assert (Hsave : ∀ s, keeps quiet (save bridge_connection s)).
  { intros s. apply keeps_save; [apply quiet_refl|]. intros w. repeat split. }
  unfold initialize_bridge.
  apply (keeps_try_catch quiet quiet_trans).
  - unfold initialize_bridge_body.
    destruct (supported _); cbn [negb]; [|apply (keeps_ret quiet quiet_refl)].
    apply (keeps_bind quiet quiet_trans); [apply (keeps_query quiet quiet_refl)|].
    intros [credentials|]; [|apply (keeps_ret quiet quiet_refl)].
    apply (keeps_bind quiet quiet_trans); [apply (keeps_call quiet quiet_refl)|]. intros text.
    apply (keeps_bind quiet quiet_trans); [apply (keeps_call quiet quiet_refl)|].
    intros credentials_dict.
    apply (keeps_bind quiet quiet_trans); [apply (keeps_call quiet quiet_refl)|].
    intros platform_service.
    apply (keeps_bind quiet quiet_trans); [intros w; repeat split|]. intros _.
    apply (keeps_bind quiet quiet_trans); [apply (keeps_call quiet quiet_refl)|].
    intros [|].
    + apply (keeps_bind quiet quiet_trans); [apply Hsave|]. intros _.
      apply (keeps_bind quiet quiet_trans); [apply (keeps_call quiet quiet_refl)|]. intros _.
      apply (keeps_ret quiet quiet_refl).
    + apply (keeps_bind quiet quiet_trans); [apply Hsave|]. intros _.
      apply (keeps_ret quiet quiet_refl).
  - intros e. apply (keeps_bind quiet quiet_trans); [apply Hsave|]. intros _.
    apply (keeps_ret quiet quiet_refl).
Qed.

Lemma service_of_quiet bridge_connection : keeps quiet (service_of bridge_connection).
Proof.
  unfold service_of.
  apply (keeps_bind quiet quiet_trans); [apply (keeps_call quiet quiet_refl)|]. intros present.
  apply (keeps_bind quiet quiet_trans).
  - destruct present; [apply (keeps_ret quiet quiet_refl) | apply initialize_bridge_quiet].
  - intros [|]; [|apply (keeps_ret quiet quiet_refl)].
    apply (keeps_bind quiet quiet_trans); [apply (keeps_call quiet quiet_refl)|]. intros s.
    apply (keeps_ret quiet quiet_refl).
Qed.

(** C10: [send_message] returns a boolean in every case, and when that
    boolean is [False] the call has written no [BridgeMessage]; the row
    with status [sent] is there exactly when it returns [True]. *)
Theorem send_message_atomic bridge_connection external_id message w :
  ∃ b w', send_message bridge_connection external_id message w = (b, w') ∧
    if b then
      ∃ row, bridge_messages w' = bridge_messages w ++ [row] ∧
             bridge row = bridge_id bridge_connection ∧
             direction row = "outbound" ∧ message_status row = "sent"
    else bridge_messages w' = bridge_messages w.
Proof.
  unfold send_message, try_except, send_message_body.
  unfold mbind at 1, mgr_bind at 1.
  pose proof (service_of_quiet bridge_connection w) as Hq.
  destruct (service_of bridge_connection w) as [[[platform_service|]|e] w1]; simpl in Hq;
    destruct Hq as (Hm & _).
  - unfold mbind at 1, mgr_bind at 1, hand_over at 1.
    unfold mbind at 1, mgr_bind at 1, call at 1.
    destruct (service_send_message _ _ _ _ _) as [[|]|e].
    + unfold BridgeMessage_objects_create.
      unfold mbind at 1, mgr_bind at 1. unfold mbind at 1, mgr_bind at 1, call at 1.
      destruct (create_bridge_message _) as [[]|e].
      * eexists _, _. split; [reflexivity|]. cbn. rewrite Hm. eexists. repeat split.
      * eexists _, _. split; [reflexivity|]. exact Hm.
    + eexists _, _. split; [reflexivity|]. exact Hm.
    + eexists _, _. split; [reflexivity|]. exact Hm.
  - eexists _, _. split; [reflexivity|]. exact Hm.
  - eexists _, _. split; [reflexivity|]. exact Hm.
Qed.

(** Sending writes messages and the outbox; webhook events,
    conversations and configurations stay as they are. *)
Lemma send_message_frame bridge_connection external_id message w :
  frame w (send_message bridge_connection external_id message w).2.
Proof.
  unfold send_message.
  apply (keeps_try_except frame frame_trans); [|intros; apply frame_refl].
  unfold send_message_body.
  apply (keeps_bind frame frame_trans).
  { intros w0. apply quiet_frame, service_of_quiet. }
  intros [platform_service|]; [|apply (keeps_ret frame frame_refl)].
  apply (keeps_bind frame frame_trans); [intros w0; repeat split|]. intros _.
  apply (keeps_bind frame frame_trans); [apply (keeps_call frame frame_refl)|].
  intros [|]; [|apply (keeps_ret frame frame_refl)].
  apply (keeps_bind frame frame_trans); [|intros _; apply (keeps_ret frame frame_refl)].
  unfold BridgeMessage_objects_create.
  apply (keeps_bind frame frame_trans); [apply (keeps_call frame frame_refl)|]. intros _.
  apply (keeps_bind frame frame_trans); [intros w0; repeat split|]. intros _.
  apply (keeps_ret frame frame_refl).
Qed.

(** Handling a delivery reads and writes no webhook event. *)
Lemma _process_with_ai_frame bridge_connection message w :
  frame w (_process_with_ai bridge_connection message w).
Proof.
  unfold _process_with_ai.
  apply (keeps_try_except frame frame_trans); [|intros; apply frame_refl].
  unfold _process_with_ai_body.
  apply (keeps_bind frame frame_trans); [apply (keeps_query frame frame_refl)|].
  intros [config|]; [|apply (keeps_ret frame frame_refl)].
  apply (keeps_bind frame frame_trans); [apply (keeps_call frame frame_refl)|].
  intros [|]; cbn [negb]; [|apply (keeps_ret frame frame_refl)].
  apply (keeps_bind frame frame_trans); [apply (keeps_call frame frame_refl)|]. intros context.
  apply (keeps_bind frame frame_trans); [apply (keeps_call frame frame_refl)|].
  intros [response|]; [|apply (keeps_ret frame frame_refl)].
  destruct (truthy (response_content response)); [|apply (keeps_ret frame frame_refl)].
  apply (keeps_bind frame frame_trans); [|intros _; apply (keeps_ret frame frame_refl)].
  apply (keeps_total frame). intros w0. apply send_message_frame.
Qed.

Lemma _forward_to_matrix_frame bridge_connection message w :
  frame w (_forward_to_matrix bridge_connection message w).2.
Proof.
  unfold _forward_to_matrix.
  apply (keeps_try_except frame frame_trans); [|intros; apply frame_refl].
  apply (keeps_bind frame frame_trans); [apply (keeps_call frame frame_refl)|].
  intros [|]; cbn [negb]; [|apply (keeps_ret frame frame_refl)].
  apply (keeps_bind frame frame_trans); [apply (keeps_call frame frame_refl)|]. intros _.
  apply (keeps_bind frame frame_trans); [|intros _; apply (keeps_ret frame frame_refl)].
  apply (keeps_total frame). intros w0. apply _process_with_ai_frame.
Qed.

Lemma process_webhook_data_frame platform company_id webhook_data w :
  frame w (process_webhook_data platform company_id webhook_data w).2.
Proof.
  unfold process_webhook_data.
  apply (keeps_try_except frame frame_trans); [|intros; apply frame_refl].
  unfold process_webhook_data_body.
  destruct (supported platform); cbn [negb]; [|apply (keeps_ret frame frame_refl)].
  apply (keeps_bind frame frame_trans); [apply (keeps_query frame frame_refl)|].
  intros [bridge_connection|]; [|apply (keeps_ret frame frame_refl)].
  apply (keeps_bind frame frame_trans).
  { intros w0. apply quiet_frame, service_of_quiet. }
  intros [platform_service|]; [|apply (keeps_ret frame frame_refl)].
  apply (keeps_bind frame frame_trans); [apply (keeps_call frame frame_refl)|].
  intros parsed_data.
  destruct (truthy parsed_data); cbn [negb]; [|apply (keeps_ret frame frame_refl)].
  apply (keeps_bind frame frame_trans); [apply (keeps_query frame frame_refl)|].
  intros [bridge_connection'|]; [|apply (keeps_ret frame frame_refl)].
  apply (keeps_bind frame frame_trans); [apply (keeps_call frame frame_refl)|]. intros sender_id.
  apply (keeps_bind frame frame_trans); [apply (keeps_call frame frame_refl)|]. intros sender_name.
  apply (keeps_bind frame frame_trans); [apply (keeps_call frame frame_refl)|]. intros text.
  apply (keeps_bind frame frame_trans).
  { unfold BridgeMessage_objects_create.
    apply (keeps_bind frame frame_trans); [apply (keeps_call frame frame_refl)|]. intros _.
    apply (keeps_bind frame frame_trans); [intros w0; repeat split|]. intros _.
    apply (keeps_ret frame frame_refl). }
  intros message. apply (keeps_total frame). intros w0. apply _forward_to_matrix_frame.
Qed.

(** C7, as the code has it: without a bridge in [connected] for the
    tenant and the platform, a delivery is dropped: [False] is returned
    and the world is as before.  Sending, for its part, never looks at
    the status of the bridge. *)
Theorem inbound_needs_connected_bridge platform company_id webhook_data w
    bridge_connection status_ external_id message :
  connected_bridge company_id platform w = None →
  process_webhook_data platform company_id webhook_data w = (false, w) ∧
  send_message (with_status bridge_connection status_) external_id message w
    = send_message bridge_connection external_id message w.
Proof.
  intros Hnone. split.
  - unfold process_webhook_data, try_except, process_webhook_data_body.
    destruct (supported platform); cbn [negb]; [|reflexivity].
    unfold mbind at 1, mgr_bind at 1, query at 1.
    destruct orm; [rewrite Hnone|]; reflexivity.
  - destruct bridge_connection. reflexivity.
Qed.

Lemma save_ok b s w : orm = Ok () → save b s w = save_status b s w.
Proof. intros H. unfold save. rewrite H. reflexivity. Qed.

Lemma save_raise b s w e : orm = Raise e → save b s w = (Raise e, w).
Proof. intros H. unfold save. rewrite H. reflexivity. Qed.

(** Where the configuration has no [enabled] to read, handling a
    message with the assistant ends before the scorer is asked: the
    world is as it was. *)
Lemma enabled_missing bridge_connection message w :
  (∀ config, is_ok (config_enabled config) = false) →
  _process_with_ai bridge_connection message w = w.
Proof.
  intros Hno. unfold _process_with_ai, try_except, _process_with_ai_body.
  unfold mbind at 1, mgr_bind at 1, query at 1.
  destruct orm; [|reflexivity].
  destruct (head _) as [config|]; [|reflexivity].
  unfold mbind at 1, mgr_bind at 1, call at 1.
  specialize (Hno config). destruct (config_enabled config); [discriminate | reflexivity].
Qed.

End WithCollab.

(** *** The repository as it is *)

(** C2, on the code: for a tenant whose configuration has auto-respond
    on and the threshold 0.8, whatever the scorer would answer and
    whether or not the database can be reached, [_process_with_ai]
    sends nothing, flags nothing and leaves the world as it was: the
    query or the read of [config.enabled] raises before the scorer is
    asked. *)
Theorem auto_response_never_sent database scorer :
  _process_with_ai (L := RefLibs.ref_libs true None) (C := as_declared_with database scorer)
    (acme_bridge "connected") inbound_hello (acme "connected")
  = acme "connected".
Proof. apply enabled_missing. intros config. reflexivity. Qed.

(** With a scorer of confidence 0.5 the conversation is not flagged,
    and with one of confidence 0.95 no reply is handed to the
    platform. *)
Lemma gate_never_reached :
  ¬ suppressed_and_flagged (L := RefLibs.ref_libs true None)
      (C := as_declared_with (Ok ()) (scoring (5 # 10)))
      (acme_bridge "connected") inbound_hello (acme "connected") ∧
  outbox (_process_with_ai (L := RefLibs.ref_libs true None)
            (C := as_declared_with (Ok ()) (scoring (95 # 100)))
            (acme_bridge "connected") inbound_hello (acme "connected")) = [].
Proof.
  split.
  - intros (_ & c & Hc & Hf). unfold suppressed_and_flagged in *.
    rewrite enabled_missing in Hc by (intros config; reflexivity).
    apply list_elem_of_singleton in Hc. subst c.
    destruct Hf as [Hf|Hf]; vm_compute in Hf; discriminate Hf.
  - rewrite enabled_missing by (intros config; reflexivity). reflexivity.
Qed.

(** A bridge in [error]: the delivery leaves no row behind. *)
Lemma error_bridge_drops_inbound :
  ¬ recorded_despite_error (L := RefLibs.ref_libs true None) (C := as_declared)
      "whatsapp" 1 Payload.one_message (acme "error").
Proof.
  unfold recorded_despite_error. intros (row & Hrow & _).
  vm_compute in Hrow. inversion Hrow.
Qed.

(** The same where the database can be reached: the filter on
    [connected] finds no bridge. *)
Example error_bridge_not_found :
  process_webhook_data (L := RefLibs.ref_libs true None)
    (C := as_declared_with (Ok ()) (λ _ _ _, Ok None))
    "whatsapp" 1 Payload.one_message (acme "error") = (false, acme "error") ∧
  connected_bridge 1 "whatsapp" (acme "error") = None.
Proof. split; reflexivity. Qed.

Lemma error_bridge_returns_false :
  process_webhook_data (L := RefLibs.ref_libs true None) (C := as_declared)
    "whatsapp" 1 Payload.one_message (acme "error") = (false, acme "error") ∧
  send_message (L := RefLibs.ref_libs true None) (C := as_declared)
    (with_status (acme_bridge "connected") "error") (JStr "+1234567890") (JStr "hi") (acme "error")
  = send_message (L := RefLibs.ref_libs true None) (C := as_declared)
      (acme_bridge "connected") (JStr "+1234567890") (JStr "hi") (acme "error").
Proof.
  exact (inbound_needs_connected_bridge (L := RefLibs.ref_libs true None)
           (C := as_declared) "whatsapp" 1 Payload.one_message (acme "error")
           (acme_bridge "connected") "error" (JStr "+1234567890") (JStr "hi") eq_refl).
Defined.

End ManagerFacts.

(** ** Messages that come back from the workspace *)

Module MatrixBridgeFacts.
Import Py Store Messaging MatrixBridge.

(** The conversations [process_bridge_message] leaves are those its
    [get_or_create] leaves, whether or not the message could be stored. *)
Lemma process_bridge_message_conversations
    platform external_id ext company_id content sender timestamp now t :
  company_id ∈ companies t → char_field external_id = Ok ext →
  conversations (process_bridge_message platform external_id company_id content sender
                   timestamp now t)
  = (get_or_create (company_id, ext, platform)
       {| d_participants := JList [JDict [("id", external_id); ("platform", JStr platform)]];
          d_status := "active" |} (conversations t)).2.
Proof.
  intros Hc Hext. unfold process_bridge_message, process_bridge_message_body.
  unfold mbind at 1, db_bind at 1, Company_objects_get at 1.
  rewrite bool_decide_eq_true_2 by assumption.
  unfold mbind at 1, db_bind at 1, Conversation_objects_get_or_create at 1. rewrite Hext.
  destruct (get_or_create _ _ _) as [[[c b]|e] rows']; reflexivity.
Qed.

(** [process_bridge_message] upserts as well: after it the triple has
    its one row. *)
Lemma process_bridge_message_one_conversation
    platform external_id ext company_id content sender timestamp now t :
  unique_together (conversations t) → company_id ∈ companies t →
  char_field external_id = Ok ext →
  let t' := process_bridge_message platform external_id company_id content sender timestamp now t in
  unique_together (conversations t') ∧
  ∃ c, matching (company_id, ext, platform) (conversations t') = [c].
Proof.
  intros Hu Hc Hext. cbv zeta.
  rewrite (process_bridge_message_conversations _ _ ext) by assumption.
  destruct (MessagingFacts.get_or_create_spec (company_id, ext, platform)
              {| d_participants := JList [JDict [("id", external_id); ("platform", JStr platform)]];
                 d_status := "active" |} (conversations t) Hu)
    as (c & b & rows' & -> & Hu' & Hin & Hk & _).
  split; [exact Hu'|]. cbn [snd].
  destruct (StoreFacts.matching_present (company_id, ext, platform) rows' Hu') as (c' & ? & _).
  - rewrite <- Hk. apply list_elem_of_fmap_2. assumption.
  - eauto.
Qed.

End MatrixBridgeFacts.

(** ** The credentials of a bridge connection *)

Module CredentialsFacts.
Import Py Lib Credentials.

(** [BridgeCredentials] hands the key of the settings to [Fernet] as it
    is; where [Fernet] takes that key, what [encrypt_credentials] stores
    is what [decrypt_credentials] returns. *)
Lemma decrypt_credentials_encrypt_credentials `{L : Libs} `{!LibLaws L} self data r self' :
  well_formed data →
  encrypt_credentials self data r = Ok self' →
  decrypt_credentials self' = Ok data.
Proof.
  intros Hwf. unfold encrypt_credentials, decrypt_credentials.
  destruct settings_fernet as [f|e]; [|discriminate]. cbn [mbind result_bind].
  destruct (token_text f r (encode (json_dumps data))) as (s & Hd & He & _).
  rewrite Hd. cbn [mbind result_bind]. intros [= <-]. cbn [encrypted_data].
  rewrite He, decrypt_encrypt. cbn [mbind result_bind].
  rewrite decode_encode. cbn [mbind result_bind]. apply loads_dumps. assumption.
Qed.

(** The key the settings fall back to has 38 characters and is no
    base64 text of 32 octets: with it [encrypt_credentials] raises. *)
Example default_key_refused :
  encrypt_credentials
    (L := RefLibs.ref_libs true (Some "your-32-char-encryption-key-here-12345"))
    {| bridge := 7; encrypted_data := ""; encryption_version := "v1" |}
    Vault.sample_creds 7 = Raise ValueError.
Proof. reflexivity. Qed.

(** The two stores side by side: for every credential map,
    [CompanyBridgeConfiguration] reads back what it stored, whatever
    the key of the settings is; [BridgeCredentials] reads back what it
    stored where [Fernet] takes the key of the settings as it is, and
    where it does not, [encrypt_credentials] raises. *)
Lemma credentials_read_back `{L : Libs} `{!LibLaws L} config self creds r :
  well_formed creds →
  (∃ config', Vault.set_encrypted_config config creds r = Ok config' ∧
              Vault.company config' = Vault.company config ∧
              Vault.platform config' = Vault.platform config ∧
              Vault.get_decrypted_config config' = Ok creds) ∧
  (is_ok settings_fernet = true → round_trips self creds r) ∧
  (is_ok settings_fernet = false → is_ok (encrypt_credentials self creds r) = false).
Proof.
  intros Hwf. split; [|split].
  - exact (VaultFacts.get_decrypted_config_set_encrypted_config config creds r Hwf).
  - intros Hok. unfold round_trips.
    assert (He : ∃ self', encrypt_credentials self creds r = Ok self').
    { unfold encrypt_credentials. destruct settings_fernet as [f|e]; [|discriminate].
      cbn [mbind result_bind].
      destruct (token_text f r (encode (json_dumps creds))) as (s & -> & _).
      cbn [mbind result_bind]. eauto. }
    destruct He as [self' He]. exists self'. split; [exact He|].
    exact (decrypt_credentials_encrypt_credentials self creds r self' Hwf He).
  - intros Hno. unfold encrypt_credentials.
    destruct settings_fernet; [discriminate | reflexivity].
Qed.

(** C8, on the code: under the key the settings ship,
    [BridgeCredentials] reads nothing back, since [Fernet] refuses the
    key as it is and [encrypt_credentials] raises [ValueError] before
    anything is stored, while [CompanyBridgeConfiguration], which cuts
    the same key to 32 octets and encodes it first, stores the same
    credentials and reads them back. *)
Theorem shipped_key_refused :
  encrypt_credentials (L := RefLibs.ref_libs true (Some shipped_key)) acme_credentials
    Vault.sample_creds 7 = Raise ValueError ∧
  ¬ round_trips (L := RefLibs.ref_libs true (Some shipped_key)) acme_credentials
      Vault.sample_creds 7 ∧
  ∃ config',
    Vault.set_encrypted_config (L := RefLibs.ref_libs true (Some shipped_key))
      Vault.fresh_config Vault.sample_creds 7 = Ok config' ∧
    Vault.get_decrypted_config (L := RefLibs.ref_libs true (Some shipped_key)) config'
      = Ok Vault.sample_creds.
Proof.
  split; [reflexivity|]. split.
  - intros (self' & He & _). vm_compute in He. discriminate He.
  - eexists. split; vm_compute; reflexivity.
Qed.

Lemma sample_creds_read_back :
  (∃ config', Vault.set_encrypted_config (L := RefLibs.ref_libs true (Some shipped_key))
                Vault.fresh_config Vault.sample_creds 7 = Ok config' ∧
              Vault.company config' = Vault.company Vault.fresh_config ∧
              Vault.platform config' = Vault.platform Vault.fresh_config ∧
              Vault.get_decrypted_config (L := RefLibs.ref_libs true (Some shipped_key)) config'
                = Ok Vault.sample_creds) ∧
  (is_ok (settings_fernet (L := RefLibs.ref_libs true (Some shipped_key))) = true →
   round_trips (L := RefLibs.ref_libs true (Some shipped_key)) acme_credentials
     Vault.sample_creds 7) ∧
  (is_ok (settings_fernet (L := RefLibs.ref_libs true (Some shipped_key))) = false →
   is_ok (encrypt_credentials (L := RefLibs.ref_libs true (Some shipped_key)) acme_credentials
            Vault.sample_creds 7) = false).
Proof.
  exact (credentials_read_back (L := RefLibs.ref_libs true (Some shipped_key))
           (LibLaws0 := RefLibsFacts.ref_libs_laws true (Some shipped_key))
           Vault.fresh_config acme_credentials Vault.sample_creds 7
           VaultFacts.sample_creds_well_formed).
Defined.

End CredentialsFacts.

(** ** The slug of a company *)

Module CompaniesFacts.
Import Py Companies.

Lemma append_cancel (s x y : string) : String.append s x = String.append s y → x = y.
Proof. induction s as [|c s IH]; simpl; [auto | intros [= H]; auto]. Qed.

Lemma numbered_inj original i j : numbered original i = numbered original j → i = j.
Proof.
  unfold numbered. intros H. apply append_cancel in H. apply append_cancel in H.
  apply (inj pretty) in H. exact H.
Qed.

Lemma candidate_inj original : Inj (=) (=) (candidate original).
Proof.
  intros [|i] [|j] H; simpl in H.
  - reflexivity.
  - exfalso. apply (f_equal String.length) in H. unfold numbered in H.
    rewrite !PyFacts.length_string_app in H. simpl in H. lia.
  - exfalso. apply (f_equal String.length) in H. unfold numbered in H.
    rewrite !PyFacts.length_string_app in H. simpl in H. lia.
  - apply numbered_inj in H. exact H.
Qed.

(** The loop stops at the first candidate that is free, given the fuel
    to reach it. *)
Lemma free_slug_found taken original fuel i j :
  (∀ k, i ≤ k < j → candidate original k ∈ taken) →
  candidate original j ∉ taken → i ≤ j → j - i < fuel →
  free_slug fuel taken original (candidate original i) (S i) = Some (candidate original j).
Proof.
  revert i. induction fuel as [|fuel IH]; intros i Hbelow Hfree Hij Hfuel; [lia|].
  simpl. destruct (decide (i = j)) as [->|Hne].
  - rewrite bool_decide_eq_false_2 by assumption. reflexivity.
  - rewrite bool_decide_eq_true_2 by (apply Hbelow; lia).
    apply (IH (S i)); [intros k Hk; apply Hbelow; lia | assumption | lia | lia].
Qed.

(** Among the first [n + 1] candidates one is free of [n] taken slugs. *)
Lemma some_candidate_free taken original :
  ∃ j, j ≤ length taken ∧ (candidate original j ∉ taken) ∧
       ∀ k, k < j → candidate original k ∈ taken.
Proof.
  assert (Hex : ∃ j, j ≤ length taken ∧ (candidate original j ∉ taken)).
  { destruct (decide (Forall (λ i, candidate original i ∈ taken) (seq 0 (S (length taken)))))
      as [Hall|Hnot].
    - exfalso.
      assert (Hsub : candidate original <$> seq 0 (S (length taken)) ⊆+ taken).
      { apply NoDup_submseteq.
        - apply (NoDup_fmap_2 (candidate original) (Inj0 := candidate_inj original)). apply NoDup_seq.
        - intros x Hx. apply list_elem_of_fmap in Hx as (i & -> & Hi).
          exact (proj1 (Forall_forall _ _) Hall i Hi). }
      apply submseteq_length in Hsub. rewrite length_fmap, length_seq in Hsub. lia.
    - apply not_Forall_Exists in Hnot; [|intros i; apply _].
      apply Exists_exists in Hnot as (j & Hj & Hfree).
      apply elem_of_seq in Hj. exists j. split; [lia | exact Hfree]. }
  destruct Hex as (j & Hj & Hfree). revert Hj Hfree.
  induction j as [j IH] using lt_wf_ind. intros Hj Hfree.
  destruct (decide (Forall (λ k, candidate original k ∈ taken) (seq 0 j))) as [Hall|Hnot].
  - exists j. split; [assumption|]. split; [assumption|].
    intros k Hk. apply (proj1 (Forall_forall _ _) Hall). apply elem_of_seq. lia.
  - apply not_Forall_Exists in Hnot; [|intros i; apply _].
    apply Exists_exists in Hnot as (k & Hk & Hkfree). apply elem_of_seq in Hk.
    apply (IH k); [lia | lia | exact Hkfree].
Qed.

(** X1: [Company.save] ends: a company without a slug gets, after at
    most as many lookups as the table has rows plus one, the first of
    [slug], [slug-1], [slug-2], ... that no row has. *)
Theorem save_picks_free_slug (slugify : string → string) fuel taken self :
  slug self = "" → length taken < fuel →
  ∃ c j, save slugify fuel taken self = Some c ∧
         name c = name self ∧ (slug c ∉ taken) ∧
         j ≤ length taken ∧ slug c = candidate (slugify (name self)) j ∧
         ∀ k, k < j → candidate (slugify (name self)) k ∈ taken.
Proof.
  intros Hslug Hfuel. unfold save. rewrite Hslug. simpl.
  destruct (some_candidate_free taken (slugify (name self))) as (j & Hj & Hfree & Hbelow).
  change (slugify (name self)) with (candidate (slugify (name self)) 0) at 2.
  rewrite (free_slug_found taken _ fuel 0 j); [|intros k Hk; apply Hbelow; lia|assumption|lia|lia].
  simpl. eexists _, j. repeat split; try assumption.
Qed.

Lemma save_acme :
  ∃ c j, save id 3 ["acme"; "acme-1"] {| name := "acme"; slug := ""; plan := "trial" |} = Some c ∧
         name c = "acme" ∧ (slug c ∉ ["acme"; "acme-1"]) ∧
         j ≤ 2 ∧ slug c = candidate "acme" j ∧
         ∀ k, k < j → candidate "acme" k ∈ ["acme"; "acme-1"].
Proof.
  refine (save_picks_free_slug id 3 ["acme"; "acme-1"]
            {| name := "acme"; slug := ""; plan := "trial" |} eq_refl _).
  simpl. lia.
Defined.

Example save_acme_slug :
  slug <$> save id 3 ["acme"; "acme-1"] {| name := "acme"; slug := ""; plan := "trial" |}
  = Some "acme-2".
Proof. reflexivity. Qed.

End CompaniesFacts.

(** ** More on the setup life cycle *)

Module SetupFacts.
Import Py Lib Vault BridgeViews Setup.

Lemma filter_key_absent k (table : list Row) :
  k ∉ (key <$> table) → filter (λ r, key r = k) table = [].
Proof.
  induction table as [|r table IH]; intros Hk; [reflexivity|].
  rewrite fmap_cons, not_elem_of_cons in Hk. destruct Hk as [Hr Hk].
  rewrite filter_cons_False by congruence. auto.
Qed.

Lemma filter_key_present k (table : list Row) :
  unique_together table → k ∈ (key <$> table) →
  ∃ r, filter (λ r, key r = k) table = [r] ∧ r ∈ table ∧ key r = k.
Proof.
  unfold unique_together. induction table as [|r table IH]; intros Hu Hk.
  - rewrite fmap_nil in Hk. inversion Hk.
  - rewrite fmap_cons in Hu, Hk. apply NoDup_cons in Hu as [Hr Hu].
    destruct (decide (key r = k)) as [Heq|Hne].
    + exists r. rewrite filter_cons_True by assumption.
      rewrite filter_key_absent by congruence.
      split; [reflexivity|]. split; [left | assumption].
    + rewrite filter_cons_False by assumption.
      apply elem_of_cons in Hk as [Hk|Hk]; [congruence|].
      destruct (IH Hu Hk) as (r' & ? & ? & ?). exists r'. split; [assumption|].
      split; [right|]; assumption.
Qed.

Ltac refused :=
  eexists _, _; split; [reflexivity|]; split; [assumption|];
  split; [split; [discriminate | try contradiction; try tauto] | left; reflexivity].

Ltac raised :=
  eexists _, _; split; [reflexivity|]; split; [assumption|];
  split; [split; [intros _; try exact I; auto | reflexivity] | left; reflexivity].

(** X2: [setup] keeps one row for a company and a platform: on a table
    that keeps the constraint it writes at most the one [pending] row
    that was missing, and the constraint holds afterwards.  It answers
    500, from an exception that leaves the view, exactly for data that
    is no dict, for a platform that is a list or a dict and not empty,
    and for a known platform asked for by a user without a company. *)
Theorem setup_keeps_one_row request_data company_ table :
  unique_together table →
  ∃ response table',
    setup request_data company_ table = (response, table') ∧
    unique_together table' ∧
    (status_code response = 500 ↔ unanswerable request_data company_) ∧
    (table' = table ∨
     ∃ c slug p, company_ = Some (c, slug) ∧
                 get request_data "platform" JNone = Ok (JStr p) ∧
                 p ∈ PLATFORM_CHOICES ∧ ((c, p) ∉ (key <$> table)) ∧
                 table' = table ++ [new_row c slug p] ∧ status_code response = 200).
Proof.
  intros Hu. unfold setup, setup_body, unanswerable.
  destruct request_data as [ |b|z|s|l|data]; try raised.
  cbn [get].
  destruct (assoc "platform" data) as [[ |b|z|p|l|d]|]; cbn [from_option id];
    try refused.
  - destruct b; refused.
  - destruct (Z.eqb z 0) eqn:Hz; cbn [truthy negb]; rewrite Hz; refused.
  - cbn [truthy]. destruct (String.eqb_spec p "") as [->|Hp]; cbn [negb].
    { eexists _, _. split; [reflexivity|]. split; [assumption|].
      split; [|left; reflexivity]. split; [discriminate|].
      intros [Hin _]. exfalso. revert Hin. change ("" ∉ PLATFORM_CHOICES).
      apply (bool_decide_unpack _). vm_compute. exact I. }
    cbn [platform_choice]. case_bool_decide as Hin.
    2:{ eexists _, _. split; [reflexivity|]. split; [assumption|].
        split; [|left; reflexivity]. split; [discriminate | intros [? _]; contradiction]. }
    destruct company_ as [[c slug]|].
    2:{ eexists _, _. split; [reflexivity|]. split; [assumption|].
        split; [|left; reflexivity]. split; [auto | reflexivity]. }
    unfold get_or_create.
    destruct (decide ((c, p) ∈ (key <$> table))) as [Hthere|Hout].
    + destruct (filter_key_present _ _ Hu Hthere) as (r & -> & _ & _). cbn [negb andb].
      destruct (String.eqb _ _);
        (eexists _, _; split; [reflexivity|]; split; [assumption|];
         split; [|left; reflexivity]; split; [discriminate | intros [_ [=]]]).
    + rewrite (filter_key_absent _ _ Hout). cbn [negb andb].
      eexists _, _. split; [reflexivity|]. split.
      { unfold unique_together. rewrite fmap_app. apply NoDup_app.
        split; [assumption|]. split; [|apply NoDup_singleton].
        intros x Hx Hx'. apply list_elem_of_singleton in Hx'. subst x. contradiction. }
      split; [split; [discriminate | intros [_ [=]]]|].
      right. exists c, slug, p. repeat split; auto.
  - destruct l as [|x l]; [refused | raised].
  - destruct d as [|x d]; [refused | raised].
Qed.

Lemma setup_whatsapp_twice :
  ∃ response table',
    setup (JDict [("platform", JStr "whatsapp")]) (Some (1, "acme"))
      (setup (JDict [("platform", JStr "whatsapp")]) (Some (1, "acme")) []).2
      = (response, table') ∧
    unique_together table' ∧
    (status_code response = 500
     ↔ unanswerable (JDict [("platform", JStr "whatsapp")]) (Some (1, "acme"))) ∧
    (table' = (setup (JDict [("platform", JStr "whatsapp")]) (Some (1, "acme")) []).2 ∨
     ∃ c slug p, Some (1, "acme") = Some (c, slug) ∧
                 get (JDict [("platform", JStr "whatsapp")]) "platform" JNone = Ok (JStr p) ∧
                 p ∈ PLATFORM_CHOICES ∧
                 ((c, p) ∉ (key <$> (setup (JDict [("platform", JStr "whatsapp")])
                                       (Some (1, "acme")) []).2)) ∧
                 table' = (setup (JDict [("platform", JStr "whatsapp")]) (Some (1, "acme")) []).2
                          ++ [new_row c slug p] ∧
                 status_code response = 200).
Proof.
  refine (setup_keeps_one_row (JDict [("platform", JStr "whatsapp")]) (Some (1, "acme"))
            (setup (JDict [("platform", JStr "whatsapp")]) (Some (1, "acme")) []).2 _).
  apply NoDup_singleton.
Defined.

(** A platform sent as a list, and a user without a company: 500, and
    nothing written. *)
Example setup_unanswerable :
  setup (JDict [("platform", JList [JStr "whatsapp"])]) (Some (1, "acme")) []
    = ({| status_code := 500; body_status := None |}, []) ∧
  setup (JDict [("platform", JStr "whatsapp")]) None []
    = ({| status_code := 500; body_status := None |}, []).
Proof. split; reflexivity. Qed.

Section WithCollab.
Context `{L : Libs} `{C : Collab}.

(** X3: a configuration that holds no credentials fails its connection
    test on every platform, whatever the network answers: the test
    leaves it in [error] with the answer 400. *)
Theorem test_without_credentials config now :
  encrypted_config config = None →
  status_code (test config true now).1 = 400 ∧
  status (test config true now).2 = "error" ∧
  encrypted_config (test config true now).2 = None.
Proof.
  intros Hblob.
  assert (Hr : ∃ msg, _test_bridge_connection config = Ok (failed msg)).
  { unfold _test_bridge_connection, get_decrypted_config. rewrite Hblob.
    cbn [mbind result_bind].
    repeat (destruct (String.eqb (platform config) _); [eexists; reflexivity|]).
    eexists; reflexivity. }
  destruct Hr as [msg Hr]. unfold test. cbn [negb]. rewrite Hr. cbn.
  rewrite Hblob. auto.
Qed.

(** X4: a connection test on a valid request never answers 500 and
    asks nothing of the workspace: the platform test returns a result
    in every case, and the row is saved as [active], completed now and
    with no error message, with the answer 200, when the result is a
    success, and as [error], with the message of the result and the
    answer 400, when it is not. *)
Theorem test_outcomes config now :
  ∃ r, _test_bridge_connection config = Ok r ∧
    test config true now =
      if success r then
        ({| status_code := 200; body_status := Some "active" |}, set_active config now None)
      else
        ({| status_code := 400; body_status := Some "error" |},
         set_error config (default "Test failed" (error r))).
Proof.
  destruct (BridgeViewsFacts._test_bridge_connection_returns config) as [r Hr].
  exists r. split; [exact Hr|]. unfold test. cbn [negb]. rewrite Hr.
  destruct (success r); [|reflexivity].
  rewrite BridgeViewsFacts.link_workspace_returns. reflexivity.
Qed.

(** X5: [activate] sets every [configured] row to [active] and answers
    200, whether or not the workspace has a room for it, and keeps the
    error message of the row; a row in any other status is refused
    with 400 and stays as it is, a row that [deactivate] has just left
    included. *)
Theorem activate_outcomes config now :
  (status config = "configured" →
   activate config now = ({| status_code := 200; body_status := Some "active" |},
                          set_active config now (error_message config))) ∧
  (status config ≠ "configured" →
   activate config now = ({| status_code := 400; body_status := None |}, config)) ∧
  activate (deactivate config).2 now
    = ({| status_code := 400; body_status := None |}, (deactivate config).2).
Proof.
  split; [|split].
  - intros Hc. unfold activate. rewrite Hc. cbn [String.eqb Ascii.eqb Bool.eqb negb].
    rewrite BridgeViewsFacts.link_workspace_returns. reflexivity.
  - apply BridgeViewsFacts.activate_needs_configured.
  - reflexivity.
Qed.

(** *** What [configure] stores *)

Lemma validated_fields_sublist fields data l :
  validated_fields fields data = Some l → l.*1 `sublist_of` fields.*1.
Proof.
  revert l. induction fields as [|[name default_] fields IH]; intros l; cbn [validated_fields].
  - intros [= <-]. constructor.
  - destruct (assoc name data) as [value|].
    + destruct (char_field_value value) as [text|]; [|discriminate]. cbn [mbind option_bind].
      destruct (validated_fields fields data) as [rest|]; [|discriminate].
      cbn [mbind option_bind]. intros [= <-]. cbn. apply sublist_skip. auto.
    + destruct (validated_fields fields data) as [rest|]; [|discriminate].
      cbn [mbind option_bind]. intros [= <-].
      destruct default_; cbn; [apply sublist_skip | apply sublist_cons]; auto.
Qed.

Lemma validated_fields_text fields data l :
  validated_fields fields data = Some l → Forall (λ kv, ∃ text, kv.2 = JStr text) l.
Proof.
  revert l. induction fields as [|[name default_] fields IH]; intros l; cbn [validated_fields].
  - intros [= <-]. constructor.
  - destruct (assoc name data) as [value|].
    + destruct (char_field_value value) as [text|]; [|discriminate]. cbn [mbind option_bind].
      destruct (validated_fields fields data) as [rest|]; [|discriminate].
      cbn [mbind option_bind]. intros [= <-]. constructor; [eexists; reflexivity | auto].
    + destruct (validated_fields fields data) as [rest|]; [|discriminate].
      cbn [mbind option_bind]. intros [= <-].
      destruct default_; [constructor; [eexists; reflexivity|]|]; auto.
Qed.

Lemma assoc_absent name (l : list (string * json)) : name ∉ l.*1 → assoc name l = None.
Proof.
  induction l as [|[k v] l IH]; [reflexivity|]. cbn. intros Hn.
  apply not_elem_of_cons in Hn as [Hk Hn].
  destruct (String.eqb_spec name k); [contradiction | auto].
Qed.

Lemma validated_fields_undeclared fields data l name :
  validated_fields fields data = Some l → name ∉ fields.*1 → assoc name l = None.
Proof.
  intros Hl Hn. apply assoc_absent. intros Hin. apply Hn.
  eapply elem_of_sublist; [exact Hin | eapply validated_fields_sublist; exact Hl].
Qed.

(** What the validated data hold under the name of a declared field:
    the text the field keeps of the value sent, or its default. *)
Lemma validated_fields_declared fields data l name default_ :
  NoDup fields.*1 → validated_fields fields data = Some l → (name, default_) ∈ fields →
  assoc name l =
    match assoc name data with
    | Some value => JStr <$> char_field_value value
    | None => JStr <$> default_
    end.
Proof.
  revert l. induction fields as [|[k d] fields IH]; intros l Hnd Hv Hin.
  - inversion Hin.
  - cbn in Hnd. apply NoDup_cons in Hnd as [Hk Hnd].
    cbn [validated_fields] in Hv.
    assert (Hrest : ∀ rest, validated_fields fields data = Some rest → assoc k rest = None).
    { intros rest Hr. eapply validated_fields_undeclared; eassumption. }
    apply elem_of_cons in Hin as [[= -> ->]|Hin].
    + destruct (assoc k data) as [value|].
      * destruct (char_field_value value) as [text|]; [|discriminate].
        cbn [mbind option_bind] in Hv.
        destruct (validated_fields fields data) as [rest|]; [|discriminate].
        injection Hv as <-. cbn. rewrite String.eqb_refl. reflexivity.
      * destruct (validated_fields fields data) as [rest|] eqn:Hr; [|discriminate].
        cbn [mbind option_bind] in Hv. injection Hv as <-.
        destruct d as [text|]; cbn; [rewrite String.eqb_refl; reflexivity | auto].
    + assert (Hne : name ≠ k).
      { intros ->. apply Hk. apply list_elem_of_fmap. exists (k, default_). auto. }
      assert (Hkeep : ∀ rest v, validated_fields fields data = Some rest →
                assoc name ((k, v) :: rest) =
                  match assoc name data with
                  | Some value => JStr <$> char_field_value value
                  | None => JStr <$> default_
                  end).
      { intros rest v Hr. cbn. destruct (String.eqb_spec name k); [contradiction|].
        apply IH; auto. }
      destruct (assoc k data) as [value|].
      * destruct (char_field_value value) as [text|]; [|discriminate].
        cbn [mbind option_bind] in Hv.
        destruct (validated_fields fields data) as [rest|] eqn:Hr; [|discriminate].
        injection Hv as <-. auto.
      * destruct (validated_fields fields data) as [rest|] eqn:Hr; [|discriminate].
        cbn [mbind option_bind] in Hv. injection Hv as <-.
        destruct d as [text|]; auto.
Qed.

(** The serializer is valid only when each declared field takes the
    value sent for it. *)
Lemma validated_fields_taken fields data l name default_ value :
  validated_fields fields data = Some l → (name, default_) ∈ fields →
  assoc name data = Some value → is_Some (char_field_value value).
Proof.
  revert l. induction fields as [|[k d] fields IH]; intros l Hv Hin Hdata.
  - inversion Hin.
  - cbn [validated_fields] in Hv. apply elem_of_cons in Hin as [[= -> ->]|Hin].
    + rewrite Hdata in Hv. destruct (char_field_value value); [eauto | discriminate].
    + destruct (assoc k data) as [v|].
      * destruct (char_field_value v); [|discriminate]. cbn [mbind option_bind] in Hv.
        destruct (validated_fields fields data) as [rest|]; [|discriminate]. eauto.
      * destruct (validated_fields fields data) as [rest|]; [|discriminate]. eauto.
Qed.

Lemma SETUP_FIELDS_NoDup : NoDup SETUP_FIELDS.*1.
Proof. apply (bool_decide_unpack _). vm_compute. exact I. Qed.

Lemma text_well_formed (l : list (string * json)) :
  NoDup l.*1 → Forall (λ kv, ∃ text, kv.2 = JStr text) l → well_formed (JDict l).
Proof.
  intros Hnd Hall. cbn. split; [exact Hnd|].
  clear Hnd. induction Hall as [|[k v] l [text Hv] _ IH]; [exact I|].
  cbn in Hv. subst v. cbn. auto.
Qed.

Lemma validated_data_well_formed request_data config_data :
  validated_data request_data = Some config_data → well_formed config_data.
Proof.
  unfold validated_data. destruct request_data as [ | | | | |data]; try discriminate.
  destruct (validated_fields SETUP_FIELDS data) as [l|] eqn:Hl; [|discriminate].
  intros [= <-]. apply text_well_formed.
  - eapply sublist_NoDup; [exact SETUP_FIELDS_NoDup | eapply validated_fields_sublist; exact Hl].
  - eapply validated_fields_text; exact Hl.
Qed.

Context {Laws : LibLaws L}.

Lemma stored_config_readable config data r :
  well_formed data →
  ∃ config', set_encrypted_config config data r = Ok config' ∧
             status config' = status config ∧
             ∀ s msg, get_decrypted_config (set_status config' s msg) = Ok data.
Proof.
  intros Hwf. unfold set_encrypted_config.
  destruct cryptography_installed eqn:Hi.
  - destruct (VaultFacts.bridge_fernet_ok Hi) as [f Hf]. rewrite Hf. simpl.
    destruct (token_text f r (encode (json_dumps data))) as (s & Hd & He & Hs).
    rewrite Hd. simpl. eexists. split; [reflexivity|]. split; [reflexivity|].
    intros st msg. unfold get_decrypted_config. simpl. destruct s as [|c s]; [congruence|].
    unfold decrypt_blob. rewrite Hf. simpl. rewrite He, decrypt_encrypt. simpl.
    rewrite decode_encode. simpl. rewrite loads_dumps by assumption. reflexivity.
  - assert (Hf : bridge_fernet = Raise ImportError).
    { unfold bridge_fernet. rewrite Hi. reflexivity. }
    rewrite Hf. simpl.
    destruct (b64_text (encode (json_dumps data))) as (s & Hd & He & Hs).
    rewrite Hd. simpl. eexists. split; [reflexivity|]. split; [reflexivity|].
    intros st msg. unfold get_decrypted_config. simpl.
    destruct s as [|c s]; [exfalso; apply Hs; [apply dumps_nonempty | reflexivity]|].
    unfold decrypt_blob. rewrite Hf. simpl.
    unfold decode_blob. rewrite He, b64decode_b64encode. simpl.
    rewrite decode_encode. simpl. rewrite loads_dumps by assumption. reflexivity.
Qed.

(** X6: [configure] on a request that the serializer takes answers 200
    and leaves the row in [configured] with no error message; what the
    row then holds decrypts to the validated data of the serializer,
    which are not the data of the request: under a declared field they
    have the text the field keeps of the value sent, which it does
    keep one of, or the default of the field when the request leaves
    it out, as [signal_cli_path] has one, and under any other name
    nothing. *)
Theorem configure_stores_validated_data config request_data config_data r :
  validated_data request_data = Some config_data →
  configure config request_data r
    = ({| status_code := 200; body_status := Some "configured" |},
       (configure config request_data r).2) ∧
  status (configure config request_data r).2 = "configured" ∧
  error_message (configure config request_data r).2 = None ∧
  get_decrypted_config (configure config request_data r).2 = Ok config_data ∧
  ∃ data l, request_data = JDict data ∧ config_data = JDict l ∧
    (∀ name default_, (name, default_) ∈ SETUP_FIELDS →
       assoc name l =
         match assoc name data with
         | Some value => JStr <$> char_field_value value
         | None => JStr <$> default_
         end) ∧
    (∀ name default_ value, (name, default_) ∈ SETUP_FIELDS →
       assoc name data = Some value → is_Some (char_field_value value)) ∧
    (∀ name, name ∉ SETUP_FIELDS.*1 → assoc name l = None).
Proof.
  intros Hv. pose proof (validated_data_well_formed _ _ Hv) as Hwf.
  unfold configure. rewrite Hv.
  destruct (stored_config_readable config config_data r Hwf) as (config' & -> & _ & Hget).
  cbn [fst snd]. split; [reflexivity|]. split; [reflexivity|]. split; [reflexivity|].
  split; [apply Hget|].
  unfold validated_data in Hv. destruct request_data as [ | | | | |data]; try discriminate.
  destruct (validated_fields SETUP_FIELDS data) as [l|] eqn:Hl; [|discriminate].
  injection Hv as <-. exists data, l. split; [reflexivity|]. split; [reflexivity|].
  split; [|split].
  - intros name default_. apply validated_fields_declared; [exact SETUP_FIELDS_NoDup | exact Hl].
  - intros name default_ value. apply validated_fields_taken with (l := l). exact Hl.
  - intros name. apply validated_fields_undeclared with (data := data). exact Hl.
Qed.

End WithCollab.

Lemma fresh_config_test_fails :
  status_code (test (L := RefLibs.ref_libs true None) (C := all_up) fresh_config true 1700000000).1
    = 400 ∧
  status (test (L := RefLibs.ref_libs true None) (C := all_up) fresh_config true 1700000000).2
    = "error" ∧
  encrypted_config
    (test (L := RefLibs.ref_libs true None) (C := all_up) fresh_config true 1700000000).2 = None.
Proof.
  exact (test_without_credentials (L := RefLibs.ref_libs true None) (C := all_up)
           fresh_config 1700000000 eq_refl).
Defined.

Lemma configure_whatsapp_request :
  configure (L := RefLibs.ref_libs true None) (C := all_up) fresh_config whatsapp_request 7
    = ({| status_code := 200; body_status := Some "configured" |},
       (configure (L := RefLibs.ref_libs true None) (C := all_up) fresh_config
          whatsapp_request 7).2) ∧
  status (configure (L := RefLibs.ref_libs true None) (C := all_up) fresh_config
            whatsapp_request 7).2 = "configured" ∧
  error_message (configure (L := RefLibs.ref_libs true None) (C := all_up) fresh_config
                   whatsapp_request 7).2 = None ∧
  get_decrypted_config (L := RefLibs.ref_libs true None)
    (configure (L := RefLibs.ref_libs true None) (C := all_up) fresh_config
       whatsapp_request 7).2 = Ok whatsapp_validated ∧
  ∃ data l, whatsapp_request = JDict data ∧ whatsapp_validated = JDict l ∧
    (∀ name default_, (name, default_) ∈ SETUP_FIELDS →
       assoc name l =
         match assoc name data with
         | Some value => JStr <$> char_field_value (Collab := all_up) value
         | None => JStr <$> default_
         end) ∧
    (∀ name default_ value, (name, default_) ∈ SETUP_FIELDS →
       assoc name data = Some value → is_Some (char_field_value (Collab := all_up) value)) ∧
    (∀ name, name ∉ SETUP_FIELDS.*1 → assoc name l = None).
Proof.
  refine (configure_stores_validated_data (L := RefLibs.ref_libs true None) (C := all_up)
            (Laws := RefLibsFacts.ref_libs_laws true None)
            fresh_config whatsapp_request whatsapp_validated 7 _).
  vm_compute. reflexivity.
Defined.

End SetupFacts.

(** ** More on the conversation store *)

Module StoreMore.
Import Py Store Messaging Payload Samples.

Lemma step_grows i s : system_ok s → ∃ more, (step i s).2 = s.2 ++ more.
Proof.
  destruct s as [ws rows]. intros [Hu Hws]. unfold step. simpl.
  destruct (ws !! i) as [w|] eqn:Hi; [|exists []; by rewrite app_nil_r].
  pose proof (StoreFacts.caller_step_spec w rows Hu (proj1 (Forall_lookup _ _) Hws i w Hi)) as Hs.
  destruct (caller_step w rows) as [w' rows']. destruct Hs as (_ & _ & Hmore & _). exact Hmore.
Qed.

Lemma run_grows schedule s : system_ok s → ∃ more, (run schedule s).2 = s.2 ++ more.
Proof.
  revert s. induction schedule as [|i schedule IH]; intros s Hs.
  - exists []. simpl. by rewrite app_nil_r.
  - change (run (i :: schedule) s) with (run schedule (step i s)).
    destruct (step_grows i s Hs) as [more1 H1].
    destruct (IH (step i s) (proj1 (StoreFacts.step_spec i s Hs))) as [more2 H2].
    exists (more1 ++ more2). rewrite H2, H1, app_assoc. reflexivity.
Qed.

(** X7: callers of [get_or_create] for whatever triples, interleaved in
    whatever way, never break the constraint, never remove or change a
    row that was there, and never raise: the [IntegrityError] of a lost
    race is always answered by the second lookup. *)
Theorem constraint_kept_in_any_interleaving schedule callers rows :
  unique_together rows → Forall (λ w, c_pc w = AtGet) callers →
  unique_together (run schedule (callers, rows)).2 ∧
  (∃ more, (run schedule (callers, rows)).2 = rows ++ more) ∧
  Forall (λ w, ∀ e, c_pc w ≠ Raised e) (run schedule (callers, rows)).1.
Proof.
  intros Hu Hws.
  assert (Hok : system_ok (callers, rows)).
  { split; [assumption|]. simpl. eapply Forall_impl; [exact Hws|].
    intros w Hpc. unfold caller_ok. rewrite Hpc. exact I. }
  destruct (StoreFacts.run_spec schedule _ Hok) as ([Hu' Hws'] & _ & _).
  split; [assumption|]. split; [exact (run_grows schedule _ Hok)|].
  eapply Forall_impl; [exact Hws'|]. intros w Hw e He.
  unfold caller_ok in Hw. rewrite He in Hw. exact Hw.
Qed.

Lemma two_senders_interleaved :
  unique_together (run [0; 1; 1; 0; 2; 2; 0] ([first_contact; second_contact; first_contact], [])).2 ∧
  (∃ more, (run [0; 1; 1; 0; 2; 2; 0] ([first_contact; second_contact; first_contact], [])).2
           = [] ++ more) ∧
  Forall (λ w, ∀ e, c_pc w ≠ Raised e)
    (run [0; 1; 1; 0; 2; 2; 0] ([first_contact; second_contact; first_contact], [])).1.
Proof.
  refine (constraint_kept_in_any_interleaving [0; 1; 1; 0; 2; 2; 0]
            [first_contact; second_contact; first_contact] [] _ _).
  - apply NoDup_nil_2.
  - repeat constructor.
Defined.

(** X8: a second [get_or_create] for a triple returns the row of the
    first, reports that it created nothing, leaves the table as it is
    and ignores the defaults it is given. *)
Theorem get_or_create_twice k d d' rows :
  unique_together rows →
  ∃ c created rows1,
    get_or_create k d rows = (Ok (c, created), rows1) ∧
    get_or_create k d' rows1 = (Ok (c, false), rows1).
Proof.
  intros Hu.
  destruct (MessagingFacts.get_or_create_spec k d rows Hu) as (c & b & rows1 & E & Hu1 & Hin & Hk & _).
  exists c, b, rows1. split; [exact E|].
  assert (Hkin : k ∈ (triple <$> rows1)).
  { rewrite <- Hk. apply list_elem_of_fmap_2. assumption. }
  destruct (MessagingFacts.get_or_create_again k d' rows1 Hu1 Hkin) as (c' & E' & Hin' & Hk').
  rewrite E'. f_equal. f_equal. f_equal.
  apply (StoreFacts.triple_inj rows1); try assumption. congruence.
Qed.

Lemma get_or_create_twice_empty :
  ∃ c created rows1,
    get_or_create acme_triple (c_defaults first_contact) [] = (Ok (c, created), rows1) ∧
    get_or_create acme_triple (c_defaults second_contact) rows1 = (Ok (c, false), rows1).
Proof.
  exact (get_or_create_twice acme_triple (c_defaults first_contact) (c_defaults second_contact)
           [] (NoDup_nil_2 : unique_together [])).
Defined.

Lemma for_each_app {A} (xs ys : list A) (body : A → Db ()) t :
  for_each (xs ++ ys) body t =
  match for_each xs body t with
  | (Ok _, t1) => for_each ys body t1
  | (Raise e, t1) => (Raise e, t1)
  end.
Proof.
  revert t. induction xs as [|x xs IH]; intros t; [reflexivity|].
  simpl. unfold mbind, db_bind. destruct (body x t) as [[[]|e] t1]; [apply IH | reflexivity].
Qed.

(** X9: a payload whose [entry] is missing or empty, and a delivery for
    a company that does not exist, are answered with [failed] and leave
    the store as it was. *)
Theorem process_webhook_refuses d company now t :
  truthy (default JNone (assoc "entry" d)) = false ∨ company ∉ companies t →
  ∃ e, process_webhook (JDict d) company now t = (Failed e, t) ∧
       (e = ValueError ∨ e = DoesNotExist).
Proof.
  intros H. unfold process_webhook, process_entries.
  unfold mbind at 1, db_bind at 1, lift at 1. cbn [get].
  destruct (truthy (default JNone (assoc "entry" d))) eqn:Hentry; cbn [negb].
  - destruct H as [H|H]; [discriminate|].
    unfold mbind at 1, db_bind at 1, Company_objects_get at 1.
    rewrite bool_decide_eq_false_2 by assumption. eauto.
  - unfold raise. eauto.
Qed.

Lemma process_webhook_refuses_statuses :
  ∃ e, process_webhook (JDict [("object", JStr "whatsapp_business_account")]) 1 1700000000
         empty_tables = (Failed e, empty_tables) ∧
       (e = ValueError ∨ e = DoesNotExist).
Proof.
  exact (process_webhook_refuses [("object", JStr "whatsapp_business_account")] 1 1700000000
           empty_tables (or_introl eq_refl)).
Defined.

(** X10: a message that is no dict stops the delivery where it stands:
    the messages before it are recorded and stay recorded, the messages
    after it are not looked at, and the answer is [failed]. *)
Theorem malformed_message_stops_batch ms1 bad ms2 company now t :
  Forall valid_message ms1 →
  match bad with JDict _ => False | _ => True end →
  company ∈ companies t → unique_together (conversations t) →
  ∃ t' rows,
    process_webhook (payload_of (ms1 ++ bad :: ms2)) company now t = (Failed AttributeError, t') ∧
    messages t' = messages t ++ rows ∧
    message_metadata <$> rows = metadata_of <$> ms1.
Proof.
  intros Hv Hbad Hc Hu.
  destruct (MessagingFacts.records_messages ms1 company now Hv t Hu)
    as (t1 & rows & E1 & _ & _ & Hm & Hd).
  exists t1, rows. split; [|split; assumption].
  unfold process_webhook, process_entries, payload_of.
  unfold mbind at 1, db_bind at 1, lift at 1. cbn [get assoc String.eqb Ascii.eqb Bool.eqb from_option id truthy negb].
  unfold mbind at 1, db_bind at 1, Company_objects_get at 1.
  rewrite bool_decide_eq_true_2 by assumption.
  unfold mbind at 1, db_bind at 1, lift at 1.
  cbn [get assoc String.eqb Ascii.eqb Bool.eqb from_option id mbind result_bind iter for_each].
  unfold mbind at 1, db_bind at 1.
  unfold mbind at 1, db_bind at 1, lift at 1.
  cbn [get assoc String.eqb Ascii.eqb Bool.eqb from_option id mbind result_bind iter for_each].
  unfold mbind at 1, db_bind at 1.
  unfold mbind at 1, db_bind at 1, lift at 1.
  cbn [get assoc String.eqb Ascii.eqb Bool.eqb from_option id mbind result_bind iter].
  unfold mbind at 1, db_bind at 1, lift at 1.
  cbn [get assoc String.eqb Ascii.eqb Bool.eqb from_option id mbind result_bind iter].
  rewrite for_each_app, E1. cbn [for_each].
  unfold mbind at 1, db_bind at 1.
  assert (Hraise : _process_incoming_message bad company now t1 = (Raise AttributeError, t1)).
  { destruct bad; try contradiction; reflexivity. }
  rewrite Hraise. reflexivity.
Qed.

Lemma broken_batch_keeps_first :
  ∃ t' rows,
    process_webhook (payload_of broken_batch) 1 1700000000 empty_tables
      = (Failed AttributeError, t') ∧
    messages t' = messages empty_tables ++ rows ∧
    message_metadata <$> rows
      = metadata_of <$> [text_message "wamid.1" "+1234567890" "1678901234" "first"].
Proof.
  refine (malformed_message_stops_batch
            [text_message "wamid.1" "+1234567890" "1678901234" "first"]
            (JStr "not a message")
            [text_message "wamid.3" "+1234567890" "1678901236" "third"]
            1 1700000000 empty_tables _ I WebhookFacts.company_1_exists
            WebhookFacts.empty_tables_unique).
  repeat constructor.
  apply (WebhookFacts.valid_text_message _ _ _ _ 1678901234%Z);
    [reflexivity | unfold datetime_min, datetime_max; lia].
Defined.

(** *** The three loops as one *)

Lemma for_each_ext {A} (xs : list A) (f g : A → Db ()) t :
  (∀ x t, x ∈ xs → f x t = g x t) → for_each xs f t = for_each xs g t.
Proof.
  revert t. induction xs as [|x xs IH]; intros t H; [reflexivity|].
  simpl. unfold mbind, db_bind. rewrite (H x t) by left.
  destruct (g x t) as [[[]|e] t1]; [|reflexivity].
  apply IH. intros y t' Hy. apply H. right. exact Hy.
Qed.

Lemma for_each_bind {A B} (xs : list A) (f : A → list B) (body : B → Db ()) t :
  for_each (xs ≫= f) body t = for_each xs (λ x, for_each (f x) body) t.
Proof.
  revert t. induction xs as [|x xs IH]; intros t; [reflexivity|].
  rewrite bind_cons, for_each_app. simpl. unfold mbind at 2, db_bind.
  destruct (for_each (f x) body t) as [[[]|e] t1]; [apply IH | reflexivity].
Qed.

Lemma change_loop change company now t :
  change_shaped change →
  (value ← lift (get change "value" (JDict []));
   messages ← lift (get value "messages" (JList []) ≫= iter);
   for_each messages (λ message_data, _process_incoming_message message_data company now)) t
  = for_each (value_messages change)
      (λ message_data, _process_incoming_message message_data company now) t.
Proof.
  intros Hs. destruct change as [ | | | | |c]; try contradiction.
  unfold change_shaped in Hs. unfold value_messages.
  unfold mbind at 1, db_bind at 1, lift at 1. cbn [get].
  destruct (assoc "value" c) as [value|]; cbn [from_option id].
  - destruct value as [ | | | | |v]; try contradiction.
    unfold mbind at 1, db_bind at 1, lift at 1. cbn [get].
    destruct (assoc "messages" v) as [ms|]; cbn [from_option id mbind result_bind iter].
    + destruct ms as [ | | | |ms| ]; try contradiction. reflexivity.
    + reflexivity.
  - unfold mbind at 1, db_bind at 1, lift at 1. reflexivity.
Qed.

Lemma entry_loop entry company now t :
  entry_shaped entry →
  (changes ← lift (get entry "changes" (JList []) ≫= iter);
   for_each changes (λ change,
     value ← lift (get change "value" (JDict []));
     messages ← lift (get value "messages" (JList []) ≫= iter);
     for_each messages (λ message_data, _process_incoming_message message_data company now))) t
  = for_each (entry_messages entry)
      (λ message_data, _process_incoming_message message_data company now) t.
Proof.
  intros Hs. destruct entry as [ | | | | |e]; try contradiction.
  unfold entry_shaped in Hs. unfold entry_messages.
  unfold mbind at 1, db_bind at 1, lift at 1. cbn [get].
  destruct (assoc "changes" e) as [changes|]; cbn [from_option id mbind result_bind iter].
  - destruct changes as [ | | | |changes| ]; try contradiction.
    cbn [iter]. rewrite for_each_bind. apply for_each_ext.
    intros change t' Hin. apply change_loop. exact (proj1 (Forall_forall _ _) Hs change Hin).
  - reflexivity.
Qed.

(** On a payload of the shape WhatsApp sends, for a company that
    exists, the nested loops of [process_webhook] are one loop over the
    messages of the payload in their order. *)
Lemma process_webhook_one_loop webhook_data company now t :
  whatsapp_shaped webhook_data → company ∈ companies t →
  process_entries webhook_data company now t
  = for_each (payload_messages webhook_data)
      (λ message_data, _process_incoming_message message_data company now) t.
Proof.
  intros Hs Hc. destruct webhook_data as [ | | | | |d]; try contradiction.
  unfold whatsapp_shaped in Hs. unfold payload_messages, payload_entries, process_entries.
  unfold mbind at 1, db_bind at 1, lift at 1. cbn [get].
  destruct (assoc "entry" d) as [entries|]; [|contradiction].
  destruct entries as [ | | | |entries| ]; try contradiction.
  destruct entries as [|e entries]; [contradiction|].
  cbn [from_option id truthy negb].
  unfold mbind at 1, db_bind at 1, Company_objects_get at 1.
  rewrite bool_decide_eq_true_2 by assumption.
  unfold mbind at 1, db_bind at 1, lift at 1. cbn [mbind result_bind iter].
  rewrite for_each_bind. apply for_each_ext.
  intros entry t' Hin. apply entry_loop. exact (proj1 (Forall_forall _ _) Hs entry Hin).
Qed.

(** *** Messages and their conversations *)

Lemma message_threaded message_data company now t :
  valid_message message_data → unique_together (conversations t) →
  ∃ t1 row c,
    _process_incoming_message message_data company now t = (Ok (), t1) ∧
    unique_together (conversations t1) ∧
    (∃ more, conversations t1 = conversations t ++ more) ∧
    messages t1 = messages t ++ [row] ∧
    c ∈ conversations t1 ∧ triple c = (company, sender message_data, "whatsapp") ∧
    conversation row = pk c.
Proof.
  intros Hv Hu. destruct message_data as [ | | | | |d]; try contradiction.
  destruct Hv as (Hfrom & Hstamp & ty & body & atts & Hcontent & Hbody).
  unfold _process_incoming_message, sender.
  unfold mbind at 1, db_bind at 1, lift at 1. cbn [get].
  unfold mbind at 1, db_bind at 1, lift at 1.
  unfold mbind at 1, db_bind at 1, lift at 1. cbn [get mbind result_bind].
  destruct (py_int _) as [seconds|e]; [|discriminate].
  unfold mbind at 1, db_bind at 1, lift at 1. cbn [mbind result_bind] in Hstamp.
  destruct (fromtimestamp (inject_Z seconds)) as [stamp|e]; [|discriminate].
  unfold mbind at 1, db_bind at 1. unfold Conversation_objects_get_or_create at 1.
  destruct (char_field _) as [ext|e]; [|discriminate].
  destruct (MessagingFacts.get_or_create_spec (company, ext, "whatsapp")
              {| d_participants := JList [JDict [("phone", default JNone (assoc "from" d))]];
                 d_status := "active" |} (conversations t) Hu)
    as (c & b & rows' & -> & Hu' & Hin & Hk & Hrows).
  unfold mbind at 1, db_bind at 1, lift at 1. rewrite Hcontent.
  unfold Message_objects_create. cbn [Store.content].
  assert (Hmore : ∃ more, rows' = conversations t ++ more).
  { destruct Hrows as [->|[_ ->]]; [exists []; by rewrite app_nil_r | by eexists]. }
  destruct body; try contradiction; eexists _, _, c;
    (split; [reflexivity|]); (split; [exact Hu'|]); (split; [exact Hmore|]);
    (split; [reflexivity|]); (split; [exact Hin|]); (split; [exact Hk | reflexivity]).
Qed.

Lemma loop_threaded ms company now :
  Forall valid_message ms → ∀ t, unique_together (conversations t) →
  ∃ t' rows,
    for_each ms (λ message_data, _process_incoming_message message_data company now) t
      = (Ok (), t') ∧
    unique_together (conversations t') ∧
    (∃ more, conversations t' = conversations t ++ more) ∧
    messages t' = messages t ++ rows ∧
    Forall2 (λ row m, ∃ c, c ∈ conversations t' ∧
                           triple c = (company, sender m, "whatsapp") ∧
                           conversation row = pk c) rows ms.
Proof.
  induction 1 as [|m ms Hm _ IH]; intros t Hu.
  - exists t, []. split; [reflexivity|]. split; [assumption|].
    split; [exists []; by rewrite app_nil_r|]. split; [by rewrite app_nil_r | constructor].
  - destruct (message_threaded m company now t Hm Hu)
      as (t1 & row & c & E1 & Hu1 & [more1 Hc1] & Hm1 & Hin & Hk & Hfk).
    destruct (IH t1 Hu1) as (t' & rows & E & Hu' & [more Hc'] & Hm' & Hall).
    exists t', (row :: rows). simpl. unfold mbind, db_bind. rewrite E1, E.
    split; [reflexivity|]. split; [assumption|].
    split; [exists (more1 ++ more); rewrite Hc', Hc1, app_assoc; reflexivity|].
    split; [rewrite Hm', Hm1, <- app_assoc; reflexivity|].
    constructor; [|exact Hall].
    exists c. split; [|split; assumption]. rewrite Hc', elem_of_app. left. exact Hin.
Qed.

(** X11: every message of a valid payload is filed under the one
    conversation of its sender: the row it leaves refers to the row of
    the conversations that has the triple of the company, the sender
    and [whatsapp], and the constraint makes that row the only one. *)
Theorem messages_threaded webhook_data company now t :
  valid_payload webhook_data → company ∈ companies t →
  unique_together (conversations t) →
  ∃ t' rows,
    process_webhook webhook_data company now t = (Processed, t') ∧
    unique_together (conversations t') ∧
    messages t' = messages t ++ rows ∧
    Forall2 (λ row m, ∃ c, matching (company, sender m, "whatsapp") (conversations t') = [c] ∧
                           conversation row = pk c)
            rows (payload_messages webhook_data).
Proof.
  intros [Hs Hv] Hc Hu.
  destruct (loop_threaded _ company now Hv t Hu) as (t' & rows & E & Hu' & _ & Hm & Hall).
  exists t', rows. unfold process_webhook.
  rewrite (process_webhook_one_loop _ _ _ _ Hs Hc), E.
  split; [reflexivity|]. split; [assumption|]. split; [assumption|].
  eapply Forall2_impl; [exact Hall|]. intros row m (c & Hin & Hk & Hfk).
  destruct (StoreFacts.matching_present (company, sender m, "whatsapp") (conversations t') Hu')
    as (c' & Hmatch & Hin' & Hk').
  { rewrite <- Hk. apply list_elem_of_fmap_2. assumption. }
  exists c'. split; [assumption|].
  rewrite Hfk. f_equal. apply (StoreFacts.triple_inj (conversations t')); try assumption. congruence.
Qed.

Lemma two_messages_threaded :
  ∃ t' rows,
    process_webhook two_messages 1 1700000000 empty_tables = (Processed, t') ∧
    unique_together (conversations t') ∧
    messages t' = messages empty_tables ++ rows ∧
    Forall2 (λ row m, ∃ c, matching (1, sender m, "whatsapp") (conversations t') = [c] ∧
                           conversation row = pk c)
            rows (payload_messages two_messages).
Proof.
  exact (messages_threaded two_messages 1 1700000000 empty_tables
           WebhookFacts.valid_two_messages WebhookFacts.company_1_exists
           WebhookFacts.empty_tables_unique).
Defined.

End StoreMore.

(** ** matrix_integration/services/bridge_manager.py: outcomes *)

Module ManagerMore.
Import Py Lib Manager ManagerSamples.

Section WithCollab.
Context `{L : Libs} `{C : Collab}.

Ltac kept_services :=
  let k := fresh "k" in let H := fresh "H" in
  intros k H; cbn [platform_services save_status snd];
  try (rewrite lookup_insert_is_Some'; right); exact H.

Lemma restatus_twice b s s' (rows : list BridgeConnection) :
  (λ r, if bridge_id r =? bridge_id b then with_status r s' else r) <$>
    ((λ r, if bridge_id r =? bridge_id b then with_status r s else r) <$> rows)
  = restatus b s' <$> rows.
Proof.
  rewrite <- list_fmap_compose. apply list_fmap_ext. intros _ r _.
  unfold compose, restatus.
  destruct (bridge_id r =? bridge_id b) eqn:E; cbn [bridge_id with_status]; rewrite E; reflexivity.
Qed.

(** X12: [initialize_bridge] ends in one of four ways.  It returns
    [False] and changes nothing, for a platform it does not know or,
    where the database can be reached, a bridge without credentials;
    it raises what the database raised and changes nothing, where the
    database cannot be reached from the caller, since the [save] of
    its handler is outside any [try]; it returns [False] and leaves
    the bridge in [error]; or it returns [True], the bridge is
    [connected] and its service is registered.  No service registered
    before is dropped. *)
Theorem initialize_bridge_outcomes b w :
  ∃ r w', initialize_bridge b w = (r, w') ∧
    (∀ k, is_Some (platform_services w !! k) → is_Some (platform_services w' !! k)) ∧
    ((r = Ok false ∧ w' = w ∧
      (supported (platform b) = false ∨
       (orm = Ok () ∧
        filter (λ c, credentials_bridge c = bridge_id b) (bridge_credentials w) = []))) ∨
     (∃ e, r = Raise e ∧ orm = Raise e ∧ supported (platform b) = true ∧ w' = w) ∨
     (r = Ok false ∧ orm = Ok () ∧
      bridge_connections w' = restatus b "error" <$> bridge_connections w) ∨
     (r = Ok true ∧ orm = Ok () ∧
      bridge_connections w' = restatus b "connected" <$> bridge_connections w ∧
      is_Some (platform_services w' !! bridge_key_of b))).
Proof.
  unfold initialize_bridge, try_catch, initialize_bridge_body.
  destruct (supported _) eqn:Hs; cbn [negb].
  2:{ eexists _, _. split; [reflexivity|]. split; [kept_services|]. left. auto. }
  unfold mbind at 1, mgr_bind at 1.
  destruct ManagerFacts.orm_cases as [Ho|[e Ho]].
  2:{ rewrite (ManagerFacts.query_raise _ _ e Ho).
      unfold mbind at 1, mgr_bind at 1. rewrite (ManagerFacts.save_raise _ _ _ e Ho).
      eexists _, _. split; [reflexivity|]. split; [kept_services|].
      right. left. exists e. auto. }
  rewrite (ManagerFacts.query_ok _ _ Ho).
  assert (Hh : ∀ w1, (save b "error" ≫= λ _ : (), mret false) w1
                     = (Ok false, (save_status b "error" w1).2)).
  { intros w1. unfold mbind, mgr_bind. rewrite (ManagerFacts.save_ok _ _ _ Ho). reflexivity. }
  assert (Herr : ∀ w1 : World, bridge_connections w1 = bridge_connections w →
            bridge_connections (save_status b "error" w1).2
              = restatus b "error" <$> bridge_connections w).
  { intros w1 E. cbn [save_status snd bridge_connections]. rewrite E. reflexivity. }
  destruct (head _) as [credentials|] eqn:Hc.
  2:{ eexists _, _. split; [reflexivity|]. split; [kept_services|]. left.
      apply head_None in Hc. auto. }
  unfold mbind at 1, mgr_bind at 1, call at 1.
  destruct (credentials_json credentials) as [text|e].
  2:{ rewrite Hh. eexists _, _. split; [reflexivity|]. split; [kept_services|].
      right. right. left. auto. }
  unfold mbind at 1, mgr_bind at 1, call at 1.
  destruct (json_loads text) as [credentials_dict|e].
  2:{ rewrite Hh. eexists _, _. split; [reflexivity|]. split; [kept_services|].
      right. right. left. auto. }
  unfold mbind at 1, mgr_bind at 1, call at 1.
  destruct (new_service _ _ _) as [platform_service|e].
  2:{ rewrite Hh. eexists _, _. split; [reflexivity|]. split; [kept_services|].
      right. right. left. auto. }
  unfold mbind at 1, mgr_bind at 1, register at 1.
  unfold mbind at 1, mgr_bind at 1, call at 1.
  destruct (initialize_connection _ _ _ _) as [[|]|e].
  - unfold mbind at 1, mgr_bind at 1. rewrite (ManagerFacts.save_ok _ _ _ Ho).
    unfold save_status at 1.
    unfold mbind at 1, mgr_bind at 1, call at 1.
    destruct (initialize_company_bridge _ _) as [[]|e].
    + eexists _, _. split; [reflexivity|]. split; [kept_services|]. right. right. right.
      split; [reflexivity|]. split; [assumption|]. split; [reflexivity|].
      cbn [platform_services]. rewrite lookup_insert_is_Some'. left. reflexivity.
    + rewrite Hh. eexists _, _. split; [reflexivity|]. split; [kept_services|].
      right. right. left. split; [reflexivity|]. split; [assumption|].
      cbn [save_status snd bridge_connections]. apply restatus_twice.
  - unfold mbind at 1, mgr_bind at 1. rewrite (ManagerFacts.save_ok _ _ _ Ho).
    eexists _, _. split; [reflexivity|]. split; [kept_services|].
    right. right. left. auto.
  - rewrite Hh. eexists _, _. split; [reflexivity|]. split; [kept_services|].
    right. right. left. auto.
Qed.

(** *** The manager without [credentials_json] *)

Section Undeclared.
Hypothesis credentials_json_missing : ∀ c, is_ok (credentials_json c) = false.

Lemma initialize_bridge_registers_nothing b w :
  ∃ r w', initialize_bridge b w = (r, w') ∧ r ≠ Ok true ∧
          platform_services w' = platform_services w.
Proof.
  unfold initialize_bridge, try_catch, initialize_bridge_body.
  assert (Hh : ∀ w1, ∃ r w', (save b "error" ≫= λ _ : (), mret false) w1 = (r, w') ∧
                             r ≠ Ok true ∧ platform_services w' = platform_services w1).
  { intros w1. unfold mbind, mgr_bind, save. destruct orm as [[]|e];
      eexists _, _; (split; [reflexivity|]); split; try reflexivity; discriminate. }
  destruct (supported _); cbn [negb].
  2:{ eexists _, _. split; [reflexivity|]. split; [discriminate | reflexivity]. }
  unfold mbind at 1, mgr_bind at 1, query at 1.
  destruct orm as [[]|e] eqn:Ho; [|apply Hh].
  destruct (head _) as [credentials|].
  2:{ eexists _, _. split; [reflexivity|]. split; [discriminate | reflexivity]. }
  unfold mbind at 1, mgr_bind at 1, call at 1.
  pose proof (credentials_json_missing credentials) as Hno.
  destruct (credentials_json credentials) as [text|e]; [discriminate|]. apply Hh.
Qed.

Lemma service_of_registers_nothing b w :
  platform_services w = ∅ →
  ∃ r w', service_of b w = (r, w') ∧ (r = Ok None ∨ ∃ e, r = Raise e) ∧
          platform_services w' = ∅ ∧ quiet w w'.
Proof.
  intros Hempty.
  assert (E : ∃ r w', service_of b w = (r, w') ∧ (r = Ok None ∨ ∃ e, r = Raise e) ∧
                      platform_services w' = ∅).
  { unfold service_of.
    unfold mbind at 1, mgr_bind at 1, call at 1.
    rewrite Hempty, lookup_empty.
    rewrite bool_decide_eq_false_2 by (intros [? [=]]).
    unfold mbind at 1, mgr_bind at 1.
    destruct (initialize_bridge_registers_nothing b w) as (r & w' & -> & Hr & Hs).
    rewrite Hempty in Hs.
    destruct r as [[|]|e]; [contradiction| |];
      eexists _, _; (split; [reflexivity|]); eauto. }
  destruct E as (r & w' & E & Hr & Hs).
  pose proof (ManagerFacts.service_of_quiet b w) as Hq. rewrite E in Hq.
  exists r, w'. auto.
Qed.

(** X13: a manager whose credentials have no [credentials_json] to
    read, as [BridgeCredentials] declares none, records no delivery.
    From a registry of services that is empty, as [__init__] leaves
    it, [process_webhook_data] returns [False] for every platform,
    company and payload, no [BridgeMessage] row is written, nothing is
    handed to a platform, and the registry is empty afterwards, so the
    same holds for the next delivery. *)
Theorem inbound_never_recorded platform company_id webhook_data w :
  platform_services w = ∅ →
  ∃ w', process_webhook_data platform company_id webhook_data w = (false, w') ∧
        bridge_messages w' = bridge_messages w ∧ outbox w' = outbox w ∧
        platform_services w' = ∅.
Proof.
  intros Hempty.
  unfold process_webhook_data, try_except, process_webhook_data_body.
  destruct (supported platform); cbn [negb].
  2:{ eexists. split; [reflexivity|]. auto. }
  unfold mbind at 1, mgr_bind at 1, query at 1.
  destruct orm as [[]|e].
  2:{ eexists. split; [reflexivity|]. auto. }
  destruct (connected_bridge company_id platform w) as [b|].
  2:{ eexists. split; [reflexivity|]. auto. }
  unfold mbind at 1, mgr_bind at 1.
  destruct (service_of_registers_nothing b w Hempty)
    as (r & w' & -> & [->|[e ->]] & Hs & Hm & _ & _ & _ & _ & Hout);
    eexists; (split; [reflexivity|]); auto.
Qed.

(** X14: the registry of services is never written: the one write of
    [initialize_bridge] comes after the read of [credentials_json],
    which [BridgeCredentials] does not declare.  From an empty
    registry [initialize_bridge] never returns [True], [send_message]
    returns [False] for every bridge, whatever its status, hands
    nothing to a platform and writes no row, and the registry is empty
    after both. *)
Theorem registry_never_written b external_id message w :
  platform_services w = ∅ →
  (∃ r w', initialize_bridge b w = (r, w') ∧ r ≠ Ok true ∧ platform_services w' = ∅) ∧
  (∃ w', send_message b external_id message w = (false, w') ∧
         bridge_messages w' = bridge_messages w ∧ outbox w' = outbox w ∧
         platform_services w' = ∅).
Proof.
  intros Hempty. split.
  - destruct (initialize_bridge_registers_nothing b w) as (r & w' & E & Hr & Hs).
    exists r, w'. rewrite Hs. auto.
  - unfold send_message, try_except, send_message_body.
    unfold mbind at 1, mgr_bind at 1.
    destruct (service_of_registers_nothing b w Hempty)
      as (r & w' & -> & [->|[e ->]] & Hs & Hm & _ & _ & _ & _ & Hout);
      eexists; (split; [reflexivity|]); auto.
Qed.

End Undeclared.

End WithCollab.

Lemma acme_delivery_not_recorded :
  ∃ w', process_webhook_data (L := RefLibs.ref_libs true None) (C := as_declared)
          "whatsapp" 1 Payload.one_message (acme "connected") = (false, w') ∧
        bridge_messages w' = bridge_messages (acme "connected") ∧
        outbox w' = outbox (acme "connected") ∧ platform_services w' = ∅.
Proof.
  refine (inbound_never_recorded (L := RefLibs.ref_libs true None) (C := as_declared)
            _ "whatsapp" 1 Payload.one_message (acme "connected") _).
  - intros c. reflexivity.
  - reflexivity.
Defined.

Lemma acme_registry_stays_empty :
  (∃ r w', initialize_bridge (L := RefLibs.ref_libs true None) (C := as_declared)
             (acme_bridge "connected") (acme "connected") = (r, w') ∧
           r ≠ Ok true ∧ platform_services w' = ∅) ∧
  (∃ w', send_message (L := RefLibs.ref_libs true None) (C := as_declared)
           (acme_bridge "connected") (JStr "+1234567890") (JStr "hi") (acme "connected")
           = (false, w') ∧
         bridge_messages w' = bridge_messages (acme "connected") ∧
         outbox w' = outbox (acme "connected") ∧ platform_services w' = ∅).
Proof.
  refine (registry_never_written (L := RefLibs.ref_libs true None) (C := as_declared)
            _ (acme_bridge "connected") (JStr "+1234567890") (JStr "hi") (acme "connected") _).
  - intros c. reflexivity.
  - reflexivity.
Defined.

(** The same with a database that answers, as under a caller that
    allows it: the bridge of the tenant is left in [error]. *)
Example acme_bridge_left_in_error :
  initialize_bridge (L := RefLibs.ref_libs true None)
    (C := as_declared_with (Ok ()) (λ _ _ _, Ok None)) (acme_bridge "connected")
    (acme "connected") = (Ok false, acme "error") ∧
  initialize_bridge (L := RefLibs.ref_libs true None) (C := as_declared)
    (acme_bridge "connected") (acme "connected")
    = (Raise SynchronousOnlyOperation, acme "connected").
Proof. split; reflexivity. Qed.

End ManagerMore.

(** ** matrix_integration/services/matrix_bridge_service.py: what is stored *)

Module MatrixBridgeMore.
Import Py Store Messaging MatrixBridge.

Lemma process_bridge_message_body_messages
    platform external_id company_id content sender timestamp now t :
  ∃ r t', process_bridge_message_body platform external_id company_id content sender
            timestamp now t = (r, t') ∧
          messages t' = messages t ∧ companies t' = companies t.
Proof.
  unfold process_bridge_message_body.
  unfold mbind at 1, db_bind at 1, Company_objects_get at 1.
  case_bool_decide; [|eexists _, _; split; [reflexivity | split; reflexivity]].
  unfold mbind at 1, db_bind at 1, Conversation_objects_get_or_create at 1.
  destruct (char_field external_id) as [ext|e];
    [|eexists _, _; split; [reflexivity | split; reflexivity]].
  destruct (get_or_create _ _ _) as [[[c b]|e] rows'];
    eexists _, _; (split; [reflexivity | split; reflexivity]).
Qed.

Lemma process_bridge_message_messages
    platform external_id company_id content sender timestamp now t :
  messages (process_bridge_message platform external_id company_id content sender
              timestamp now t) = messages t ∧
  companies (process_bridge_message platform external_id company_id content sender
               timestamp now t) = companies t.
Proof.
  unfold process_bridge_message.
  destruct (process_bridge_message_body_messages platform external_id company_id content
              sender timestamp now t) as (r & t' & -> & Hm & Hc).
  auto.
Qed.

(** X15: [process_bridge_message] stores no message, whatever it is
    given and whatever the tables hold: the moment of the message is
    built with [timezone.utc], which Django 5 does not have, and the
    handler drops the error.  The companies are left as they were. *)
Theorem bridge_message_never_stored
    platform external_id company_id content sender timestamp now t :
  messages (process_bridge_message platform external_id company_id content sender
              timestamp now t) = messages t ∧
  companies (process_bridge_message platform external_id company_id content sender
               timestamp now t) = companies t.
Proof.
  unfold process_bridge_message.
  destruct (process_bridge_message_body_messages platform external_id company_id content
              sender timestamp now t) as (r & t' & -> & Hm & Hc).
  auto.
Qed.

(** X16: [process_bridge_message] is not atomic: the conversation is
    looked up or created before the message fails, and stays.  For a
    company that exists and a sender that a column can hold, the
    conversation of the sender is there afterwards, new if there was
    none, while the messages are those there were. *)
Theorem bridge_message_leaves_conversation
    platform external_id ext company_id content sender timestamp now t :
  unique_together (conversations t) → company_id ∈ companies t →
  char_field external_id = Ok ext →
  ∃ t' c,
    process_bridge_message platform external_id company_id content sender timestamp now t = t' ∧
    messages t' = messages t ∧
    matching (company_id, ext, platform) (conversations t') = [c] ∧
    ((company_id, ext, platform) ∈ (triple <$> conversations t) →
     conversations t' = conversations t) ∧
    ((company_id, ext, platform) ∉ (triple <$> conversations t) →
     conversations t' = conversations t ++ [c]).
Proof.
  intros Hu Hin Hext.
  destruct (process_bridge_message_messages platform external_id company_id content sender
              timestamp now t) as [Hm _].
  pose proof (MatrixBridgeFacts.process_bridge_message_conversations platform external_id ext
                company_id content sender timestamp now t Hin Hext) as Hconv.
  destruct (MessagingFacts.get_or_create_spec (company_id, ext, platform)
              {| d_participants := JList [JDict [("id", external_id); ("platform", JStr platform)]];
                 d_status := "active" |} (conversations t) Hu)
    as (c & b & rows' & E & Hu' & Hc' & Hk & Hrows).
  rewrite E in Hconv. cbn [snd] in Hconv.
  destruct (StoreFacts.matching_present (company_id, ext, platform) rows' Hu')
    as (c' & Hmatch & Hin' & Hk').
  { rewrite <- Hk. apply list_elem_of_fmap_2. assumption. }
  assert (c' = c) as ->.
  { apply (StoreFacts.triple_inj rows'); try assumption. congruence. }
  eexists _, c. split; [reflexivity|]. split; [exact Hm|]. rewrite Hconv.
  split; [exact Hmatch|]. split.
  - intros Hthere. destruct Hrows as [->|[Hnot _]]; [reflexivity | contradiction].
  - intros Hnot. destruct Hrows as [->|[_ ->]]; [|reflexivity].
    exfalso. apply Hnot. rewrite <- Hk. apply list_elem_of_fmap_2. assumption.
Qed.

(** A first message from the workspace: the conversation is created,
    the message is not. *)
Lemma first_bridge_message_lost :
  ∃ t' c,
    process_bridge_message "whatsapp" (JStr "+1234567890") 1 (JStr "Hello there!")
      (JStr "@whatsapp_1234567890:matrix.nexus.local") 1700000000000 1700000001
      Payload.empty_tables = t' ∧
    messages t' = messages Payload.empty_tables ∧
    matching (1, "+1234567890", "whatsapp") (conversations t') = [c] ∧
    ((1, "+1234567890", "whatsapp") ∈ (triple <$> conversations Payload.empty_tables) →
     conversations t' = conversations Payload.empty_tables) ∧
    ((1, "+1234567890", "whatsapp") ∉ (triple <$> conversations Payload.empty_tables) →
     conversations t' = conversations Payload.empty_tables ++ [c]).
Proof.
  refine (bridge_message_leaves_conversation "whatsapp" (JStr "+1234567890") "+1234567890" 1
            (JStr "Hello there!") (JStr "@whatsapp_1234567890:matrix.nexus.local")
            1700000000000 1700000001 Payload.empty_tables _ _ _).
  - apply NoDup_nil_2.
  - apply list_elem_of_singleton. reflexivity.
  - reflexivity.
Defined.

(** What the tables hold after it. *)
Example first_bridge_message_tables :
  let t' := process_bridge_message "whatsapp" (JStr "+1234567890") 1 (JStr "Hello there!")
              (JStr "@whatsapp_1234567890:matrix.nexus.local") 1700000000000 1700000001
              Payload.empty_tables in
  messages t' = [] ∧ length (conversations t') = 1.
Proof. vm_compute. split; reflexivity. Qed.

End MatrixBridgeMore.

(** ** messaging/webhook_views.py: deliveries over HTTP *)

Module WebhookViewsFacts.
Import Py Lib Store Messaging Payload WebhookViews.

(** X17: the verification of the webhook compares the token of the
    request with the setting as they are: a request passes exactly when
    the two are equal, a missing token and a missing setting included,
    so where the setting is not there a request without a token passes.
    A request that passes is answered with its own challenge, every
    other with 403. *)
Theorem verification_compares_with_setting setting verify_token challenge :
  (status (get setting verify_token challenge) = 200 ↔ verify_token = setting) ∧
  (verify_token = setting →
   get setting verify_token challenge = {| status := 200; body := Challenge challenge |}) ∧
  (verify_token ≠ setting →
   get setting verify_token challenge = {| status := 403; body := InvalidVerifyToken |}).
Proof.
  unfold get. case_bool_decide as H; cbn.
  - split; [tauto|]. split; [reflexivity | contradiction].
  - split; [split; [discriminate | contradiction]|]. split; [contradiction | reflexivity].
Qed.

Section WithLibs.
Context `{L : Libs} `{!LibLaws L}.

(** X18: a delivery whose body is the JSON text of a valid payload, for
    a company that exists, is answered 200 and leaves one row for each
    message of the payload, in their order. *)
Theorem post_stores_valid_delivery webhook_data company now t :
  well_formed webhook_data → valid_payload webhook_data →
  company ∈ companies t → unique_together (conversations t) →
  ∃ t' rows,
    post (json_dumps webhook_data) (Some company) now t
      = ({| status := 200; body := Success |}, t') ∧
    unique_together (conversations t') ∧
    messages t' = messages t ++ rows ∧
    message_metadata <$> rows = metadata_of <$> payload_messages webhook_data.
Proof.
  intros Hwf Hv Hc Hu.
  destruct (MessagingFacts.records_payload webhook_data company now t Hv Hc Hu)
    as (t' & rows & E & Hu' & _ & Hm & Hd).
  exists t', rows. unfold post. rewrite (loads_dumps _ Hwf), E. auto.
Qed.

Lemma payload_of_loop ms company now t :
  company ∈ companies t →
  process_entries (payload_of ms) company now t
  = for_each ms (λ message_data, _process_incoming_message message_data company now) t.
Proof.
  intros Hc. unfold process_entries, payload_of.
  unfold mbind at 1, db_bind at 1, lift at 1.
  cbn [Py.get assoc String.eqb Ascii.eqb Bool.eqb from_option id truthy negb].
  unfold mbind at 1, db_bind at 1, Company_objects_get at 1.
  rewrite bool_decide_eq_true_2 by assumption.
  unfold mbind at 1, db_bind at 1, lift at 1.
  cbn [Py.get assoc String.eqb Ascii.eqb Bool.eqb from_option id mbind result_bind iter for_each].
  unfold mbind at 1, db_bind at 1.
  unfold mbind at 1, db_bind at 1, lift at 1.
  cbn [Py.get assoc String.eqb Ascii.eqb Bool.eqb from_option id mbind result_bind iter for_each].
  unfold mbind at 1, db_bind at 1.
  unfold mbind at 1, db_bind at 1, lift at 1.
  cbn [Py.get assoc String.eqb Ascii.eqb Bool.eqb from_option id mbind result_bind iter].
  unfold mbind at 1, db_bind at 1, lift at 1.
  cbn [Py.get assoc String.eqb Ascii.eqb Bool.eqb from_option id mbind result_bind iter].
  destruct (for_each ms _ t) as [[[]|e] t1]; reflexivity.
Qed.

Lemma broken_delivery ms1 bad ms2 company now t :
  Forall valid_message ms1 →
  match bad with JDict _ => False | _ => True end →
  company ∈ companies t → unique_together (conversations t) →
  ∃ t' rows,
    process_webhook (payload_of (ms1 ++ bad :: ms2)) company now t = (Failed AttributeError, t') ∧
    unique_together (conversations t') ∧ companies t' = companies t ∧
    messages t' = messages t ++ rows ∧
    message_metadata <$> rows = metadata_of <$> ms1.
Proof.
  intros Hv Hbad Hc Hu.
  destruct (MessagingFacts.records_messages ms1 company now Hv t Hu)
    as (t1 & rows & E1 & Hu1 & Hc1 & Hm & Hd).
  exists t1, rows. split; [|auto].
  unfold process_webhook. rewrite (payload_of_loop _ _ _ _ Hc), StoreMore.for_each_app, E1.
  cbn [for_each]. unfold mbind at 1, db_bind at 1.
  assert (Hraise : _process_incoming_message bad company now t1 = (Raise AttributeError, t1)).
  { destruct bad; try contradiction; reflexivity. }
  rewrite Hraise. reflexivity.
Qed.

(** X19: a delivery in which one message is no dict is answered 400
    although the messages before it were stored; the same delivery sent
    again is answered 400 again and stores those messages a second
    time. *)
Theorem post_retry_duplicates ms1 bad ms2 company now now' t :
  well_formed (payload_of (ms1 ++ bad :: ms2)) →
  Forall valid_message ms1 →
  match bad with JDict _ => False | _ => True end →
  company ∈ companies t → unique_together (conversations t) →
  ∃ t1 t2 rows rows',
    post (json_dumps (payload_of (ms1 ++ bad :: ms2))) (Some company) now t
      = ({| status := 400; body := Error AttributeError |}, t1) ∧
    post (json_dumps (payload_of (ms1 ++ bad :: ms2))) (Some company) now' t1
      = ({| status := 400; body := Error AttributeError |}, t2) ∧
    messages t2 = messages t ++ rows ++ rows' ∧
    message_metadata <$> rows = metadata_of <$> ms1 ∧
    message_metadata <$> rows' = metadata_of <$> ms1.
Proof.
  intros Hwf Hv Hbad Hc Hu.
  destruct (broken_delivery ms1 bad ms2 company now t Hv Hbad Hc Hu)
    as (t1 & rows & E1 & Hu1 & Hc1 & Hm1 & Hd1).
  assert (Hc' : company ∈ companies t1) by (rewrite Hc1; exact Hc).
  destruct (broken_delivery ms1 bad ms2 company now' t1 Hv Hbad Hc' Hu1)
    as (t2 & rows' & E2 & _ & _ & Hm2 & Hd2).
  exists t1, t2, rows, rows'. unfold post. rewrite (loads_dumps _ Hwf), E1, E2.
  split; [reflexivity|]. split; [reflexivity|].
  split; [rewrite Hm2, Hm1, <- app_assoc; reflexivity | auto].
Qed.

End WithLibs.

(** No setting and no token: the request is verified. *)
Example verification_without_setting :
  get None None (Some "1158201444") = {| status := 200; body := Challenge (Some "1158201444") |} ∧
  get None (Some "guess") (Some "1158201444") = {| status := 403; body := InvalidVerifyToken |}.
Proof. split; reflexivity. Qed.

Lemma two_messages_well_formed : well_formed two_messages.
Proof.
  unfold two_messages. cbn.
  repeat match goal with
         | |- _ ∧ _ => split
         | |- True => exact I
         | |- NoDup _ => apply (bool_decide_unpack _); vm_compute; exact I
         end.
Qed.

Lemma post_two_messages :
  ∃ t' rows,
    post (L := RefLibs.ref_libs true None)
      (json_dumps (Libs := RefLibs.ref_libs true None) two_messages) (Some 1) 1700000000
      empty_tables = ({| status := 200; body := Success |}, t') ∧
    unique_together (conversations t') ∧
    messages t' = messages empty_tables ++ rows ∧
    message_metadata <$> rows = metadata_of <$> payload_messages two_messages.
Proof.
  exact (post_stores_valid_delivery (L := RefLibs.ref_libs true None)
           (LibLaws0 := RefLibsFacts.ref_libs_laws true None)
           two_messages 1 1700000000 empty_tables two_messages_well_formed
           WebhookFacts.valid_two_messages WebhookFacts.company_1_exists
           WebhookFacts.empty_tables_unique).
Defined.

Lemma broken_batch_well_formed : well_formed (payload_of Samples.broken_batch).
Proof.
  unfold payload_of, Samples.broken_batch, text_message. cbn.
  repeat match goal with
         | |- _ ∧ _ => split
         | |- True => exact I
         | |- NoDup _ => apply (bool_decide_unpack _); vm_compute; exact I
         end.
Qed.

Lemma post_broken_batch_twice :
  ∃ t1 t2 rows rows',
    post (L := RefLibs.ref_libs true None)
      (json_dumps (Libs := RefLibs.ref_libs true None) (payload_of Samples.broken_batch))
      (Some 1) 1700000000 empty_tables
      = ({| status := 400; body := Error AttributeError |}, t1) ∧
    post (L := RefLibs.ref_libs true None)
      (json_dumps (Libs := RefLibs.ref_libs true None) (payload_of Samples.broken_batch))
      (Some 1) 1700000060 t1
      = ({| status := 400; body := Error AttributeError |}, t2) ∧
    messages t2 = messages empty_tables ++ rows ++ rows' ∧
    message_metadata <$> rows
      = metadata_of <$> [text_message "wamid.1" "+1234567890" "1678901234" "first"] ∧
    message_metadata <$> rows'
      = metadata_of <$> [text_message "wamid.1" "+1234567890" "1678901234" "first"].
Proof.
  refine (post_retry_duplicates (L := RefLibs.ref_libs true None)
            (LibLaws0 := RefLibsFacts.ref_libs_laws true None)
            [text_message "wamid.1" "+1234567890" "1678901234" "first"]
            (JStr "not a message")
            [text_message "wamid.3" "+1234567890" "1678901236" "third"]
            1 1700000000 1700000060 empty_tables broken_batch_well_formed _ I
            WebhookFacts.company_1_exists WebhookFacts.empty_tables_unique).
  repeat constructor.
  apply (WebhookFacts.valid_text_message _ _ _ _ 1678901234%Z);
    [reflexivity | unfold datetime_min, datetime_max; lia].
Defined.

End WebhookViewsFacts.

(** ** Sending to the Graph API: what the caller is told *)

Module SendingFacts.
Import Py Graph.

Section Messaging.
Import MessagingSend.
Context `{H : Http}.
Variable str_exn : exn → string.
Variables api_url WHATSAPP_PHONE_NUMBER_ID : string.

(** X20: [send_message] of the messaging service returns a dict in
    every case, with the status [sent] or [failed], and [sent] exactly
    when the API answered 200 with a JSON body from which the id of the
    message can be read. *)
Theorem sent_iff_accepted phone_number message company_id message_type media_url :
  ∃ r, send_message str_exn api_url WHATSAPP_PHONE_NUMBER_ID
         phone_number message company_id message_type media_url = r ∧
    (getitem r "status" = Ok (JStr "sent") ∨ getitem r "status" = Ok (JStr "failed")) ∧
    (getitem r "status" = Ok (JStr "sent") ↔
     ∃ response result id,
       post (messages_url api_url WHATSAPP_PHONE_NUMBER_ID)
            (message_payload phone_number message message_type media_url) = Ok response ∧
       status_code response = 200 ∧ json_body response = Ok result ∧
       message_id result = Ok id).
Proof.
  unfold send_message, _get_phone_number_id. cbv zeta.
  destruct (post _ _) as [response|e] eqn:Hpost; cbn [mbind result_bind].
  2:{ eexists. split; [reflexivity|]. split; [right; reflexivity|].
      split; [discriminate | intros (? & ? & ? & [=] & _)]. }
  destruct (status_code response =? 200) eqn:Hstatus.
  2:{ eexists. split; [reflexivity|]. split; [right; reflexivity|].
      split; [discriminate|]. intros (? & ? & ? & [= <-] & Hs & _).
      apply Nat.eqb_neq in Hstatus. contradiction. }
  apply Nat.eqb_eq in Hstatus.
  destruct (json_body response) as [result|e] eqn:Hjson; cbn [mbind result_bind].
  2:{ eexists. split; [reflexivity|]. split; [right; reflexivity|].
      split; [discriminate|]. intros (? & ? & ? & [= <-] & _ & Hj & _). congruence. }
  destruct (message_id result) as [id|e] eqn:Hid; cbn [mbind result_bind].
  2:{ eexists. split; [reflexivity|]. split; [right; reflexivity|].
      split; [discriminate|]. intros (? & ? & ? & [= <-] & _ & Hj & Hi). congruence. }
  eexists. split; [reflexivity|]. split; [left; reflexivity|].
  split; [|reflexivity]. intros _. exists response, result, id. auto.
Qed.

(** X21: a message that the API took, answering 200 with an empty
    list of messages, is reported as [failed]: reading the id raises
    [IndexError], after the message has left. *)
Theorem accepted_without_id_reported_failed
    phone_number message company_id message_type media_url response d :
  post (messages_url api_url WHATSAPP_PHONE_NUMBER_ID)
       (message_payload phone_number message message_type media_url) = Ok response →
  status_code response = 200 → json_body response = Ok (JDict d) →
  assoc "messages" d = Some (JList []) →
  send_message str_exn api_url WHATSAPP_PHONE_NUMBER_ID
    phone_number message company_id message_type media_url
  = JDict [("status", JStr "failed"); ("error", JStr (str_exn IndexError))].
Proof.
  intros Hpost Hstatus Hjson Hmessages.
  unfold send_message, _get_phone_number_id. cbv zeta.
  rewrite Hpost. cbn [mbind result_bind]. rewrite Hstatus. cbn [Nat.eqb].
  rewrite Hjson. cbn [mbind result_bind].
  unfold message_id. cbn [get]. rewrite Hmessages. reflexivity.
Qed.

End Messaging.

Section Platform.
Import PlatformSend.
Context `{H : Http}.
Variable str_exn : exn → string.
Variables base_url phone_number_id : string.

(** X22: [send_message] of the platform service, given a text as
    recipient, returns a dict that is never empty, so a caller that
    tests the result itself takes every outcome for a success; the
    dict says [success: True] exactly when the API answered 200 with a
    body from which the id of the message can be read. *)
Theorem platform_result_always_truthy to content message_type :
  ∃ r, send_message str_exn base_url phone_number_id (JStr to) content message_type = Ok r ∧
    truthy r = true ∧
    (getitem r "success" = Ok (JBool true) ∨ getitem r "success" = Ok (JBool false)) ∧
    (getitem r "success" = Ok (JBool true) ↔
     ∃ response result id,
       post (messages_url base_url phone_number_id)
            (message_payload (remove_plus to) content message_type) = Ok response ∧
       status_code response = 200 ∧ json_body response = Ok result ∧
       message_id result = Ok id).
Proof.
  unfold send_message. cbv zeta.
  destruct (post _ _) as [response|e] eqn:Hpost; cbn [mbind result_bind].
  2:{ eexists. split; [reflexivity|]. split; [reflexivity|]. split; [right; reflexivity|].
      split; [discriminate | intros (? & ? & ? & [=] & _)]. }
  destruct (json_body response) as [result|e] eqn:Hjson; cbn [mbind result_bind].
  2:{ eexists. split; [reflexivity|]. split; [reflexivity|]. split; [right; reflexivity|].
      split; [discriminate|]. intros (? & ? & ? & [= <-] & _ & Hj & _). congruence. }
  destruct (status_code response =? 200) eqn:Hstatus.
  - apply Nat.eqb_eq in Hstatus.
    destruct (message_id result) as [id|e] eqn:Hid; cbn [mbind result_bind].
    + eexists. split; [reflexivity|]. split; [reflexivity|]. split; [left; reflexivity|].
      split; [|reflexivity]. intros _. exists response, result, id. auto.
    + eexists. split; [reflexivity|]. split; [reflexivity|]. split; [right; reflexivity|].
      split; [discriminate|]. intros (? & ? & ? & [= <-] & _ & Hj & Hi). congruence.
  - apply Nat.eqb_neq in Hstatus.
    assert (Hno : ¬ ∃ response0 result0 id,
                    Ok response = Ok response0 ∧ status_code response0 = 200 ∧
                    json_body response0 = Ok result0 ∧ message_id result0 = Ok id).
    { intros (? & ? & ? & [= <-] & Hs & _). contradiction. }
    destruct (get result "error" (JDict [])) as [error|e]; cbn [mbind result_bind];
      [destruct (get error "message" (JStr "Unknown error")) as [text|e]; cbn [mbind result_bind]|];
      (eexists; split; [reflexivity|]; split; [reflexivity|]; split; [right; reflexivity|];
       split; [discriminate | intros Hyes; destruct (Hno Hyes)]).
Qed.

End Platform.

Lemma accepted_without_id_failed :
  MessagingSend.send_message (H := PlatformSend.accepted_without_id) exn_class
    "https://graph.facebook.com/v17.0" "123456789"
    (JStr "+1234567890") (JStr "Hello") (JInt 1) "text" JNone
  = JDict [("status", JStr "failed"); ("error", JStr (exn_class IndexError))].
Proof.
  apply (accepted_without_id_reported_failed (H := PlatformSend.accepted_without_id) exn_class
           "https://graph.facebook.com/v17.0" "123456789"
           (JStr "+1234567890") (JStr "Hello") (JInt 1) "text" JNone
           {| status_code := 200;
              json_body := Ok (JDict [("messaging_product", JStr "whatsapp");
                                      ("messages", JList [])]);
              text := "" |}
           [("messaging_product", JStr "whatsapp"); ("messages", JList [])]);
    reflexivity.
Defined.

(** A refusal of the API comes back as a dict that tests true. *)
Example refused_send_tests_true :
  ∃ r, PlatformSend.send_message (H := PlatformSend.refusing) exn_class
         "https://graph.facebook.com/v17.0" "123456789" (JStr "+1234567890") (JStr "Hello") "text"
       = Ok r ∧ truthy r = true ∧ getitem r "success" = Ok (JBool false).
Proof. eexists. repeat split. Qed.

End SendingFacts.

(** ** matrix_integration/services/ai_service.py: the score *)

Module AIFacts.
Import Py AI.

Section WithText.
Context `{T : Text}.

(** X23: the score of an answer is one of 0.3, 0.6, 0.7 and 0.9, it
    does not depend on the message that was answered, and it reaches
    the default threshold 0.8 exactly when the answer has more than ten
    words and none of the generic phrases. *)
Theorem confidence_levels message message' response :
  calculate_confidence message response ∈ [3 # 10; 6 # 10; 7 # 10; 9 # 10] ∧
  calculate_confidence message' response = calculate_confidence message response ∧
  (Qle_bool (8 # 10) (calculate_confidence message response) = true ↔
   10 < length (split response) ∧
   existsb (λ phrase, contains_text phrase (lower response)) generic_phrases = false).
Proof.
  split; [|split; [reflexivity|]]; unfold calculate_confidence.
  - destruct (length (split response) <? 3); [set_solver|].
    destruct (existsb _ _); [set_solver|].
    destruct (10 <? length (split response)); set_solver.
  - destruct (length (split response) <? 3) eqn:Hshort.
    + apply Nat.ltb_lt in Hshort. split; [discriminate | lia].
    + destruct (existsb _ _).
      * split; [discriminate | intros [_ [=]]].
      * destruct (10 <? length (split response)) eqn:Hlong.
        -- apply Nat.ltb_lt in Hlong. split; [auto | reflexivity].
        -- apply Nat.ltb_ge in Hlong. split; [discriminate | lia].
Qed.

(** X24: a response that [generate_response] returns has a text that
    is not empty, the score of that text, and the model
    [gemini-2.0-flash-001] whatever model the configuration names; and
    there is none without a client. *)
Theorem generated_response_shape client message context config r :
  generate_response client message context config = Some r →
  ∃ c text,
    client = Some c ∧
    generate_content (Client := c) message (Manager.system_prompt config) context = Ok text ∧
    text ≠ "" ∧ Manager.response_content r = JStr text ∧
    truthy (Manager.response_content r) = true ∧
    Manager.confidence r = calculate_confidence message text ∧
    Manager.model r = "gemini-2.0-flash-001".
Proof.
  unfold generate_response. destruct client as [c|]; [|discriminate].
  destruct (generate_content _ _ _) as [text|e] eqn:Hgen; [|discriminate].
  destruct (String.eqb text "") eqn:Hempty; [discriminate|]. cbn [negb].
  intros [= <-]. exists c, text. cbn [Manager.response_content Manager.confidence Manager.model truthy].
  rewrite Hempty. apply String.eqb_neq in Hempty. repeat split; auto.
Qed.

End WithText.

Lemma short_answer_scored :
  ∃ c text,
    Some (parrot "Thank you!") = Some c ∧
    generate_content (Client := c) "Where is my order?"
      (Manager.system_prompt acme_config) [] = Ok text ∧
    text ≠ "" ∧ Manager.response_content short_answer = JStr text ∧
    truthy (Manager.response_content short_answer) = true ∧
    Manager.confidence short_answer
      = calculate_confidence (T := ascii_text) "Where is my order?" text ∧
    Manager.model short_answer = "gemini-2.0-flash-001".
Proof.
  apply (generated_response_shape (T := ascii_text) (Some (parrot "Thank you!"))
           "Where is my order?" [] acme_config short_answer).
  vm_compute. reflexivity.
Defined.

(** The scorer on three answers: a short one, a generic one, and one
    that is long and specific. *)
Example confidence_examples :
  calculate_confidence (T := ascii_text) "" "Thank you!" = 3 # 10 ∧
  calculate_confidence (T := ascii_text) ""
    "I CAN HELP you with the order that you placed last week, it ships tomorrow." = 6 # 10 ∧
  calculate_confidence (T := ascii_text) ""
    "Your order 1042 left the warehouse on Monday and will arrive on Thursday." = 9 # 10.
Proof. repeat split; vm_compute; reflexivity. Qed.

(** X25: where the scorer returns no response, as it does without a
    client, [_process_with_ai] leaves the world as it is: nothing is
    sent, no row is written and no status changes. *)
Theorem no_response_no_reply `{L : Lib.Libs} `{C : Manager.Collab} bridge_connection message w :
  (∀ content context config r,
     Manager.generate_response_sync content context config ≠ Ok (Some r)) →
  Manager._process_with_ai bridge_connection message w = w.
Proof.
  intros Hnone. unfold Manager._process_with_ai, Manager.try_except, Manager._process_with_ai_body.
  unfold mbind at 1, Manager.mgr_bind at 1, Manager.query at 1.
  destruct Manager.orm; [|reflexivity].
  destruct (head _) as [config|]; [|reflexivity].
  unfold mbind at 1, Manager.mgr_bind at 1, Manager.call at 1.
  destruct (Manager.config_enabled config) as [[|]|e]; cbn [negb]; try reflexivity.
  unfold mbind at 1, Manager.mgr_bind at 1, Manager.call at 1.
  destruct (Manager.recent_messages _ _ _) as [context|e]; [|reflexivity].
  unfold mbind at 1, Manager.mgr_bind at 1, Manager.call at 1.
  destruct (Manager.generate_response_sync _ _ _) as [[response|]|e] eqn:Hr; try reflexivity.
  destruct (Hnone _ _ _ _ Hr).
Qed.

Lemma without_key_no_reply :
  Manager._process_with_ai (L := RefLibs.ref_libs true None) (C := Manager.as_declared)
    (Manager.acme_bridge "connected") Manager.inbound_hello (Manager.acme "connected")
  = Manager.acme "connected".
Proof.
  apply (no_response_no_reply (L := RefLibs.ref_libs true None) (C := Manager.as_declared)).
  intros content context config r. discriminate.
Defined.

End AIFacts.

(** ** matrix_integration/models.py: the credentials of a bridge *)

Module CredentialsMore.
Import Py Lib Credentials.

(** X26: with the [cryptography] package and a key in the settings that
    [Fernet] takes as it is, [encrypt_credentials] stores a text from
    which [decrypt_credentials] reads the credentials back unchanged,
    for every credential map. *)
Theorem credentials_round_trip `{L : Libs} `{!LibLaws L} self data r key :
  cryptography_installed = true → BRIDGE_ENCRYPTION_KEY = Some key →
  is_ok (Fernet (encode key)) = true → well_formed data →
  ∃ self', encrypt_credentials self data r = Ok self' ∧
           bridge self' = bridge self ∧ encryption_version self' = encryption_version self ∧
           decrypt_credentials self' = Ok data.
Proof.
  intros Hi Hkey Hok Hwf.
  assert (Hf : ∃ f, settings_fernet = Ok f).
  { unfold settings_fernet. rewrite Hi, Hkey. cbn [from_option mbind result_bind].
    destruct (Fernet (encode key)) as [f|e]; [eauto | discriminate]. }
  destruct Hf as [f Hf]. unfold encrypt_credentials, decrypt_credentials.
  rewrite Hf. cbn [mbind result_bind].
  destruct (token_text f r (encode (json_dumps data))) as (s & Hd & He & _).
  rewrite Hd. cbn [mbind result_bind]. eexists. split; [reflexivity|].
  split; [reflexivity|]. split; [reflexivity|]. cbn [encrypted_data].
  rewrite He, decrypt_encrypt. cbn [mbind result_bind].
  rewrite decode_encode. cbn [mbind result_bind]. apply loads_dumps. assumption.
Qed.

Lemma sample_creds_bridge_round_trip :
  ∃ self',
    encrypt_credentials (L := RefLibs.ref_libs true (Some "0123456789abcdef0123456789abcdef"))
      {| bridge := 7; encrypted_data := ""; encryption_version := "v1" |} Vault.sample_creds 7
      = Ok self' ∧
    bridge self' = 7 ∧ encryption_version self' = "v1" ∧
    decrypt_credentials (L := RefLibs.ref_libs true (Some "0123456789abcdef0123456789abcdef")) self'
      = Ok Vault.sample_creds.
Proof.
  apply (credentials_round_trip
           (L := RefLibs.ref_libs true (Some "0123456789abcdef0123456789abcdef"))
           (LibLaws0 := RefLibsFacts.ref_libs_laws true (Some "0123456789abcdef0123456789abcdef"))
           {| bridge := 7; encrypted_data := ""; encryption_version := "v1" |}
           Vault.sample_creds 7 "0123456789abcdef0123456789abcdef").
  - reflexivity.
  - reflexivity.
  - reflexivity.
  - exact VaultFacts.sample_creds_well_formed.
Defined.

End CredentialsMore.
